(** * travia-agent: intent validation, routing, provider orchestration,
      web-search fallback and result synthesis

    A shallow embedding of [src/agents/nodes.py], [src/agents/routers.py],
    [src/agents/graph.py], [src/models/state.py] and [src/utils/cache.py],
    followed by the properties of the orchestration engine.

    Conventions.
    - A Python [str] is a [string] holding its UTF-8 bytes; concatenation,
      equality, emptiness and substring tests are the same on both sides, and
      slicing is done per code point ([py_take]).
    - A [Dict[str, Any]] whose values are scalars (the intent mapping, a
      provider error entry, a web-search result) is a [gmap string pyval].
    - Provider payloads (flight offers, hotels, hotel offers) are [json]
      values.
    - The external collaborators (language model, flight/hotel provider, HTTP
      search backends, clock, Python library parsers) are the fields of a
      [World]; a node is a computation in the monad [M], whose state is the
      process-wide airport cache and the log of external calls. *)

From Stdlib Require Import ZArith String Ascii.
From Stdlib Require Import PrimFloat SpecFloat.
From Stdlib Require FloatOps.
From stdpp Require Import gmap strings list fin_maps pretty.

Open Scope string_scope.
Open Scope Z_scope.
Open Scope list_scope.

(** ** Python values *)

(** The values a field of [TravelIntent] (schemas.py) can hold:
    [Optional[str]], [int] and [str]. *)
Inductive pyval : Type :=
  | PNone
  | PStr (s : string)
  | PInt (z : Z).

#[global] Instance pyval_eq_dec : EqDecision pyval.
Proof. solve_decision. Defined.

(** [bool(v)] *)
Definition truthy (v : pyval) : bool :=
  match v with
  | PNone => false
  | PStr s => negb (bool_decide (s = ""))
  | PInt z => negb (bool_decide (z = 0))
  end.

(** [a == b] *)
Definition py_eq (a b : pyval) : bool := bool_decide (a = b).

(** [str(v)], which is also what an f-string field renders. *)
Definition py_str (v : pyval) : string :=
  match v with
  | PNone => "None"
  | PStr s => s
  | PInt z => pretty z
  end.

(** [d.get(k)] *)
Definition py_get (d : gmap string pyval) (k : string) : pyval :=
  default PNone (d !! k).

(** [d.get(k, dflt)] *)
Definition py_get_or (d : gmap string pyval) (k : string) (dflt : pyval) : pyval :=
  default dflt (d !! k).

(** [sep.join(l)] *)
Definition py_join (sep : string) (l : list string) : string :=
  String.concat sep l.

(** ** Exceptions and results *)

Inductive exn : Type :=
  | TypeError
  | ValueError
  | KeyError (k : string)
  | IndexError
  | AttributeError
  | OverflowError
  | GraphRecursionError
  | ProviderException (msg : string).

Inductive outcome (A : Type) : Type :=
  | Returns (a : A)
  | Raises (e : exn).
Arguments Returns {A} a.
Arguments Raises {A} e.

(** ** Calendar dates *)

Record date : Type := Date { d_year : Z; d_month : Z; d_day : Z }.

Record datetime : Type :=
  DateTime { dt_date : date; dt_hour : Z; dt_minute : Z }.

(** [a < b] on [datetime.date] *)
Definition date_ltb (a b : date) : bool :=
  (d_year a <? d_year b)
  || ((d_year a =? d_year b)
      && ((d_month a <? d_month b)
          || ((d_month a =? d_month b) && (d_day a <? d_day b)))).

(** ** The intent post-processing of [intent_node] (nodes.py, lines 65-153) *)

Section Validator.

(** [datetime.fromisoformat] on a [str]: [None] stands for [ValueError]. *)
Variable fromisoformat : string -> option datetime.
(** [datetime.now().date()] *)
Variable today : date.

(** [if cond: missing.append(item)] *)
Definition append_if (cond : bool) (item : string) (missing : list string)
  : list string :=
  if cond then missing ++ [item] else missing.

(** [if missing: intent_data["intent"] = "clarify";
                 intent_data["reasoning"] = f"Missing: {', '.join(missing)}"] *)
Definition clarify_if_missing (missing : list string)
    (intent_data : gmap string pyval) : gmap string pyval :=
  match missing with
  | [] => intent_data
  | _ :: _ =>
      <["reasoning" := PStr ("Missing: " +:+ py_join ", " missing)]>
        (<["intent" := PStr "clarify"]> intent_data)
  end.

(** Lines 71-75: a hotel search whose city was put in [origin]. *)
Definition fix_hotel_origin (original_intent : pyval)
    (intent_data : gmap string pyval) : gmap string pyval :=
  if py_eq original_intent (PStr "hotel_search") then
    if truthy (py_get intent_data "origin")
       && negb (truthy (py_get intent_data "destination"))
    then <["origin" := PNone]>
           (<["destination" := py_get intent_data "origin"]> intent_data)
    else intent_data
  else intent_data.

(** Lines 79-97: the [missing] list of a flight search. *)
Definition flight_missing (intent_data : gmap string pyval) : list string :=
  let missing := [] in
  let missing :=
    append_if (negb (truthy (py_get intent_data "origin")))
      "departure city/airport" missing in
  let missing :=
    append_if (negb (truthy (py_get intent_data "destination")))
      "arrival city/airport" missing in
  let missing :=
    append_if (truthy (py_get intent_data "origin")
               && truthy (py_get intent_data "destination")
               && py_eq (py_get intent_data "origin")
                        (py_get intent_data "destination"))
      "arrival city/airport (cannot be same as departure)" missing in
  let missing :=
    append_if (negb (truthy (py_get intent_data "check_in")))
      "departure/travel date" missing in
  missing.

(** Lines 107-116: the [missing] list of a hotel search. *)
Definition hotel_missing (intent_data : gmap string pyval) : list string :=
  let missing := [] in
  let missing :=
    append_if (negb (truthy (py_get intent_data "destination")))
      "destination city" missing in
  let missing :=
    append_if (negb (truthy (py_get intent_data "check_in")))
      "check-in date" missing in
  let missing :=
    append_if (negb (truthy (py_get intent_data "check_out")))
      "check-out date" missing in
  missing.

(** Lines 125-137: the [missing] list of a combined search. *)
Definition both_missing (intent_data : gmap string pyval) : list string :=
  let missing := [] in
  let missing :=
    append_if (negb (truthy (py_get intent_data "origin")))
      "departure city/airport" missing in
  let missing :=
    append_if (negb (truthy (py_get intent_data "destination")))
      "destination city" missing in
  let missing :=
    append_if (negb (truthy (py_get intent_data "check_in")))
      "check-in/departure date" missing in
  let missing :=
    append_if (negb (truthy (py_get intent_data "check_out")))
      "check-out date" missing in
  missing.

(** Lines 77-142: the three strict validations, each guarded by the intent
    the extraction had ([original_intent] is read once, line 69). *)
Definition completeness_check (original_intent : pyval)
    (intent_data : gmap string pyval) : gmap string pyval :=
  let intent_data :=
    if py_eq original_intent (PStr "flight_search")
    then clarify_if_missing (flight_missing intent_data) intent_data
    else intent_data in
  let intent_data :=
    if py_eq original_intent (PStr "hotel_search")
    then clarify_if_missing (hotel_missing intent_data) intent_data
    else intent_data in
  let intent_data :=
    if py_eq original_intent (PStr "both")
    then clarify_if_missing (both_missing intent_data) intent_data
    else intent_data in
  intent_data.

Definition past_reasoning : string :=
  "Check-in/departure date cannot be in the past".
Definition invalid_date_reasoning : string :=
  "Invalid date format. Please provide a valid date.".

(** Lines 144-153.  [fromisoformat] raises [TypeError], which the
    [except ValueError] does not catch, on a value that is not a [str]. *)
Definition past_date_guard (intent_data : gmap string pyval)
  : outcome (gmap string pyval) :=
  if truthy (py_get intent_data "check_in") then
    match py_get intent_data "check_in" with
    | PStr s =>
        match fromisoformat s with
        | Some check_in_date =>
            if date_ltb (dt_date check_in_date) today
            then Returns (<["reasoning" := PStr past_reasoning]>
                            (<["intent" := PStr "clarify"]> intent_data))
            else Returns intent_data
        | None =>
            Returns (<["reasoning" := PStr invalid_date_reasoning]>
                       (<["intent" := PStr "clarify"]> intent_data))
        end
    | _ => Raises TypeError
    end
  else Returns intent_data.

(** Lines 69-153 in sequence: what [intent_node] does to the mapping the
    language model returned. *)
Definition validate_intent (intent_data : gmap string pyval)
  : outcome (gmap string pyval) :=
  let original_intent := py_get intent_data "intent" in
  let intent_data := fix_hotel_origin original_intent intent_data in
  let intent_data := completeness_check original_intent intent_data in
  past_date_guard intent_data.

End Validator.

(** ** Strings *)

Definition nl : string := String "010"%char EmptyString.
Definition dquote : string := String "034"%char EmptyString.

(** A UTF-8 continuation byte [10xxxxxx]: every other byte starts a code
    point. *)
Definition is_continuation (a : ascii) : bool :=
  let n := nat_of_ascii a in
  (Nat.leb 128 n) && (Nat.ltb n 192).

(** [len(s)]: the number of code points. *)
Fixpoint py_len (s : string) : nat :=
  match s with
  | EmptyString => 0%nat
  | String a s' => ((if is_continuation a then 0 else 1) + py_len s')%nat
  end.

(** [s[:n]]: the first [n] code points. *)
Fixpoint py_take (n : nat) (s : string) : string :=
  match s with
  | EmptyString => EmptyString
  | String a s' =>
      if is_continuation a then String a (py_take n s')
      else match n with
           | O => EmptyString
           | S n' => String a (py_take n' s')
           end
  end.

(** [sub in s] *)
Fixpoint py_contains (sub s : string) : bool :=
  String.prefix sub s
  || match s with
     | EmptyString => false
     | String _ s' => py_contains sub s'
     end.

(** [s.replace(old, new)] for one-byte [old] and [new]. *)
Fixpoint py_replace_char (old new : ascii) (s : string) : string :=
  match s with
  | EmptyString => EmptyString
  | String a s' =>
      String (if bool_decide (a = old) then new else a)
             (py_replace_char old new s')
  end.

(** [f"{n:02d}"], as [strftime] pads its numeric fields. *)
Definition pad2 (n : Z) : string :=
  if (0 <=? n) && (n <? 10) then "0" +:+ pretty n else pretty n.

(** ** Floats *)

(** settings.py *)
Definition EUR_TO_INR : float := 107.19%float.

(** [float(z)] for an [int]: round to nearest even, [OverflowError] when
    the value is beyond the doubles. *)
Definition float_of_Z (z : Z) : outcome float :=
  match binary_normalize FloatOps.prec FloatOps.emax z 0 false with
  | S754_infinity _ => Raises OverflowError
  | sf => Returns (FloatOps.SF2Prim sf)
  end.

(** [int(f)] for a [float]: truncation toward zero. *)
Definition py_int (f : float) : outcome Z :=
  match FloatOps.Prim2SF f with
  | S754_zero _ => Returns 0
  | S754_finite sign m e =>
      let a := if 0 <=? e then Z.pos m * 2 ^ e else Z.pos m / 2 ^ (- e) in
      Returns (if sign then - a else a)
  | S754_infinity _ => Raises OverflowError
  | S754_nan => Raises ValueError
  end.

(** ** Provider payloads *)

Inductive json : Type :=
  | JNull
  | JBool (b : bool)
  | JInt (z : Z)
  | JFloat (f : float)
  | JStr (s : string)
  | JArr (l : list json)
  | JObj (o : gmap string json).

(** [bool(j)] *)
Definition j_truthy (j : json) : bool :=
  match j with
  | JNull => false
  | JBool b => b
  | JInt z => negb (bool_decide (z = 0))
  | JFloat f => negb (PrimFloat.eqb f 0%float)
  | JStr s => negb (bool_decide (s = ""))
  | JArr l => match l with [] => false | _ :: _ => true end
  | JObj o => negb (bool_decide (o = ∅))
  end.

(** [j == "lit"] against a string literal. *)
Definition j_is_str (j : json) (lit : string) : bool :=
  match j with
  | JStr s => bool_decide (s = lit)
  | _ => false
  end.

(** [d[k]] on a mapping. *)
Definition obj_item (o : gmap string json) (k : string) : outcome json :=
  match o !! k with
  | Some v => Returns v
  | None => Raises (KeyError k)
  end.

(** [j[k]] for a string key: only a mapping can be subscripted by one. *)
Definition j_item (j : json) (k : string) : outcome json :=
  match j with
  | JObj o => obj_item o k
  | _ => Raises TypeError
  end.

(** [j[0]] *)
Definition j_first (j : json) : outcome json :=
  match j with
  | JArr l => match l with x :: _ => Returns x | [] => Raises IndexError end
  | JStr s => if bool_decide (s = "") then Raises IndexError
              else Returns (JStr (py_take 1 s))
  | JObj _ => Raises (KeyError "0")
  | _ => Raises TypeError
  end.

(** [d.get(k, dflt)] on a mapping. *)
Definition obj_get (o : gmap string json) (k : string) (dflt : json) : json :=
  default dflt (o !! k).

(** [j.get(k, dflt)]: only a mapping has [get]. *)
Definition j_get (j : json) (k : string) (dflt : json) : outcome json :=
  match j with
  | JObj o => Returns (obj_get o k dflt)
  | _ => Raises AttributeError
  end.

(** [len(j)] *)
Definition j_len (j : json) : outcome nat :=
  match j with
  | JStr s => Returns (py_len s)
  | JArr l => Returns (length l)
  | JObj o => Returns (size o)
  | _ => Raises TypeError
  end.

(** ** Orchestration state (models/state.py) *)

(** One entry of [conversation_history]. *)
Record message : Type := Message { role : string; content : string }.

Record AgentState : Type := mkAgentState {
  query : string;
  conversation_history : list message;
  intent : option (gmap string pyval);
  flights : option (list (gmap string json));
  hotels : option (list (gmap string json));
  response : option string;
  use_web_search : bool;
  search_query : option string
}.

(** [AgentState(query=..., conversation_history=...)] (api/endpoints.py). *)
Definition initial_state (q : string) (history : list message) : AgentState :=
  {| query := q; conversation_history := history; intent := None;
     flights := None; hotels := None; response := None;
     use_web_search := false; search_query := None |}.

(** The mapping a node returns: the keys it sets, each with its new value. *)
Record Update : Type := mkUpdate {
  upd_intent : option (gmap string pyval);
  upd_flights : option (list (gmap string json));
  upd_hotels : option (list (gmap string json));
  upd_response : option (option string);
  upd_use_web_search : option bool;
  upd_search_query : option string
}.

(** [{}] *)
Definition no_update : Update :=
  {| upd_intent := None; upd_flights := None; upd_hotels := None;
     upd_response := None; upd_use_web_search := None;
     upd_search_query := None |}.

(** [{"response": text}] *)
Definition response_update (text : string) : Update :=
  {| upd_intent := None; upd_flights := None; upd_hotels := None;
     upd_response := Some (Some text); upd_use_web_search := None;
     upd_search_query := None |}.

(** [{"flights": [], "response": text}] *)
Definition flight_failure (text : string) : Update :=
  {| upd_intent := None; upd_flights := Some []; upd_hotels := None;
     upd_response := Some (Some text); upd_use_web_search := None;
     upd_search_query := None |}.

(** [{"hotels": [], "response": text}] *)
Definition hotel_failure (text : string) : Update :=
  {| upd_intent := None; upd_flights := None; upd_hotels := Some [];
     upd_response := Some (Some text); upd_use_web_search := None;
     upd_search_query := None |}.

(** The graph writes every key of a node's mapping over the state's. *)
Definition apply_update (state : AgentState) (u : Update) : AgentState :=
  {| query := query state;
     conversation_history := conversation_history state;
     intent := match upd_intent u with Some i => Some i | None => intent state end;
     flights := match upd_flights u with Some f => Some f | None => flights state end;
     hotels := match upd_hotels u with Some h => Some h | None => hotels state end;
     response := default (response state) (upd_response u);
     use_web_search := default (use_web_search state) (upd_use_web_search u);
     search_query :=
       match upd_search_query u with
       | Some q => Some q
       | None => search_query state
       end |}.

(** ** The graph's nodes (agents/graph.py) *)

Inductive node : Type :=
  | NIntent
  | NFlightTool
  | NHotelTool
  | NClarify
  | NSynthesis
  | NWebSearchFallback.

#[global] Instance node_eq_dec : EqDecision node.
Proof. solve_decision. Defined.

(** ** External collaborators *)

(** [amadeus.ResponseError]: [re_str] is [str(e)]; [re_errors] is
    [e.response.result.get('errors')], [None] when reading it raises or the
    payload has no such entry. *)
Record ResponseError : Type := mkResponseError {
  re_str : string;
  re_errors : option (list (gmap string pyval))
}.

(** What a call of [amadeus_service] does: return data, raise
    [ResponseError], or raise anything else (with its [str]). *)
Inductive provider_result (A : Type) : Type :=
  | Ok (data : A)
  | Failed (e : ResponseError)
  | Crashed (msg : string).
Arguments Ok {A} data.
Arguments Failed {A} e.
Arguments Crashed {A} msg.

(** [requests.get(searxng_url, ...)]: an exception (time-out, connection
    error), or a response with its [status_code]; [results] is
    [response.json().get('results', [])], [None] when decoding raises. *)
Inductive http_result : Type :=
  | HttpError
  | HttpResponse (status_code : Z) (results : option (list (gmap string pyval))).

(** One [div.result__body] of the HTML search page: the [a.result__a]
    element (text and [href]) and the [a.result__snippet] text. *)
Record ddg_block : Type := mkDdgBlock {
  title_elem : option (string * string);
  snippet_elem : option string
}.

(** [requests.post(ddg_url, ...)] followed by the HTML parse. *)
Inductive ddg_result : Type :=
  | DdgError
  | DdgResponse (status_code : Z) (blocks : option (list ddg_block)).

Record World : Type := mkWorld {
  (** [datetime.now().date()] *)
  datetime_today : date;
  (** [datetime.fromisoformat] on a [str]; [None] is [ValueError] *)
  datetime_fromisoformat : string -> option datetime;
  (** [float] on a [str]; [None] is [ValueError] *)
  float_of_str : string -> option float;
  (** [str.title] *)
  str_title : string -> string;
  (** [str] of a float, a list or a mapping *)
  py_repr : json -> string;
  (** [structured.invoke(prompt)]: the prompt is built from the query, the
      last four turns and the clock *)
  structured_invoke : string -> list message -> outcome (gmap string pyval);
  search_flights :
    pyval -> pyval -> pyval -> pyval -> provider_result (list (gmap string json));
  search_hotels_by_city : pyval -> provider_result (list (gmap string json));
  search_hotel_offers :
    json -> pyval -> pyval -> pyval -> provider_result (list (gmap string json));
  (** [get_location_info(code, "AIRPORT")[0]["address"]["cityName"]];
      [None] when the call or the reading raises *)
  location_city_name : string -> option string;
  searxng_get : string -> string -> http_result;
  ddg_post : string -> ddg_result;
  (** [str(e)] of the exception a run raises, for the classes whose message
      the model does not carry: the message depends on the place that
      raised *)
  exception_text : exn -> string
}.

(** ** The node monad: airport cache, call log, exceptions *)

Inductive event : Type :=
  | EvNode (n : node)
  | EvInvokeLLM
  | EvSearchFlights (origin destination departure_date adults : pyval)
  | EvHotelsByCity (city_code : pyval)
  | EvHotelOffers (hotel_id : json)
  | EvLocationInfo (iata_code : string)
  | EvSleep (milliseconds : Z)
  | EvGet (url : string)
  | EvPost (url : string).

Record Sys : Type := mkSys {
  cache : gmap string string;
  log : list event
}.

Definition M (A : Type) : Type := Sys -> outcome A * Sys.

Definition ret {A : Type} (a : A) : M A := fun σ => (Returns a, σ).

Definition raise {A : Type} (e : exn) : M A := fun σ => (Raises e, σ).

Definition bind {A B : Type} (m : M A) (k : A -> M B) : M B :=
  fun σ =>
    match m σ with
    | (Returns a, σ') => k a σ'
    | (Raises e, σ') => (Raises e, σ')
    end.

(** [try: m  except Exception as e: handler(e)] *)
Definition try_except {A : Type} (m : M A) (handler : exn -> M A) : M A :=
  fun σ =>
    match m σ with
    | (Returns a, σ') => (Returns a, σ')
    | (Raises e, σ') => handler e σ'
    end.

Definition lift {A : Type} (o : outcome A) : M A := fun σ => (o, σ).

Definition emit (e : event) : M unit :=
  fun σ => (Returns tt, {| cache := cache σ; log := log σ ++ [e] |}).

Definition get_cache : M (gmap string string) :=
  fun σ => (Returns (cache σ), σ).

Definition set_cache (k v : string) : M unit :=
  fun σ => (Returns tt, {| cache := <[k := v]> (cache σ); log := log σ |}).

Notation "'let*' x ':=' m 'in' k" := (bind m (fun x => k))
  (at level 10, x pattern, m at level 100, k at level 200).
Notation "m ';;' k" := (bind m (fun _ => k))
  (at level 100, k at level 200, right associativity).

(** Sequencing of results that may be exceptions. *)
Definition obind {A B : Type} (o : outcome A) (k : A -> outcome B) : outcome B :=
  match o with
  | Returns a => k a
  | Raises e => Raises e
  end.

Notation "'let?' x ':=' m 'in' k" := (obind m (fun x => k))
  (at level 10, x pattern, m at level 100, k at level 200).

(** [str(e)] where a handler prints the exception: the repr of the key for
    a [KeyError], the message for an exception of the provider's client, and
    for the other classes the message Python gave, which the world holds. *)
Definition exn_str (w : World) (e : exn) : string :=
  match e with
  | KeyError k => "'" +:+ k +:+ "'"
  | ProviderException msg => msg
  | _ => exception_text w e
  end.

(** ** Airport cache (utils/cache.py) *)

Section Nodes.

Variable w : World.

(** [AirportCityCache.get_city_name] *)
Definition get_city_name (iata_code : string) : M string :=
  let* c := get_cache in
  match c !! iata_code with
  | Some city => ret city
  | None =>
      emit (EvLocationInfo iata_code);;
      match location_city_name w iata_code with
      | Some city => set_cache iata_code city;; ret city
      | None => ret iata_code
      end
  end.

(** [get_city_name] on a field of the intent.  Its parameter is annotated
    [str]; for a value that is not one the provider look-up cannot succeed,
    the value itself comes back and the f-string prints it. *)
Definition city_of (code : pyval) : M string :=
  match code with
  | PStr s => get_city_name s
  | _ => ret (py_str code)
  end.

(** ** Routers (agents/routers.py) *)

(** [state.intent["intent"]] *)
Definition intent_kind (i : gmap string pyval) : outcome pyval :=
  match i !! "intent" with
  | Some v => Returns v
  | None => Raises (KeyError "intent")
  end.

Definition router (state : AgentState) : outcome node :=
  match intent state with
  | None => Returns NClarify
  | Some i =>
      match intent_kind i with
      | Raises e => Raises e
      | Returns kind =>
          if py_eq kind (PStr "flight_search") then Returns NFlightTool
          else if py_eq kind (PStr "hotel_search") then Returns NHotelTool
          else if py_eq kind (PStr "both") then Returns NFlightTool
          else if py_eq kind (PStr "follow_up") then Returns NSynthesis
          else Returns NClarify
      end
  end.

Definition flight_tool_router (state : AgentState) : outcome node :=
  if use_web_search state then Returns NWebSearchFallback
  else
    match intent state with
    | None => Returns NSynthesis
    | Some i =>
        match intent_kind i with
        | Raises e => Raises e
        | Returns kind =>
            if py_eq kind (PStr "both") then Returns NHotelTool
            else Returns NSynthesis
        end
    end.

(** ** Flight search (nodes.py, [flight_tool]) *)

Definition month_names : list string :=
  ["January"; "February"; "March"; "April"; "May"; "June"; "July";
   "August"; "September"; "October"; "November"; "December"].

(** [strftime("%B")] *)
Definition month_name (m : Z) : string :=
  default "" (month_names !! Z.to_nat (m - 1)).

(** [date_obj.strftime("%B %d, %Y")] *)
Definition strftime_long (d : datetime) : string :=
  month_name (d_month (dt_date d)) +:+ " " +:+ pad2 (d_day (dt_date d))
  +:+ ", " +:+ pretty (d_year (dt_date d)).

(** Lines 227-231: the date of the fallback query.  Whatever
    [fromisoformat] raises is caught and the raw value is used. *)
Definition fallback_date_str (check_in : pyval) : string :=
  match check_in with
  | PStr s =>
      match datetime_fromisoformat w s with
      | Some date_obj => strftime_long date_obj
      | None => s
      end
  | _ => py_str check_in
  end.

(** Line 219: [error_code == 141 or error_status == 500] *)
Definition is_outage (first_error : gmap string pyval) : bool :=
  py_eq (py_get first_error "code") (PInt 141)
  || py_eq (py_get first_error "status") (PInt 500).

(** Lines 234-239 *)
Definition arm_fallback (q : string) : Update :=
  {| upd_intent := None; upd_flights := Some []; upd_hotels := None;
     upd_response := Some None; upd_use_web_search := Some true;
     upd_search_query := Some q |}.

(** Lines 204-244: the handler of [ResponseError]. *)
Definition flight_response_error (i : gmap string pyval) (e : ResponseError)
  : M Update :=
  let plain := flight_failure ("Flight search error: " +:+ re_str e) in
  match re_errors e with
  | Some (first_error :: _) =>
      if is_outage first_error then
        let* origin_city :=
          (if truthy (py_get i "origin") then city_of (py_get i "origin")
           else ret (py_str (py_get i "origin"))) in
        let* dest_city :=
          (if truthy (py_get i "destination")
           then city_of (py_get i "destination")
           else ret (py_str (py_get i "destination"))) in
        let date_str := fallback_date_str (py_get i "check_in") in
        ret (arm_fallback ("flights from " +:+ origin_city +:+ " to "
                           +:+ dest_city +:+ " on " +:+ date_str +:+ " price"))
      else ret plain
  | _ => ret plain
  end.

Definition flight_tool (state : AgentState) : M Update :=
  match intent state with
  | None => ret (response_update "Internal error: missing intent")
  | Some i =>
      if negb (truthy (py_get i "origin"))
      then ret (flight_failure "Missing origin airport code")
      else if negb (truthy (py_get i "destination"))
      then ret (flight_failure "Missing destination airport code")
      else if negb (truthy (py_get i "check_in"))
      then ret (flight_failure "Missing departure date")
      else
        match i !! "travelers" with
        | None =>
            ret (flight_failure ("Unexpected flight error: "
                                 +:+ exn_str w (KeyError "travelers")))
        | Some travelers =>
            emit (EvSearchFlights (py_get i "origin") (py_get i "destination")
                    (py_get i "check_in") travelers);;
            match search_flights w (py_get i "origin") (py_get i "destination")
                    (py_get i "check_in") travelers with
            | Ok res_data =>
                ret {| upd_intent := None; upd_flights := Some res_data;
                       upd_hotels := None; upd_response := None;
                       upd_use_web_search := None; upd_search_query := None |}
            | Failed e => flight_response_error i e
            | Crashed msg =>
                ret (flight_failure ("Unexpected flight error: " +:+ msg))
            end
        end
  end.

(** ** Hotel search (nodes.py, [hotel_tool]) *)

(** Line 477:
    [[hotel['hotelId'] for hotel in hotels_data[:30] if 'hotelId' in hotel]] *)
Definition hotel_ids (hotels_data : list (gmap string json)) : list json :=
  omap (fun hotel : gmap string json => hotel !! "hotelId") (take 30 hotels_data).

(** Lines 488-510: the loop over [hotelIds], from the offers gathered so far.
    [time.sleep(0.5)] is logged as 500 milliseconds.  An exception that is not
    a [ResponseError] leaves the loop for the handlers of [hotel_tool]. *)
Fixpoint offers_loop (i : gmap string pyval) (hotelIds : list json)
    (valid_offers : list (gmap string json)) : M (list (gmap string json)) :=
  match hotelIds with
  | [] => ret valid_offers
  | hotel_id :: rest =>
      match i !! "travelers" with
      | None => raise (KeyError "travelers")
      | Some travelers =>
          emit (EvHotelOffers hotel_id);;
          match search_hotel_offers w hotel_id travelers
                  (py_get i "check_in") (py_get i "check_out") with
          | Ok offer_data =>
              match offer_data with
              | [] => offers_loop i rest valid_offers
              | _ :: _ =>
                  let valid_offers := (valid_offers ++ offer_data)%list in
                  if (5 <=? length valid_offers)%nat then ret valid_offers
                  else offers_loop i rest valid_offers
              end
          | Failed e =>
              (if py_contains "429" (re_str e) then emit (EvSleep 500)
               else ret tt);;
              offers_loop i rest valid_offers
          | Crashed msg => raise (ProviderException msg)
          end
      end
  end.

(** Lines 522-526 *)
Definition basic_hotel (hotel : gmap string json) : gmap string json :=
  <["hotel" := JObj hotel]>
    (<["available" := JBool false]> (<["offers" := JArr []]> ∅)).

Definition hotels_update (found : list (gmap string json))
    (text : option string) : Update :=
  {| upd_intent := None; upd_flights := None; upd_hotels := Some found;
     upd_response := match text with Some t => Some (Some t) | None => None end;
     upd_use_web_search := None; upd_search_query := None |}.

(** Lines 464-534: the body of the [try]. *)
Definition hotel_search (i : gmap string pyval) : M Update :=
  emit (EvHotelsByCity (py_get i "destination"));;
  match search_hotels_by_city w (py_get i "destination") with
  | Ok hotels_data =>
      match hotels_data with
      | [] =>
          ret (hotel_failure ("No hotels found in city: "
                              +:+ py_str (py_get i "destination")))
      | _ :: _ =>
          let hotelIds := hotel_ids hotels_data in
          match hotelIds with
          | [] => ret (hotel_failure "Could not extract hotel IDs")
          | _ :: _ =>
              let* valid_offers := offers_loop i hotelIds [] in
              match valid_offers with
              | _ :: _ => ret (hotels_update valid_offers None)
              | [] =>
                  let basic_hotels := map basic_hotel (take 5 hotels_data) in
                  match basic_hotels with
                  | _ :: _ =>
                      ret (hotels_update basic_hotels
                             (Some ("Found " +:+ pretty (length basic_hotels)
                                    +:+ " hotels in "
                                    +:+ py_str (py_get i "destination")
                                    +:+ ", but no pricing/availability for your dates. Here are the hotels:")))
                  | [] =>
                      ret (hotel_failure
                             ("No available hotel offers in "
                              +:+ py_str (py_get i "destination") +:+ " for "
                              +:+ py_str (py_get i "check_in") +:+ " to "
                              +:+ py_str (py_get i "check_out") +:+ "."))
                  end
              end
          end
      end
  | Failed e => ret (hotel_failure ("Hotel search error: " +:+ re_str e))
  | Crashed msg => raise (ProviderException msg)
  end.

Definition hotel_tool (state : AgentState) : M Update :=
  match intent state with
  | None => ret (response_update "Internal error: missing intent")
  | Some i =>
      if negb (truthy (py_get i "destination"))
      then ret (hotel_failure "Missing destination city for hotel search")
      else if negb (truthy (py_get i "check_in"))
              || negb (truthy (py_get i "check_out"))
      then ret (hotel_failure
                  "Missing check-in or check-out dates for hotel search")
      else
        try_except (hotel_search i)
          (fun e =>
             ret (hotel_failure ("Unexpected hotel error: " +:+ exn_str w e)))
  end.

(** ** Web-search fallback (nodes.py, [web_search_fallback_node]) *)

(** One entry of [flight_info]. *)
Record search_hit : Type := mkHit {
  hit_title : pyval;
  hit_url : pyval;
  hit_snippet : pyval
}.

(** Lines 342-350 *)
Definition hit_of_result (result : gmap string pyval) : search_hit :=
  {| hit_title := py_get_or result "title" (PStr "No title");
     hit_url := py_get_or result "url" (PStr "");
     hit_snippet := py_get_or result "content" (PStr "") |}.

(** Line 359:
    [info['snippet'][:200] if info['snippet'] else "No description available"];
    only a [str] can be sliced. *)
Definition snippet_of (info : search_hit) : outcome string :=
  if truthy (hit_snippet info) then
    match hit_snippet info with
    | PStr s => Returns (py_take 200 s)
    | _ => Raises TypeError
    end
  else Returns "No description available".

(** Lines 352-357 *)
Definition fallback_header (search_query : string) : string :=
  "
⚠️ **Note: The live flight booking API is temporarily unavailable.**

🔍 **Here's what I found from web search for " +:+ dquote +:+ search_query
  +:+ dquote +:+ ":**

".

(** Lines 360-365 *)
Definition fallback_entry (idx : nat) (info : search_hit) (snippet : string)
  : string :=
  "
**" +:+ pretty idx +:+ ". " +:+ py_str (hit_title info) +:+ "**
" +:+ snippet +:+ "...
🔗 " +:+ py_str (hit_url info) +:+ "

".

(** Lines 367-375 *)
Definition fallback_footer : string :=
  "
💡 **Recommendations:**
- Visit the links above for real-time pricing and availability
- Check airline websites directly for best deals
- Compare prices on multiple booking platforms
- The live API should be back online soon - try again later!

⚠️ **Disclaimer:** The information above is from web search results and may not reflect current prices or availability. These are estimated options found on the internet.
".

(** Lines 358-365: [for idx, info in enumerate(flight_info, 1)], from index
    [idx], appending to [response_text]. *)
Fixpoint render_hits (idx : nat) (flight_info : list search_hit)
    (response_text : string) : outcome string :=
  match flight_info with
  | [] => Returns response_text
  | info :: rest =>
      match snippet_of info with
      | Returns snippet =>
          render_hits (S idx) rest
            (response_text +:+ fallback_entry idx info snippet)
      | Raises e => Raises e
      end
  end.

(** Lines 352-377: the response built from [flight_info]. *)
Definition render_fallback (search_query : string)
    (flight_info : list search_hit) : outcome string :=
  match render_hits 1 flight_info (fallback_header search_query) with
  | Returns response_text => Returns (response_text +:+ fallback_footer)
  | Raises e => Raises e
  end.

Definition searxng_instances : list string :=
  ["https://searx.be/search";
   "https://search.bus-hit.me/search";
   "https://searx.tiekoetter.com/search";
   "https://paulgo.io/search"].

(** Lines 327-381: the loop over the instances; [Some text] is the
    [return {"response": text}] inside it, [None] its normal end.  Whatever
    is raised inside the [try] moves on to the next instance. *)
Fixpoint searxng_loop (search_query : string) (instances : list string)
  : M (option string) :=
  match instances with
  | [] => ret None
  | searxng_url :: rest =>
      emit (EvGet searxng_url);;
      match searxng_get w searxng_url search_query with
      | HttpResponse status_code body =>
          if status_code =? 200 then
            match body with
            | Some (r :: results) =>
                match render_fallback search_query
                        (map hit_of_result (take 5 (r :: results))) with
                | Returns response_text => ret (Some response_text)
                | Raises _ => searxng_loop search_query rest
                end
            | Some [] => searxng_loop search_query rest
            | None => searxng_loop search_query rest
            end
          else searxng_loop search_query rest
      | HttpError => searxng_loop search_query rest
      end
  end.

Definition ddg_url : string := "https://html.duckduckgo.com/html/".

(** Lines 400-413: the blocks that have a title element. *)
Definition ddg_hits (blocks : list ddg_block) : list search_hit :=
  omap (fun result : ddg_block =>
          match title_elem result with
          | Some (title, href) =>
              Some {| hit_title := PStr title; hit_url := PStr href;
                      hit_snippet := PStr (default "" (snippet_elem result)) |}
          | None => None
          end) blocks.

(** Lines 385-443: the HTML search, [find_all(..., limit=5)] keeping at most
    five blocks. *)
Definition ddg_search (search_query : string) : M (option string) :=
  emit (EvPost ddg_url);;
  match ddg_post w search_query with
  | DdgResponse status_code (Some blocks) =>
      if status_code =? 200 then
        match ddg_hits (take 5 blocks) with
        | [] => ret None
        | flight_info =>
            match render_fallback search_query flight_info with
            | Returns response_text => ret (Some response_text)
            | Raises _ => ret None
            end
        end
      else ret None
  | DdgResponse status_code None =>
      ret None
  | DdgError => ret None
  end.

(** [get_fallback_message] (lines 256-294) *)
Definition get_fallback_message (state : AgentState) : M string :=
  let i := default ∅ (intent state) in
  let* origin_city :=
    (if truthy (py_get i "origin")
     then city_of (py_get_or i "origin" (PStr ""))
     else ret "departure city") in
  let* dest_city :=
    (if truthy (py_get i "destination")
     then city_of (py_get_or i "destination" (PStr ""))
     else ret "destination city") in
  let date := py_str (py_get_or i "check_in" (PStr "your selected date")) in
  ret ("
⚠️ **The flight booking API is temporarily unavailable and web search is also having issues.**

📋 **Your Search Details:**
- From: " +:+ origin_city +:+ "
- To: " +:+ dest_city +:+ "
- Date: " +:+ date +:+ "

💡 **What you can do:**
1. **Visit these sites directly:**
   - Google Flights: https://www.google.com/flights
   - Skyscanner: https://www.skyscanner.com
   - Kayak: https://www.kayak.com

2. **Check airline websites:**
   - Air India: https://www.airindia.in
   - IndiGo: https://www.goindigo.in
   - Vistara: https://www.airvistara.com

3. **Try again later** - The API should be back online soon!

🔄 I'll be able to provide real-time flight data once the API is restored.
").

(** [not state.flights] *)
Definition no_flights (state : AgentState) : bool :=
  match flights state with
  | None => true
  | Some [] => true
  | Some (_ :: _) => false
  end.

Definition web_search_fallback_node (state : AgentState) : M Update :=
  if no_flights state && use_web_search state then
    let search_query := default "" (search_query state) in
    if bool_decide (search_query = "") then
      ret (response_update "Unable to search for flights at this time.")
    else
      let* found := searxng_loop search_query searxng_instances in
      match found with
      | Some response_text => ret (response_update response_text)
      | None =>
          let* found := ddg_search search_query in
          match found with
          | Some response_text => ret (response_update response_text)
          | None =>
              let* text := get_fallback_message state in
              ret (response_update text)
          end
      end
  else ret no_update.

(** ** Clarification (nodes.py, [clarify_node]) *)

Definition clarify_node (state : AgentState) : Update :=
  let intent_data := default ∅ (intent state) in
  let reasoning := py_get_or intent_data "reasoning" (PStr "") in
  let response :=
    "I need more information to help you book your travel." +:+ nl +:+ nl in
  let response :=
    if truthy reasoning
    then response +:+ "**" +:+ py_str reasoning +:+ "**" +:+ nl +:+ nl
    else response in
  let origin := py_get intent_data "origin" in
  let destination := py_get intent_data "destination" in
  let check_in := py_get intent_data "check_in" in
  let check_out := py_get intent_data "check_out" in
  let has_info := [] in
  let has_info :=
    append_if (truthy origin) ("✓ Departure: " +:+ py_str origin) has_info in
  let has_info :=
    append_if (truthy destination)
      ("✓ Destination: " +:+ py_str destination) has_info in
  let has_info :=
    append_if (truthy check_in)
      ("✓ Check-in/Departure date: " +:+ py_str check_in) has_info in
  let has_info :=
    append_if (truthy check_out)
      ("✓ Check-out date: " +:+ py_str check_out) has_info in
  let response :=
    match has_info with
    | [] => response
    | _ :: _ =>
        foldl (fun acc item => acc +:+ item +:+ nl)
          (response +:+ "**What I have:**" +:+ nl) has_info +:+ nl
    end in
  let response :=
    if truthy origin && negb (truthy destination) then
      let response := response +:+ "**What I need:**" +:+ nl in
      let response :=
        response
        +:+ "• Destination/Arrival city (e.g., Delhi, Bangalore, Chennai)"
        +:+ nl in
      let response :=
        if negb (truthy check_in)
        then response
             +:+ "• Travel/Departure date (e.g., tomorrow, 25th January)"
             +:+ nl
        else response in
      response +:+ nl +:+ "**Example:** 'to Delhi on 25th January'" +:+ nl
    else if truthy destination && negb (truthy origin) then
      let response := response +:+ "**What I need:**" +:+ nl in
      let response :=
        response +:+ "• Departure city (e.g., Mumbai, Bangalore)" +:+ nl in
      let response :=
        if negb (truthy check_in)
        then response +:+ "• Travel date (e.g., tomorrow, 25th January)" +:+ nl
        else response in
      response +:+ nl +:+ "**Example:** 'from Mumbai on 25th January'" +:+ nl
    else
      response
      +:+ "**For flight bookings, I need:**" +:+ nl
      +:+ "• Departure city (e.g., Mumbai, BOM)" +:+ nl
      +:+ "• Arrival city (e.g., Delhi, DEL)" +:+ nl
      +:+ "• Travel date (e.g., tomorrow, 25th January)" +:+ nl +:+ nl
      +:+ "**For hotel bookings, I need:**" +:+ nl
      +:+ "• Destination city (e.g., Delhi, Mumbai)" +:+ nl
      +:+ "• Check-in date (e.g., 25th January)" +:+ nl
      +:+ "• Check-out date (e.g., 27th January, or '3 nights')" +:+ nl +:+ nl
      +:+ "**Examples:**" +:+ nl
      +:+ "• 'Book a flight from Mumbai to Delhi on 25th January'" +:+ nl
      +:+ "• 'Book a hotel in Delhi from 25th to 27th January'" +:+ nl
      +:+ "• 'Flight and hotel to Bangalore next week for 3 nights'" +:+ nl in
  response_update response.

(** ** Result synthesis (nodes.py, [synthesis_node]) *)

(** [str(j)], as an f-string field prints it. *)
Definition j_str (j : json) : string :=
  match j with
  | JNull => "None"
  | JBool true => "True"
  | JBool false => "False"
  | JInt z => pretty z
  | JStr s => s
  | JFloat _ | JArr _ | JObj _ => py_repr w j
  end.

(** [float(j)] *)
Definition j_float (j : json) : outcome float :=
  match j with
  | JStr s =>
      match float_of_str w s with
      | Some f => Returns f
      | None => Raises ValueError
      end
  | JInt z => float_of_Z z
  | JFloat f => Returns f
  | JBool true => Returns 1%float
  | JBool false => Returns 0%float
  | JNull | JArr _ | JObj _ => Raises TypeError
  end.

(** [datetime.fromisoformat(j)] *)
Definition j_fromisoformat (j : json) : outcome datetime :=
  match j with
  | JStr s =>
      match datetime_fromisoformat w s with
      | Some dt => Returns dt
      | None => Raises ValueError
      end
  | _ => Raises TypeError
  end.

(** [strftime("%b")] *)
Definition month_abbr (m : Z) : string :=
  String.substring 0 3 (month_name m).

(** [strftime("%I")] *)
Definition hour12 (h : Z) : Z :=
  if h mod 12 =? 0 then 12 else h mod 12.

(** [dt.strftime("%d %b %Y, %I:%M %p")] *)
Definition strftime_departure (dt : datetime) : string :=
  pad2 (d_day (dt_date dt)) +:+ " " +:+ month_abbr (d_month (dt_date dt))
  +:+ " " +:+ pretty (d_year (dt_date dt)) +:+ ", "
  +:+ pad2 (hour12 (dt_hour dt)) +:+ ":" +:+ pad2 (dt_minute dt) +:+ " "
  +:+ (if dt_hour dt <? 12 then "AM" else "PM").

(** [airport_cache.get_city_name(code)] on a payload value: a list or a
    mapping cannot be looked up in the cache ([TypeError]); any other value
    that is not a [str] comes back as it is. *)
Definition city_of_json (code : json) : M string :=
  match code with
  | JStr s => get_city_name s
  | JArr _ | JObj _ => raise TypeError
  | _ => ret (j_str code)
  end.

(** Lines 633-634: the price of a flight. *)
Definition flight_price_inr (f : gmap string json) : outcome Z :=
  let? price := obj_item f "price" in
  let? total := j_item price "total" in
  let? price_eur := j_float total in
  py_int (price_eur * EUR_TO_INR)%float.

(** Lines 625-646: the line of one flight. *)
Definition render_flight (f : gmap string json) : M string :=
  let* segment :=
    lift (let? itineraries := obj_item f "itineraries" in
          let? itinerary := j_first itineraries in
          let? segments := j_item itinerary "segments" in
          j_first segments) in
  let* carrier := lift (j_item segment "carrierCode") in
  let* number := lift (j_item segment "number") in
  let flight_code := j_str carrier +:+ " " +:+ j_str number in
  let* departure := lift (j_item segment "departure") in
  let* dt := lift (let? at_ := j_item departure "at" in j_fromisoformat at_) in
  let time_str := strftime_departure dt in
  let* price_inr := lift (flight_price_inr f) in
  let* dep_code := lift (j_item departure "iataCode") in
  let* arr_code :=
    lift (let? arrival := j_item segment "arrival" in j_item arrival "iataCode") in
  let* dep_city := city_of_json dep_code in
  let* arr_city := city_of_json arr_code in
  let route_str :=
    dep_city +:+ " (" +:+ j_str dep_code +:+ ") → " +:+ arr_city
    +:+ " (" +:+ j_str arr_code +:+ ")" in
  ret ("  " +:+ flight_code +:+ " | " +:+ route_str +:+ " | " +:+ time_str
       +:+ " | ₹" +:+ pretty price_inr).

(** Lines 624-646: the loop over [state.flights[:5]]. *)
Fixpoint render_flights (fs : list (gmap string json)) : M (list string) :=
  match fs with
  | [] => ret []
  | f :: rest =>
      let* line := render_flight f in
      let* others := render_flights rest in
      ret (line :: others)
  end.

(** Lines 670-681: the conversion to rupees of a hotel amount. *)
Definition convert_price (currency : json) (amount : float) : outcome Z :=
  if j_is_str currency "EUR" then py_int (amount * EUR_TO_INR)%float
  else if j_is_str currency "GBP" then py_int (amount * 125)%float
  else if j_is_str currency "USD" then py_int (amount * 83)%float
  else py_int amount.

(** Line 683 *)
Definition price_line (price_inr base_inr : Z) (currency : string) : string :=
  "   💰 Price: ₹" +:+ pretty price_inr +:+ " total (Base: ₹"
  +:+ pretty base_inr +:+ ") | Currency: " +:+ currency.

(** Lines 665-683: the price line of an offer. *)
Definition render_price (offer : json) : outcome string :=
  let? price_info := j_get offer "price" (JObj ∅) in
  let? currency := j_get price_info "currency" (JStr "EUR") in
  let? total_raw := j_get price_info "total" (JInt 0) in
  let? total := j_float total_raw in
  let? base_raw := j_get price_info "base" (JInt 0) in
  let? base := j_float base_raw in
  let? price_inr := convert_price currency total in
  let? base_inr := convert_price currency base in
  Returns (price_line price_inr base_inr (j_str currency)).

(** Line 687: [.replace('_', ' ').title()], which only a [str] has. *)
Definition title_case (j : json) : outcome string :=
  match j with
  | JStr s => Returns (str_title w (py_replace_char "_"%char " "%char s))
  | _ => Raises AttributeError
  end.

(** Line 696 *)
Definition shorten_description (desc_text : json) : outcome string :=
  let? n := j_len desc_text in
  if (150 <? n)%nat then
    match desc_text with
    | JStr s => Returns (py_take 150 s +:+ "...")
    | _ => Raises TypeError
    end
  else Returns (j_str desc_text).

(** Lines 663-714: the lines of a hotel that has an offer. *)
Definition render_offer (offer : json) : outcome (list string) :=
  let? price_line := render_price offer in
  let? room_info := j_get offer "room" (JObj ∅) in
  let? room_estimated := j_get room_info "typeEstimated" (JObj ∅) in
  let? category := j_get room_estimated "category" (JStr "Standard Room") in
  let? room_category := title_case category in
  let? beds := j_get room_estimated "beds" (JStr "N/A") in
  let? bed_type := j_get room_estimated "bedType" (JStr "N/A") in
  let room_line :=
    "   🛏️  Room: " +:+ room_category +:+ " | " +:+ j_str beds
    +:+ " bed(s) - " +:+ j_str bed_type in
  let? room_desc := j_get room_info "description" (JObj ∅) in
  let? desc_text := j_get room_desc "text" (JStr "") in
  let? desc_lines :=
    (if j_truthy desc_text then
       let? desc_short := shorten_description desc_text in
       Returns ["   📝 " +:+ desc_short]
     else Returns []) in
  let? check_in := j_get offer "checkInDate" (JStr "N/A") in
  let? check_out := j_get offer "checkOutDate" (JStr "N/A") in
  let stay_line := "   📅 " +:+ j_str check_in +:+ " to " +:+ j_str check_out in
  let? policies := j_get offer "policies" (JObj ∅) in
  let? payment_type := j_get policies "paymentType" (JStr "N/A") in
  let? cancellation := j_get policies "cancellation" (JObj ∅) in
  let? cancel_type := j_get cancellation "type" (JStr "N/A") in
  let? cancel_desc := j_get cancellation "description" (JObj ∅) in
  let cancel_desc_text :=
    match cancel_desc with
    | JObj o => j_str (obj_get o "text" (JStr "No cancellation info"))
    | _ => if j_truthy cancel_desc then j_str cancel_desc
           else "No cancellation info"
    end in
  Returns ([price_line; room_line] ++ desc_lines
           ++ [stay_line;
               "   🏷️  Payment: " +:+ j_str payment_type
               +:+ " | Cancellation: " +:+ j_str cancel_type;
               "   ℹ️  " +:+ cancel_desc_text])%list.

(** Lines 716-728: the lines of a hotel without an offer. *)
Definition render_no_offer (hotel_info : json) : outcome (list string) :=
  let? address := j_get hotel_info "address" (JObj ∅) in
  let? city_name := j_get address "cityName" (JStr "") in
  let location_lines :=
    if j_truthy city_name then ["   📍 Location: " +:+ j_str city_name]
    else [] in
  let? distance := j_get hotel_info "distance" (JObj ∅) in
  let? distance_lines :=
    (if j_truthy distance then
       let? dist_value := j_get distance "value" (JStr "") in
       let? dist_unit := j_get distance "unit" (JStr "") in
       Returns (if j_truthy dist_value
                then ["   📏 Distance from center: " +:+ j_str dist_value
                      +:+ " " +:+ j_str dist_unit]
                else [])
     else Returns []) in
  Returns (["   ℹ️  No pricing available for selected dates"]
           ++ location_lines ++ distance_lines)%list.

(** Lines 655-730: the lines of one hotel. *)
Definition render_hotel (idx : nat) (h : gmap string json)
  : outcome (list string) :=
  let hotel_info := obj_get h "hotel" (JObj ∅) in
  let? hotel_name := j_get hotel_info "name" (JStr "Unknown Hotel") in
  let? hotel_id := j_get hotel_info "hotelId" (JStr "N/A") in
  let head_line :=
    pretty idx +:+ ". **" +:+ j_str hotel_name +:+ "** (ID: "
    +:+ j_str hotel_id +:+ ")" in
  let offers := obj_get h "offers" (JArr []) in
  let? body :=
    (if j_truthy offers then
       let? offer := j_first offers in
       render_offer offer
     else render_no_offer hotel_info) in
  Returns ([head_line] ++ body ++ [""])%list.

(** Lines 654-730: [for idx, h in enumerate(state.hotels[:5], 1)], from
    index [idx]. *)
Fixpoint render_hotels (idx : nat) (hs : list (gmap string json))
  : outcome (list string) :=
  match hs with
  | [] => Returns []
  | h :: rest =>
      let? these := render_hotel idx h in
      let? others := render_hotels (S idx) rest in
      Returns (these ++ others)%list
  end.

Definition no_results : string := "No results available for your search.".

Definition synthesis_node (state : AgentState) : M Update :=
  let* flight_lines :=
    match flights state with
    | Some (f :: fs) =>
        let* rendered := render_flights (take 5 (f :: fs)) in
        ret (["✈️ **FLIGHTS:**"] ++ rendered ++ [""])%list
    | _ => ret []
    end in
  let* hotel_lines :=
    match hotels state with
    | Some (h :: hs) =>
        let* rendered := lift (render_hotels 1 (take 5 (h :: hs))) in
        ret (["🏨 **HOTELS:**"; ""] ++ rendered)%list
    | _ => ret []
    end in
  let lines := (flight_lines ++ hotel_lines)%list in
  match lines with
  | [] => ret (response_update no_results)
  | _ :: _ => ret (response_update (py_join nl lines))
  end.

(** ** Intent extraction (nodes.py, [intent_node]) *)

(** [state.conversation_history[-4:]] *)
Definition last_turns (history : list message) : list message :=
  drop (length history - 4) history.

Definition intent_update (intent_data : gmap string pyval) : Update :=
  {| upd_intent := Some intent_data; upd_flights := None; upd_hotels := None;
     upd_response := None; upd_use_web_search := None;
     upd_search_query := None |}.

Definition intent_node (state : AgentState) : M Update :=
  emit EvInvokeLLM;;
  let* raw :=
    lift (structured_invoke w (query state)
            (last_turns (conversation_history state))) in
  let* intent_data :=
    lift (validate_intent (datetime_fromisoformat w) (datetime_today w) raw) in
  ret (intent_update intent_data).

(** ** The compiled graph (agents/graph.py, [create_agent]) *)

Definition run_node (n : node) (state : AgentState) : M Update :=
  match n with
  | NIntent => intent_node state
  | NFlightTool => flight_tool state
  | NHotelTool => hotel_tool state
  | NClarify => ret (clarify_node state)
  | NSynthesis => synthesis_node state
  | NWebSearchFallback => web_search_fallback_node state
  end.

(** The edges: [None] is [END]. *)
Definition next_node (n : node) (state : AgentState) : outcome (option node) :=
  match n with
  | NIntent => let? n' := router state in Returns (Some n')
  | NFlightTool => let? n' := flight_tool_router state in Returns (Some n')
  | NHotelTool => Returns (Some NSynthesis)
  | NClarify => Returns None
  | NSynthesis => Returns None
  | NWebSearchFallback => Returns None
  end.

(** Running the graph from node [n]: the node is logged, run, its mapping is
    written over the state and the edge out of it is followed.  [fuel] is the
    number of further nodes the run may enter. *)
Fixpoint run_from (fuel : nat) (n : node) (state : AgentState) : M AgentState :=
  emit (EvNode n);;
  let* u := run_node n state in
  let state := apply_update state u in
  let* next := lift (next_node n state) in
  match next with
  | None => ret state
  | Some n' =>
      match fuel with
      | O => raise GraphRecursionError
      | S fuel' => run_from fuel' n' state
      end
  end.

(** The graph library's default bound on the nodes of one run. *)
Definition recursion_limit : nat := 25.

(** [agent.invoke(initial_state)]: the entry point is [intent]. *)
Definition agent_invoke (state : AgentState) : M AgentState :=
  run_from recursion_limit NIntent state.

End Nodes.

(** The nodes a run entered, in order. *)
Definition visited (l : list event) : list node :=
  omap (fun e => match e with EvNode n => Some n | _ => None end) l.

(** The hotel identifiers whose offers were requested, in order. *)
Definition offer_requests (l : list event) : list json :=
  omap (fun e => match e with EvHotelOffers h => Some h | _ => None end) l.

(** The search backends that were called, in order. *)
Definition backends_tried (l : list event) : list string :=
  omap (fun e => match e with
                 | EvGet url => Some url
                 | EvPost url => Some url
                 | _ => None
                 end) l.

Definition empty_sys : Sys := {| cache := ∅; log := [] |}.

(** ** Sessions (models/schemas.py, services/session_service.py) *)

Module Session.

Record t : Type := mk {
  session_id : string;
  conversation_history : list message;
  last_intent : option (gmap string pyval);
  last_flights : option (list (gmap string json));
  last_hotels : option (list (gmap string json));
  created_at : string
}.

End Session.

(** [bool(s)] for an [Optional[str]]. *)
Definition given (s : option string) : bool :=
  match s with
  | Some text => negb (bool_decide (text = ""))
  | None => false
  end.

Module SessionService.

(** [Session(session_id=new_session_id)]; [now] is what the default of
    [created_at] reads from the clock. *)
Definition new_session (new_session_id now : string) : Session.t :=
  {| Session.session_id := new_session_id;
     Session.conversation_history := [];
     Session.last_intent := None;
     Session.last_flights := None;
     Session.last_hotels := None;
     Session.created_at := now |}.

(** [self.sessions] maps an identifier to the [model_dump()] of a session,
    which the [Session] constructor reads back: the map holds the session
    itself.
    [uuid4] is what [str(uuid.uuid4())] gives at this call. *)
Definition get_or_create_session (uuid4 now : string)
    (session_id : option string) (sessions : gmap string Session.t)
  : Session.t * gmap string Session.t :=
  let known :=
    if given session_id then sessions !! default "" session_id else None in
  match known with
  | Some session => (session, sessions)
  | None =>
      let new_session_id :=
        if given session_id then default "" session_id else uuid4 in
      let session := new_session new_session_id now in
      (session, <[new_session_id := session]> sessions)
  end.

Definition update_session (session : Session.t)
    (sessions : gmap string Session.t) : gmap string Session.t :=
  <[Session.session_id session := session]> sessions.

Definition delete_session (session_id : string)
    (sessions : gmap string Session.t) : bool * gmap string Session.t :=
  match sessions !! session_id with
  | Some _ => (true, delete session_id sessions)
  | None => (false, sessions)
  end.

Definition get_session (session_id : string)
    (sessions : gmap string Session.t) : option Session.t :=
  sessions !! session_id.

End SessionService.

(** ** The HTTP handlers (api/endpoints.py) *)

Module HTTPException.

Record t : Type := mk { status_code : Z; detail : string }.

End HTTPException.

Module QueryRequest.

Record t : Type := mk { query : string; session_id : option string }.

End QueryRequest.

Module QueryResponse.

Record t : Type := mk {
  answer : string;
  session_id : string;
  intent : option (gmap string pyval);
  used_flight_api : bool;
  used_hotel_api : bool;
  conversation_history : list message
}.

End QueryResponse.

(** What one request reads from outside the handler: the two checks of
    [QueryValidator] ([sanitize_query] returns the cleaned query or raises
    [ValueError] with a message; [is_uuid] tells whether [uuid.UUID] accepts
    the text), the text of an [HTTPException], a fresh identifier and the
    clock. *)
Record Env : Type := mkEnv {
  sanitize_query : string → string + string;
  is_uuid : string → bool;
  http_exception_str : HTTPException.t → string;
  uuid4 : string;
  now_isoformat : string
}.

(** The two process-wide objects: [session_service.sessions], and the
    airport cache with the requests made so far. *)
Record Server : Type := mkServer {
  sessions : gmap string Session.t;
  sys : Sys
}.

(** What the body of the outer [try] of [query_agent] may raise. *)
Inductive raised : Type :=
  | RaisedHTTP (e : HTTPException.t)
  | RaisedExn (e : exn).

Definition raised_str (env : Env) (w : World) (e : raised) : string :=
  match e with
  | RaisedHTTP e => http_exception_str env e
  | RaisedExn e => exn_str w e
  end.

(** [bool(result.get(...))] for a list of results. *)
Definition any_results (l : option (list (gmap string json))) : bool :=
  match l with
  | Some (_ :: _) => true
  | _ => false
  end.

Section Endpoints.

Variable env : Env.
Variable w : World.

(** [QueryValidator.validate_session_id] *)
Definition validate_session_id (session_id : string) : bool :=
  if bool_decide (session_id = "") then true else is_uuid env session_id.

(** Lines 16-71: the body of the outer [try]. *)
Definition query_agent_try (req : QueryRequest.t) (srv : Server)
  : (QueryResponse.t + raised) * Server :=
  match sanitize_query env (QueryRequest.query req) with
  | inr text =>
      (inr (RaisedHTTP {| HTTPException.status_code := 400;
                          HTTPException.detail := text |}), srv)
  | inl sanitized_query =>
      if given (QueryRequest.session_id req)
         && negb (validate_session_id
                    (default "" (QueryRequest.session_id req)))
      then
        (inr (RaisedHTTP
                {| HTTPException.status_code := 400;
                   HTTPException.detail := "Invalid session ID format" |}),
         srv)
      else
        let '(session, sessions1) :=
          SessionService.get_or_create_session (uuid4 env) (now_isoformat env)
            (QueryRequest.session_id req) (sessions srv) in
        let history1 :=
          Session.conversation_history session
          ++ [Message "user" sanitized_query] in
        match agent_invoke w (initial_state sanitized_query history1)
                (sys srv) with
        | (Raises e, σ) =>
            (inr (RaisedExn e), {| sessions := sessions1; sys := σ |})
        | (Returns result, σ) =>
            let srv1 := {| sessions := sessions1; sys := σ |} in
            match response result with
            | Some (String c text) =>
                let answer := String c text in
                let history2 := history1 ++ [Message "assistant" answer] in
                let session :=
                  {| Session.session_id := Session.session_id session;
                     Session.conversation_history := history2;
                     Session.last_intent := intent result;
                     Session.last_flights := flights result;
                     Session.last_hotels := hotels result;
                     Session.created_at := Session.created_at session |} in
                (inl {| QueryResponse.answer := answer;
                        QueryResponse.session_id :=
                          Session.session_id session;
                        QueryResponse.intent := intent result;
                        QueryResponse.used_flight_api :=
                          any_results (flights result);
                        QueryResponse.used_hotel_api :=
                          any_results (hotels result);
                        QueryResponse.conversation_history := history2 |},
                 {| sessions :=
                      SessionService.update_session session sessions1;
                    sys := σ |})
            | _ =>
                (inr (RaisedHTTP
                        {| HTTPException.status_code := 500;
                           HTTPException.detail :=
                             "Agent execution failed" |}), srv1)
            end
        end
  end.

(** [query_agent]: the outer handler catches whatever the body raises, the
    [HTTPException]s of the body included. *)
Definition query_agent (req : QueryRequest.t) (srv : Server)
  : (QueryResponse.t + HTTPException.t) * Server :=
  match query_agent_try req srv with
  | (inl r, srv') => (inl r, srv')
  | (inr e, srv') =>
      (inr {| HTTPException.status_code := 500;
              HTTPException.detail := "Error: " +:+ raised_str env w e |},
       srv')
  end.

End Endpoints.

(** [GET /session/{session_id}] *)
Definition get_session (session_id : string) (srv : Server)
  : Session.t + HTTPException.t :=
  match SessionService.get_session session_id (sessions srv) with
  | Some session => inl session
  | None =>
      inr {| HTTPException.status_code := 404;
             HTTPException.detail := "Session not found" |}
  end.

(** [DELETE /session/{session_id}] *)
Definition clear_session (session_id : string) (srv : Server)
  : (string + HTTPException.t) * Server :=
  let '(deleted, sessions1) :=
    SessionService.delete_session session_id (sessions srv) in
  if deleted
  then (inl "Session cleared", {| sessions := sessions1; sys := sys srv |})
  else (inr {| HTTPException.status_code := 404;
               HTTPException.detail := "Session not found" |},
        {| sessions := sessions1; sys := sys srv |}).

(** ** Reading the intent mapping *)

(** A field holds a value: it is not [None] (nor absent), and not empty. *)
Definition field_set (d : gmap string pyval) (k : string) : Prop :=
  py_get d k ≠ PNone ∧ truthy (py_get d k) = true.

(** [Optional[str]], the type [TravelIntent] gives the date fields. *)
Definition optional_str (v : pyval) : Prop :=
  match v with
  | PInt _ => False
  | _ => True
  end.

(** The rewrite to [clarify] with reasoning [text]. *)
Definition clarified (text : string) (d : gmap string pyval)
  : gmap string pyval :=
  <["reasoning" := PStr text]> (<["intent" := PStr "clarify"]> d).

(** The rows the validator tests, read on a mapping: each row is a test and
    the item it adds to the message. *)
Definition absent (d : gmap string pyval) (k : string) : bool :=
  negb (truthy (py_get d k)).

Definition same_place (d : gmap string pyval) : bool :=
  truthy (py_get d "origin") && truthy (py_get d "destination")
  && py_eq (py_get d "origin") (py_get d "destination").

(** The rows are in the order in which lines 77-142 test them: for a flight
    search the test of equal origin and destination comes before the test
    of the date. *)
Definition required_table (kind : string) (d : gmap string pyval)
  : list (bool * string) :=
  if bool_decide (kind = "flight_search") then
    [(absent d "origin", "departure city/airport");
     (absent d "destination", "arrival city/airport");
     (same_place d, "arrival city/airport (cannot be same as departure)");
     (absent d "check_in", "departure/travel date")]
  else if bool_decide (kind = "hotel_search") then
    [(absent d "destination", "destination city");
     (absent d "check_in", "check-in date");
     (absent d "check_out", "check-out date")]
  else if bool_decide (kind = "both") then
    [(absent d "origin", "departure city/airport");
     (absent d "destination", "destination city");
     (absent d "check_in", "check-in/departure date");
     (absent d "check_out", "check-out date")]
  else [].

(** Every row that fails, in the order of the tests. *)
Definition missing_items (kind : string) (d : gmap string pyval) : list string :=
  map snd (filter (fun row => fst row = true) (required_table kind d)).

(** The required-field table as the specification words it: the required
    fields of the intent in the order of its table, then the extra check
    (all the missing fields, plus the equality violation, in this order).
    Only the flight search has an extra check, so only its rows differ in
    order from those of the code. *)
Definition spec_required_table (kind : string) (d : gmap string pyval)
  : list (bool * string) :=
  if bool_decide (kind = "flight_search") then
    [(absent d "origin", "departure city/airport");
     (absent d "destination", "arrival city/airport");
     (absent d "check_in", "departure/travel date");
     (same_place d, "arrival city/airport (cannot be same as departure)")]
  else required_table kind d.

(** The reasoning the specification words: every failing item of its table,
    comma-joined in the table's order. *)
Definition spec_reasoning (kind : string) (d : gmap string pyval) : string :=
  "Missing: "
  +:+ py_join ", "
        (map snd (filter (fun row => fst row = true)
                    (spec_required_table kind d))).

(** The intents that start a search. *)
Definition search_kinds : list string :=
  ["flight_search"; "hotel_search"; "both"].

(** When the past-date guard stays silent: [check_in] is absent or empty, or
    it parses to a date that is not before today. *)
Definition guard_silent (fromisoformat : string → option datetime)
    (today : date) (d : gmap string pyval) : Prop :=
  truthy (py_get d "check_in") = false
  ∨ ∃ s dt, py_get d "check_in" = PStr s ∧ fromisoformat s = Some dt
            ∧ date_ltb (dt_date dt) today = false.

(** ** Reasoning about node computations *)

(** [run_spec Q R E m]: from any state, [m] appends to the log only events
    that satisfy [Q] (and never removes any); what it returns satisfies [R],
    what it raises satisfies [E]. *)
Definition run_spec {A : Type} (Q : event → Prop) (R : A → Prop)
    (E : exn → Prop) (m : M A) : Prop :=
  ∀ σ, ∃ l, log (m σ).2 = log σ ++ l ∧ Forall Q l
            ∧ match (m σ).1 with
              | Returns a => R a
              | Raises e => E e
              end.

Definition never (e : exn) : Prop := False.
Definition anything {A : Type} (a : A) : Prop := True.

(** An event that is not the entry of a node. *)
Definition not_node (e : event) : Prop :=
  match e with
  | EvNode _ => False
  | _ => True
  end.

(** An event that is neither the entry of a node nor a call of the hotel
    provider. *)
Definition not_node_nor_hotel (e : event) : Prop :=
  match e with
  | EvNode _ | EvHotelsByCity _ | EvHotelOffers _ => False
  | _ => True
  end.

(** The calls of the hotel provider, in order. *)
Definition hotel_calls (l : list event) : list event :=
  omap (fun e => match e with
                 | EvHotelsByCity _ | EvHotelOffers _ => Some e
                 | _ => None
                 end) l.

(** The state after an event has been logged. *)
Definition logged (e : event) (σ : Sys) : Sys :=
  {| cache := cache σ; log := log σ ++ [e] |}.

(** [city] is what [get_city_name] answers for [code] from cache [c]: the
    cached name, else the provider's name, else the code itself. *)
Definition best_effort_city (w : World) (c : gmap string string)
    (code city : string) : Prop :=
  match c !! code with
  | Some cached => city = cached
  | None =>
      match location_city_name w code with
      | Some name => city = name
      | None => city = code
      end
  end.

(** A status of the 500 class. *)
Definition status_500_class (v : pyval) : Prop :=
  ∃ z, v = PInt z ∧ 500 ≤ z ≤ 599.

(** The hotel loop, one identifier at a time: what the provider answers
    for it, the offers that answer adds, and the events the iteration logs
    (the request, then the back-off sleep after a rate-limit error). *)
Definition offers_answer (w : World) (i : gmap string pyval) (travelers : pyval)
    (hotel_id : json) : provider_result (list (gmap string json)) :=
  search_hotel_offers w hotel_id travelers (py_get i "check_in")
    (py_get i "check_out").

Definition offers_added (w : World) (i : gmap string pyval) (travelers : pyval)
    (hotel_id : json) : list (gmap string json) :=
  match offers_answer w i travelers hotel_id with
  | Ok offer_data => offer_data
  | _ => []
  end.

Definition gathered (w : World) (i : gmap string pyval) (travelers : pyval)
    (hotelIds : list json) : list (gmap string json) :=
  concat (map (offers_added w i travelers) hotelIds).

Definition rate_limited (e : ResponseError) : bool :=
  py_contains "429" (re_str e).

Definition iteration_events (w : World) (i : gmap string pyval)
    (travelers : pyval) (hotel_id : json) : list event :=
  EvHotelOffers hotel_id
  :: match offers_answer w i travelers hotel_id with
     | Failed e => if rate_limited e then [EvSleep 500] else []
     | _ => []
     end.

(** Every identifier of the phase-1 list, in order. *)
Definition all_hotel_ids (hotels_data : list (gmap string json)) : list json :=
  omap (fun hotel : gmap string json => hotel !! "hotelId") hotels_data.

(** The snippet the response shows for a search hit whose content is a
    string or missing. *)
Definition shown_snippet (info : search_hit) : string :=
  match hit_snippet info with
  | PStr s => if bool_decide (s = "") then "No description available"
              else py_take 200 s
  | _ => "No description available"
  end.

(** The entries of the response, numbered from [idx]. *)
Fixpoint entries_text (idx : nat) (flight_info : list search_hit) : string :=
  match flight_info with
  | [] => ""
  | info :: rest =>
      fallback_entry idx info (shown_snippet info)
      +:+ entries_text (S idx) rest
  end.

(** A search result as the JSON endpoints give it: its content, when
    present, is a string or null (a zero, falsy like them, is let through:
    what is excluded is the value that cannot be sliced). *)
Definition well_formed_result (result : gmap string pyval) : Prop :=
  match py_get_or result "content" (PStr "") with
  | PInt z => z = 0
  | _ => True
  end.

(** The backend at [url] answers [search_query] with HTTP 200 and the
    non-empty list [results]. *)
Definition backend_answers (w : World) (search_query url : string)
    (results : list (gmap string pyval)) : Prop :=
  searxng_get w url search_query = HttpResponse 200 (Some results)
  ∧ results ≠ []
  ∧ Forall well_formed_result (take 5 results).

(** The backend at [url] fails: the request raises, the status is not 200,
    the body cannot be decoded, or there is no usable result list. *)
Definition backend_fails (w : World) (search_query url : string) : Prop :=
  ∀ results, ¬ backend_answers w search_query url results.

(** The conversion table of the synthesizer: rupees per unit of each
    currency it knows. *)
Definition rate_table : list (string * float) :=
  [("EUR", EUR_TO_INR); ("GBP", 125%float); ("USD", 83%float)].

(** The rate for a currency field; [None] for a currency outside the table
    (or a field that is not a string). *)
Definition hotel_rate (currency : json) : option float :=
  match currency with
  | JStr c => (list_to_map rate_table : gmap string float) !! c
  | _ => None
  end.

(** An amount converted at a rate, or left as it is without one. *)
Definition converted (rate : option float) (amount : float) : outcome Z :=
  match rate with
  | Some r => py_int (amount * r)%float
  | None => py_int amount
  end.

(** The flight searches among logged events. *)
Definition flight_searches (l : list event) : list event :=
  omap (fun e => match e with
                 | EvSearchFlights _ _ _ _ => Some e
                 | _ => None
                 end) l.

(** The intent has everything [flight_tool] needs before it calls the
    provider. *)
Definition flight_ready (state : AgentState) : Prop :=
  ∃ i, intent state = Some i
       ∧ truthy (py_get i "origin") = true
       ∧ truthy (py_get i "destination") = true
       ∧ truthy (py_get i "check_in") = true
       ∧ is_Some (i !! "travelers").

(** How many nodes can follow a node in a run. *)
Definition depth (n : node) : nat :=
  match n with
  | NIntent => 3
  | NFlightTool => 2
  | NHotelTool => 1
  | NClarify | NSynthesis | NWebSearchFallback => 0
  end.

(** The nodes a run can enter after the intent node, by the kind of the
    validated intent ([None]: the mapping has no ["intent"] entry and the
    router raises). *)
Definition paths_after_intent (kind : option pyval) : list (list node) :=
  match kind with
  | None => [[]]
  | Some k =>
      if py_eq k (PStr "flight_search")
      then [[NFlightTool; NSynthesis]; [NFlightTool; NWebSearchFallback]]
      else if py_eq k (PStr "hotel_search")
      then [[NHotelTool; NSynthesis]]
      else if py_eq k (PStr "both")
      then [[NFlightTool; NHotelTool; NSynthesis];
            [NFlightTool; NWebSearchFallback]]
      else if py_eq k (PStr "follow_up")
      then [[NSynthesis]]
      else [[NClarify]]
  end.

(** The state carries a response, and it is not the empty text. *)
Definition has_response (state : AgentState) : Prop :=
  ∃ text, response state = Some text ∧ text ≠ "".

(** A text that begins with the character [c]. *)
Definition starts_with (c : ascii) (text : string) : Prop :=
  ∃ rest, text = String c rest.

(** The HTML backend answers with the hits [hits]: status 200 and, among
    the first five result blocks, at least one with a title. *)
Definition ddg_answers (w : World) (q : string) (hits : list search_hit)
  : Prop :=
  ∃ blocks, ddg_post w q = DdgResponse 200 (Some blocks)
            ∧ ddg_hits (take 5 blocks) = hits ∧ hits ≠ [].

(** The HTML backend fails: the request or the parse raises, the status is
    not 200, or none of the first five blocks has a title. *)
Definition ddg_fails (w : World) (q : string) : Prop :=
  ∀ hits, ¬ ddg_answers w q hits.

(** ** Sessions and requests *)

(** Every session is stored under its own identifier. *)
Definition keyed_by_id (sessions : gmap string Session.t) : Prop :=
  ∀ k session, sessions !! k = Some session → Session.session_id session = k.

(** The identifier a request is served under: its own when it gives one,
    else the fresh one. *)
Definition served_id (env : Env) (session_id : option string) : string :=
  if given session_id then default "" session_id else uuid4 env.

(** The conversation a request continues: that of the session stored under
    the identifier it gives, if any. *)
Definition prior_history (session_id : option string)
    (sessions : gmap string Session.t) : list message :=
  if given session_id then
    match sessions !! default "" session_id with
    | Some session => Session.conversation_history session
    | None => []
    end
  else [].

(** The request passes both checks of the handler, and [q] is its cleaned
    query. *)
Definition accepted (env : Env) (req : QueryRequest.t) (q : string) : Prop :=
  sanitize_query env (QueryRequest.query req) = inl q
  ∧ (given (QueryRequest.session_id req) = true →
     is_uuid env (default "" (QueryRequest.session_id req)) = true).

(** The [HTTPException] that leaves [query_agent] when its body raised one
    with [status_code] and [detail]. *)
Definition rewrapped (env : Env) (status_code : Z) (detail : string)
  : HTTPException.t :=
  {| HTTPException.status_code := 500;
     HTTPException.detail :=
       "Error: " +:+ http_exception_str env
                       {| HTTPException.status_code := status_code;
                          HTTPException.detail := detail |} |}.

(** ** A concrete clock, parser and extractions

    [iso_calendar_date] reads the plain calendar form [YYYY-MM-DD] the
    prompt of [intent_node] asks the model for, as [fromisoformat] does. *)

Definition digit_of (a : ascii) : option Z :=
  let n := Z.of_nat (nat_of_ascii a) in
  if (48 <=? n) && (n <=? 57) then Some (n - 48) else None.

Fixpoint digits_value (acc : Z) (l : list ascii) : option Z :=
  match l with
  | [] => Some acc
  | a :: l' =>
      match digit_of a with
      | Some v => digits_value (10 * acc + v) l'
      | None => None
      end
  end.

Definition is_leap (y : Z) : bool :=
  ((y mod 4 =? 0) && negb (y mod 100 =? 0)) || (y mod 400 =? 0).

Definition days_in_month (y m : Z) : Z :=
  if m =? 2 then (if is_leap y then 29 else 28)
  else if (m =? 4) || (m =? 6) || (m =? 9) || (m =? 11) then 30
  else 31.

Definition calendar_date (y m d : Z) : option date :=
  if (1 <=? y) && (1 <=? m) && (m <=? 12) && (1 <=? d)
     && (d <=? days_in_month y m)
  then Some {| d_year := y; d_month := m; d_day := d |}
  else None.

Definition iso_date_of (l : list ascii) : option date :=
  match l with
  | [y1; y2; y3; y4; sep1; m1; m2; sep2; d1; d2] =>
      if bool_decide (sep1 = "-"%char) && bool_decide (sep2 = "-"%char) then
        match digits_value 0 [y1; y2; y3; y4], digits_value 0 [m1; m2],
              digits_value 0 [d1; d2] with
        | Some y, Some m, Some d => calendar_date y m d
        | _, _, _ => None
        end
      else None
  | _ => None
  end.

Definition iso_time_of (l : list ascii) : option (Z * Z) :=
  match l with
  | [t; h1; h2; c1; n1; n2; c2; s1; s2] =>
      if bool_decide (t = "T"%char) && bool_decide (c1 = ":"%char)
         && bool_decide (c2 = ":"%char) then
        match digits_value 0 [h1; h2], digits_value 0 [n1; n2],
              digits_value 0 [s1; s2] with
        | Some h, Some n, Some sec =>
            if (h <? 24) && (n <? 60) && (sec <? 60) then Some (h, n) else None
        | _, _, _ => None
        end
      else None
  | _ => None
  end.

(** [YYYY-MM-DD] and [YYYY-MM-DDTHH:MM:SS]. *)
Definition iso_calendar_date (s : string) : option datetime :=
  let l := list_ascii_of_string s in
  match iso_date_of (take 10 l) with
  | Some d =>
      match drop 10 l with
      | [] => Some {| dt_date := d; dt_hour := 0; dt_minute := 0 |}
      | l' =>
          match iso_time_of l' with
          | Some (h, n) => Some {| dt_date := d; dt_hour := h; dt_minute := n |}
          | None => None
          end
      end
  | None => None
  end.

(** [float] on a plain decimal numeral, digits with an optional fraction
    ("100", "100.00", "107.5"): the quotient of two integers that doubles hold
    exactly, rounded once. *)
Fixpoint split_at_dot (l : list ascii) : list ascii * option (list ascii) :=
  match l with
  | [] => ([], None)
  | a :: l' =>
      if bool_decide (a = "."%char) then ([], Some l')
      else let '(whole, frac) := split_at_dot l' in (a :: whole, frac)
  end.

Definition decimal_float (s : string) : option float :=
  let '(whole, frac) := split_at_dot (list_ascii_of_string s) in
  let frac := default [] frac in
  match whole, digits_value 0 (whole ++ frac) with
  | _ :: _, Some n =>
      if (n <? 2 ^ 53) && (Z.of_nat (length frac) <=? 22) then
        match float_of_Z n, float_of_Z (10 ^ Z.of_nat (length frac)) with
        | Returns a, Returns b => Some (a / b)%float
        | _, _ => None
        end
      else None
  | _, _ => None
  end.

Definition a_today : date := {| d_year := 2026; d_month := 11; d_day := 4 |}.

(** [{"intent": kind, "origin": o, "destination": d, "check_in": ci,
      "check_out": co, "travelers": 1, "reasoning": ""}] *)
Definition an_intent (kind : string) (o d ci co : pyval) : gmap string pyval :=
  <["intent" := PStr kind]>
    (<["origin" := o]>
       (<["destination" := d]>
          (<["check_in" := ci]>
             (<["check_out" := co]>
                (<["travelers" := PInt 1]>
                   (<["reasoning" := PStr ""]> ∅)))))).

Definition flight_bom_del : gmap string pyval :=
  an_intent "flight_search" (PStr "BOM") (PStr "DEL") (PStr "2026-12-01") PNone.

Definition flight_bom_bom_undated : gmap string pyval :=
  an_intent "flight_search" (PStr "BOM") (PStr "BOM") PNone PNone.

(** No origin, and a date one day before [a_today]. *)
Definition flight_to_del_past : gmap string pyval :=
  an_intent "flight_search" PNone (PStr "DEL") (PStr "2026-11-03") PNone.

Definition hotel_past : gmap string pyval :=
  an_intent "hotel_search" PNone (PStr "DEL") (PStr "2026-11-03")
    (PStr "2026-11-06").

(** The message of the one exception without text that the examples reach:
    an index past the end of a list. *)
Definition list_exception_text (e : exn) : string :=
  match e with
  | IndexError => "list index out of range"
  | _ => ""
  end.

(** A world built from what the language model, the flight search, the
    city look-up, the two hotel calls and the JSON search backends answer;
    the library functions are the concrete ones of this section. *)
Definition make_world (extraction : gmap string pyval)
    (flights_answer : provider_result (list (gmap string json)))
    (city : string → option string)
    (by_city : pyval → provider_result (list (gmap string json)))
    (offers : json → provider_result (list (gmap string json)))
    (searx : string → http_result) : World :=
  {| datetime_today := a_today;
     datetime_fromisoformat := iso_calendar_date;
     float_of_str := decimal_float;
     str_title := fun s => s;
     py_repr := fun _ => "";
     structured_invoke := fun _ _ => Returns extraction;
     search_flights := fun _ _ _ _ => flights_answer;
     search_hotels_by_city := by_city;
     search_hotel_offers := fun hotel_id _ _ _ => offers hotel_id;
     location_city_name := city;
     searxng_get := fun url _ => searx url;
     ddg_post := fun _ => DdgError;
     exception_text := list_exception_text |}.

(** A world in which only the flight search and the city look-up answer. *)
Definition a_world (extraction : gmap string pyval)
    (flights_answer : provider_result (list (gmap string json)))
    (city : string → option string) : World :=
  make_world extraction flights_answer city (fun _ => Ok [])
    (fun _ => Ok []) (fun _ => HttpError).

Definition indian_cities (code : string) : option string :=
  if bool_decide (code = "BOM") then Some "Mumbai"
  else if bool_decide (code = "DEL") then Some "Delhi"
  else None.

(** A provider error whose first entry has the given code and status. *)
Definition provider_error (text : string) (code status : Z) : ResponseError :=
  {| re_str := text;
     re_errors := Some [<["code" := PInt code]> (<["status" := PInt status]> ∅)] |}.

Definition error_141 : ResponseError := provider_error "[500]" 141 500.
Definition error_503 : ResponseError := provider_error "[503]" 38189 503.
Definition error_400 : ResponseError := provider_error "[400]" 477 400.

Definition world_outage : World :=
  a_world flight_bom_del (Failed error_141) indian_cities.
Definition world_503 : World :=
  a_world flight_bom_del (Failed error_503) indian_cities.
Definition world_400 : World :=
  a_world flight_bom_del (Failed error_400) indian_cities.

Definition state_bom_del : AgentState :=
  apply_update (initial_state "Book a flight from BOM to DEL on 2026-12-01" [])
    (intent_update flight_bom_del).

(** A combined search, complete. *)
Definition both_bom_del : gmap string pyval :=
  an_intent "both" (PStr "BOM") (PStr "DEL") (PStr "2026-12-01")
    (PStr "2026-12-03").

Definition state_both : AgentState :=
  apply_update
    (initial_state "Flight and hotel, BOM to DEL, 1 to 3 December" [])
    (intent_update both_bom_del).

(** [{k1: v1, ...}] *)
Definition obj (entries : list (string * json)) : gmap string json :=
  list_to_map entries.

Definition hotel_del : gmap string pyval :=
  an_intent "hotel_search" PNone (PStr "DEL") (PStr "2026-12-01")
    (PStr "2026-12-03").

Definition state_hotel_del : AgentState :=
  apply_update (initial_state "Find a hotel in Delhi from 1 to 3 December" [])
    (intent_update hotel_del).

(** Four hotels, the second without an identifier. *)
Definition hotels_in_del : list (gmap string json) :=
  [obj [("hotelId", JStr "H1"); ("name", JStr "Alpha")];
   obj [("name", JStr "Beta")];
   obj [("hotelId", JStr "H2"); ("name", JStr "Gamma")];
   obj [("hotelId", JStr "H3"); ("name", JStr "Delta")]].

(** A hotel offer priced [{total: 100, currency: "USD"}]. *)
Definition offer_usd_100 : gmap string json :=
  obj [("hotel", JObj (obj [("name", JStr "Gamma"); ("hotelId", JStr "H2")]));
       ("offers",
        JArr [JObj (obj [("price", JObj (obj [("total", JInt 100);
                                              ("currency", JStr "USD")]))])])].

(** Rate-limited on [H1], five offers for [H2], nothing for any other. *)
Definition offers_in_del (hotel_id : json)
  : provider_result (list (gmap string json)) :=
  if j_is_str hotel_id "H1" then Failed (provider_error "[429]" 38194 429)
  else if j_is_str hotel_id "H2" then Ok (replicate 5 offer_usd_100)
  else Ok [].

Definition world_hotels : World :=
  make_world hotel_del (Ok []) indian_cities (fun _ => Ok hotels_in_del)
    offers_in_del (fun _ => HttpError).

(** A flight priced [{total: "100.00", currency: "USD"}]. *)
Definition flight_ai_101 : gmap string json :=
  obj [("itineraries",
        JArr [JObj (obj [("segments",
          JArr [JObj (obj [("carrierCode", JStr "AI"); ("number", JStr "101");
                           ("departure",
                            JObj (obj [("at", JStr "2026-12-01T10:30:00");
                                       ("iataCode", JStr "BOM")]));
                           ("arrival",
                            JObj (obj [("iataCode", JStr "DEL")]))])])])]);
       ("price", JObj (obj [("total", JStr "100.00");
                            ("currency", JStr "USD")]))].

(** A state holding that flight and that hotel offer. *)
Definition state_with_results : AgentState :=
  {| query := "flight and hotel"; conversation_history := [];
     intent := None; flights := Some [flight_ai_101];
     hotels := Some [offer_usd_100]; response := None;
     use_web_search := false; search_query := None |}.

Definition a_search_result : gmap string pyval :=
  <["title" := PStr "Cheap flights"]>
    (<["url" := PStr "https://example.org/bom-del"]>
       (<["content" := PStr "Mumbai to Delhi from 4,500"]> ∅)).

(** The first instance answers 503, the second 200 with one result. *)
Definition searx_second_answers (url : string) : http_result :=
  if bool_decide (url = "https://searx.be/search") then HttpResponse 503 None
  else if bool_decide (url = "https://search.bus-hit.me/search")
  then HttpResponse 200 (Some [a_search_result])
  else HttpError.

Definition world_search : World :=
  make_world flight_bom_del (Failed error_141) indian_cities (fun _ => Ok [])
    (fun _ => Ok []) searx_second_answers.

Definition state_fallback : AgentState :=
  apply_update state_bom_del
    (arm_fallback "flights from Mumbai to Delhi on December 01, 2026 price").

(** Rate-limited on [H1], nothing for any other hotel. *)
Definition no_offers_in_del (hotel_id : json)
  : provider_result (list (gmap string json)) :=
  if j_is_str hotel_id "H1" then Failed (provider_error "[429]" 38194 429)
  else Ok [].

Definition world_no_offers : World :=
  make_world hotel_del (Ok []) indian_cities (fun _ => Ok hotels_in_del)
    no_offers_in_del (fun _ => HttpError).

(** One offer for [H1], then a connection failure on [H2]. *)
Definition offers_then_crash (hotel_id : json)
  : provider_result (list (gmap string json)) :=
  if j_is_str hotel_id "H1" then Ok [offer_usd_100]
  else if j_is_str hotel_id "H2" then Crashed "Connection reset by peer"
  else Ok [].

Definition world_hotel_crash : World :=
  make_world hotel_del (Ok []) indian_cities (fun _ => Ok hotels_in_del)
    offers_then_crash (fun _ => HttpError).

(** The city search of the hotel provider answers 503. *)
Definition world_hotel_down : World :=
  make_world hotel_del (Ok []) indian_cities (fun _ => Failed error_503)
    (fun _ => Ok []) (fun _ => HttpError).

(** A request environment: only the empty query is rejected, one identifier
    is well formed, and it is also the fresh one. *)
Definition an_env : Env :=
  {| sanitize_query :=
       fun q => if bool_decide (q = "") then inr "Query cannot be empty"
                else inl q;
     is_uuid :=
       fun s => bool_decide (s = "123e4567-e89b-12d3-a456-426614174000");
     http_exception_str :=
       fun e => pretty (HTTPException.status_code e) +:+ ": "
                +:+ HTTPException.detail e;
     uuid4 := "123e4567-e89b-12d3-a456-426614174000";
     now_isoformat := "2026-11-04T10:00:00" |}.

Definition empty_server : Server := {| sessions := ∅; sys := empty_sys |}.

Definition a_request (q : string) (session_id : option string)
  : QueryRequest.t :=
  {| QueryRequest.query := q; QueryRequest.session_id := session_id |}.


(** A server that holds one conversation. *)
Definition server_with_session : Server :=
  {| sessions :=
       {[ "123e4567-e89b-12d3-a456-426614174000" :=
            {| Session.session_id := "123e4567-e89b-12d3-a456-426614174000";
               Session.conversation_history :=
                 [Message "user" "Hello"; Message "assistant" "Hi"];
               Session.last_intent := None;
               Session.last_flights := None;
               Session.last_hotels := None;
               Session.created_at := "2026-11-03T09:00:00" |} ]};
     sys := empty_sys |}.

(** ** Basic facts *)

(** Membership in a list given by its elements. *)
Ltac in_list :=
  repeat first [apply list_elem_of_here | apply list_elem_of_further].

Lemma py_get_insert_eq (d : gmap string pyval) k v :
  py_get (<[k := v]> d) k = v.
Proof. unfold py_get. by rewrite lookup_insert_eq. Qed.

Lemma py_get_insert_ne (d : gmap string pyval) k k' v :
  k ≠ k' → py_get (<[k := v]> d) k' = py_get d k'.
Proof. intros H. unfold py_get. by rewrite lookup_insert_ne. Qed.

Lemma truthy_non_null v : truthy v = true → v ≠ PNone.
Proof. by destruct v. Qed.

Lemma truthy_field_set d k : truthy (py_get d k) = true → field_set d k.
Proof. intros H. split; [by apply truthy_non_null | done]. Qed.

Lemma py_eq_true a b : py_eq a b = true ↔ a = b.
Proof. unfold py_eq. by rewrite bool_decide_eq_true. Qed.

Lemma py_eq_false a b : py_eq a b = false ↔ a ≠ b.
Proof. unfold py_eq. by rewrite bool_decide_eq_false. Qed.

Lemma append_if_nil c x l : append_if c x l = [] ↔ c = false ∧ l = [].
Proof.
  unfold append_if. destruct c.
  - split; [intros H; by destruct l | intros [? _]; done].
  - split; [done | by intros [_ ?]].
Qed.

Lemma append_if_filter c x (t : list (bool * string)) :
  append_if c x (map snd (filter (fun row => fst row = true) t))
  = map snd (filter (fun row => fst row = true) (t ++ [(c, x)])).
Proof.
  rewrite filter_app, map_app. unfold append_if.
  destruct c; cbn; [done | by rewrite app_nil_r].
Qed.

(** ** The validator *)

Section ValidatorProperties.

Variable fromisoformat : string -> option datetime.
Variable today : date.

Lemma flight_missing_table d :
  flight_missing d = missing_items "flight_search" d.
Proof.
  unfold flight_missing, missing_items, required_table.
  rewrite bool_decide_true by done.
  change (@nil string) with
    (map snd (filter (fun row : bool * string => fst row = true) [])).
  by rewrite !append_if_filter.
Qed.

Lemma hotel_missing_table d :
  hotel_missing d = missing_items "hotel_search" d.
Proof.
  unfold hotel_missing, missing_items, required_table.
  rewrite bool_decide_false by done. rewrite bool_decide_true by done.
  change (@nil string) with
    (map snd (filter (fun row : bool * string => fst row = true) [])).
  by rewrite !append_if_filter.
Qed.

Lemma both_missing_table d :
  both_missing d = missing_items "both" d.
Proof.
  unfold both_missing, missing_items, required_table.
  rewrite !bool_decide_false by done. rewrite bool_decide_true by done.
  change (@nil string) with
    (map snd (filter (fun row : bool * string => fst row = true) [])).
  by rewrite !append_if_filter.
Qed.

Lemma clarify_if_missing_nil d : clarify_if_missing [] d = d.
Proof. done. Qed.

Lemma clarify_if_missing_cons m d :
  m ≠ [] →
  clarify_if_missing m d = clarified ("Missing: " +:+ py_join ", " m) d.
Proof. by destruct m. Qed.

(** The three validations are guarded by the same value, so at most one of
    them runs. *)
Lemma completeness_check_kind kind d :
  kind ∈ ["flight_search"; "hotel_search"; "both"] →
  completeness_check (PStr kind) d
  = clarify_if_missing (missing_items kind d) d.
Proof.
  intros Hk. unfold completeness_check.
  assert (∀ a b : string, a ≠ b → py_eq (PStr a) (PStr b) = false) as Hne.
  { intros a b Hab. apply py_eq_false. congruence. }
  assert (∀ a : string, py_eq (PStr a) (PStr a) = true) as Heq.
  { intros a. by apply py_eq_true. }
  set_unfold in Hk. destruct Hk as [-> | [-> | [-> | []]]].
  - rewrite Heq, flight_missing_table.
    destruct (missing_items "flight_search" d) eqn:Hm; cbn.
    + by rewrite !Hne.
    + by rewrite !Hne.
  - rewrite Heq, (Hne "hotel_search" "flight_search"),
      (Hne "hotel_search" "both"), hotel_missing_table by done.
    done.
  - rewrite Heq, !Hne, both_missing_table by done. done.
Qed.

Lemma completeness_check_other o d :
  o ≠ PStr "flight_search" → o ≠ PStr "hotel_search" → o ≠ PStr "both" →
  completeness_check o d = d.
Proof.
  intros H1 H2 H3. unfold completeness_check.
  apply py_eq_false in H1, H2, H3. by rewrite H1, H2, H3.
Qed.

Lemma fix_hotel_origin_other o d k :
  k ≠ "origin" → k ≠ "destination" →
  fix_hotel_origin o d !! k = d !! k.
Proof.
  intros H1 H2. unfold fix_hotel_origin.
  repeat case_match; try done.
  by rewrite !lookup_insert_ne.
Qed.

Lemma fix_hotel_origin_not_hotel o d :
  o ≠ PStr "hotel_search" → fix_hotel_origin o d = d.
Proof. intros H. unfold fix_hotel_origin. apply py_eq_false in H. by rewrite H. Qed.

(** What the completeness check leaves: the mapping as it was, or the
    mapping clarified. *)
Lemma completeness_check_cases o d :
  (completeness_check o d = d
   ∧ ∀ kind, o = PStr kind →
       kind ∈ ["flight_search"; "hotel_search"; "both"] →
       missing_items kind d = [])
  ∨ (∃ text, completeness_check o d = clarified text d).
Proof.
  destruct (decide (o = PStr "flight_search")) as [-> | H1];
    [| destruct (decide (o = PStr "hotel_search")) as [-> | H2];
       [| destruct (decide (o = PStr "both")) as [-> | H3]]].
  1-3: rewrite completeness_check_kind by set_solver;
    match goal with |- context [missing_items ?k ?m] =>
      destruct (missing_items k m) eqn:Hm end;
    [ left; split; [done | intros kind [= <-] _; done]
    | right; eexists; by rewrite clarify_if_missing_cons ].
  left. split; [by apply completeness_check_other |].
  intros kind -> Hk.
  apply elem_of_cons in Hk as [-> | Hk]; [done |].
  apply elem_of_cons in Hk as [-> | Hk]; [done |].
  apply elem_of_cons in Hk as [-> | Hk]; [done |].
  by apply elem_of_nil in Hk.
Qed.

Lemma past_date_guard_cases d :
  optional_str (py_get d "check_in") →
  past_date_guard fromisoformat today d = Returns d
  ∨ ∃ text, past_date_guard fromisoformat today d = Returns (clarified text d).
Proof.
  intros Ht. unfold past_date_guard.
  destruct (py_get d "check_in") as [| s | z]; [by left | | done].
  destruct (truthy (PStr s)); [| by left].
  destruct (fromisoformat s) as [dt |]; [| right; by eexists].
  destruct (date_ltb (dt_date dt) today); [right; by eexists | by left].
Qed.

Lemma clarified_lookup text d k :
  k ≠ "intent" → k ≠ "reasoning" → clarified text d !! k = d !! k.
Proof. intros. unfold clarified. by rewrite !lookup_insert_ne. Qed.

Lemma clarified_get text d k :
  k ≠ "intent" → k ≠ "reasoning" → py_get (clarified text d) k = py_get d k.
Proof. intros. unfold py_get. by rewrite clarified_lookup. Qed.

Lemma clarified_intent text d :
  py_get (clarified text d) "intent" = PStr "clarify".
Proof.
  unfold clarified. rewrite py_get_insert_ne by done. apply py_get_insert_eq.
Qed.

Lemma clarified_reasoning text d :
  py_get (clarified text d) "reasoning" = PStr text.
Proof. apply py_get_insert_eq. Qed.

Lemma missing_items_nil_row kind d c x :
  missing_items kind d = [] → (c, x) ∈ required_table kind d → c = false.
Proof.
  unfold missing_items. intros Hnil Hin.
  destruct c; [| done]. exfalso.
  assert (x ∈ map snd (filter (λ row : bool * string, row.1 = true)
                         (required_table kind d))) as Hx.
  { apply list_elem_of_fmap. exists (true, x). split; [done |].
    apply list_elem_of_filter. by split. }
  rewrite Hnil in Hx. by apply elem_of_nil in Hx.
Qed.

Lemma absent_false d k : absent d k = false → field_set d k.
Proof.
  unfold absent. intros H. apply truthy_field_set.
  by destruct (truthy (py_get d k)).
Qed.

End ValidatorProperties.

Section ValidatorTheorems.

Variable fromisoformat : string -> option datetime.
Variable today : date.

Lemma completeness_check_check_in o d :
  py_get (completeness_check o d) "check_in" = py_get d "check_in".
Proof.
  destruct (completeness_check_cases o d) as [[-> _] | [text ->]]; [done |].
  by apply clarified_get.
Qed.

Lemma fix_hotel_origin_get o d k :
  k ≠ "origin" → k ≠ "destination" →
  py_get (fix_hotel_origin o d) k = py_get d k.
Proof. intros. unfold py_get. by rewrite fix_hotel_origin_other. Qed.

(** The two ways out of the validator: the mapping after the hotel fix,
    with nothing missing; or a mapping rewritten to [clarify] that differs
    from it in [intent] and [reasoning] only. *)
Lemma validate_intent_cases d :
  optional_str (py_get d "check_in") →
  let d1 := fix_hotel_origin (py_get d "intent") d in
  (validate_intent fromisoformat today d = Returns d1
   ∧ ∀ kind, py_get d "intent" = PStr kind → kind ∈ search_kinds →
       missing_items kind d1 = [])
  ∨ (∃ d', validate_intent fromisoformat today d = Returns d'
       ∧ py_get d' "intent" = PStr "clarify"
       ∧ ∀ k, k ≠ "intent" → k ≠ "reasoning" → d' !! k = d1 !! k).
Proof.
  intros Ht d1. unfold validate_intent. fold d1.
  set (o := py_get d "intent").
  assert (optional_str (py_get (completeness_check o d1) "check_in")) as Ht'.
  { rewrite completeness_check_check_in. unfold d1.
    by rewrite fix_hotel_origin_get. }
  destruct (past_date_guard_cases fromisoformat today _ Ht') as [Hg | [t Hg]];
    rewrite Hg; clear Hg.
  - destruct (completeness_check_cases o d1) as [[-> Hnil] | [text ->]].
    + left. split; [done |]. intros kind Hk. by apply Hnil.
    + right. eexists. split; [done |]. split; [apply clarified_intent |].
      intros k ? ?. by apply clarified_lookup.
  - right. eexists. split; [done |]. split; [apply clarified_intent |].
    intros k ? ?. rewrite clarified_lookup by done.
    destruct (completeness_check_cases o d1) as [[-> _] | [text ->]]; [done |].
    by apply clarified_lookup.
Qed.

Lemma required_table_flight d :
  required_table "flight_search" d
  = [(absent d "origin", "departure city/airport");
     (absent d "destination", "arrival city/airport");
     (same_place d, "arrival city/airport (cannot be same as departure)");
     (absent d "check_in", "departure/travel date")].
Proof. reflexivity. Qed.

Lemma required_table_hotel d :
  required_table "hotel_search" d
  = [(absent d "destination", "destination city");
     (absent d "check_in", "check-in date");
     (absent d "check_out", "check-out date")].
Proof. reflexivity. Qed.

Lemma required_table_both d :
  required_table "both" d
  = [(absent d "origin", "departure city/airport");
     (absent d "destination", "destination city");
     (absent d "check_in", "check-in/departure date");
     (absent d "check_out", "check-out date")].
Proof. reflexivity. Qed.

(** C1. Every intent the validator emits as [flight_search], [hotel_search]
    or [both] has the fields its kind requires set (not [None], not absent,
    not empty); and an extraction of one of these kinds for which a row of
    the required-field table fails leaves [intent_node] as [clarify]. *)
Theorem validator_required_fields_set (d : gmap string pyval) :
  optional_str (py_get d "check_in") →
  ∃ d', validate_intent fromisoformat today d = Returns d'
    ∧ (py_get d' "intent" = PStr "flight_search" →
         field_set d' "origin" ∧ field_set d' "destination"
         ∧ field_set d' "check_in")
    ∧ (py_get d' "intent" = PStr "hotel_search" →
         field_set d' "destination" ∧ field_set d' "check_in"
         ∧ field_set d' "check_out")
    ∧ (py_get d' "intent" = PStr "both" →
         field_set d' "origin" ∧ field_set d' "destination"
         ∧ field_set d' "check_in" ∧ field_set d' "check_out")
    ∧ (∀ kind row,
         py_get d "intent" = PStr kind → kind ∈ search_kinds →
         row ∈ required_table kind (fix_hotel_origin (PStr kind) d) →
         row.1 = true →
         py_get d' "intent" = PStr "clarify").
Proof.
  intros Ht.
  destruct (validate_intent_cases d Ht) as [[Hv Hnil] | (d' & Hv & Hc & _)].
  - eexists. split; [exact Hv |].
    set (d1 := fix_hotel_origin (py_get d "intent") d) in *.
    assert (py_get d1 "intent" = py_get d "intent") as Hi
      by (by apply fix_hotel_origin_get).
    assert (∀ kind k x, py_get d1 "intent" = PStr kind → kind ∈ search_kinds →
              (absent d1 k, x) ∈ required_table kind d1 → field_set d1 k)
      as Hrow.
    { intros kind k x Hk Hin Hr. apply absent_false.
      eapply missing_items_nil_row; [| exact Hr].
      apply Hnil; [by rewrite <- Hi | done]. }
    refine (conj _ (conj _ (conj _ _))).
    + intros H. refine (conj _ (conj _ _));
        (eapply (Hrow "flight_search");
         [done | unfold search_kinds; in_list
         | rewrite required_table_flight; in_list]).
    + intros H. refine (conj _ (conj _ _));
        (eapply (Hrow "hotel_search");
         [done | unfold search_kinds; in_list
         | rewrite required_table_hotel; in_list]).
    + intros H. refine (conj _ (conj _ (conj _ _)));
        (eapply (Hrow "both");
         [done | unfold search_kinds; in_list
         | rewrite required_table_both; in_list]).
    + intros kind [c x] Hk Hin Hr Hc. exfalso. cbn in Hc. subst c.
      pose proof (Hnil kind Hk Hin) as Hm.
      unfold d1 in Hm. rewrite Hk in Hm.
      by pose proof (missing_items_nil_row _ _ _ _ Hm Hr).
  - exists d'. split; [exact Hv |].
    rewrite Hc. repeat split; try done.
Qed.

Lemma missing_items_failing_row kind d :
  (∃ row, row ∈ required_table kind d ∧ row.1 = true)
  ↔ missing_items kind d ≠ [].
Proof.
  unfold missing_items. split.
  - intros ([c x] & Hin & Hc) Hnil. cbn in Hc. subst c.
    by pose proof (missing_items_nil_row _ _ _ _ Hnil Hin).
  - intros Hne.
    destruct (filter (λ row : bool * string, row.1 = true)
                (required_table kind d)) as [| row rows] eqn:Hf; [done |].
    exists row.
    assert (row ∈ filter (λ row : bool * string, row.1 = true)
                    (required_table kind d)) as Hin
      by (rewrite Hf; apply list_elem_of_here).
    apply list_elem_of_filter in Hin as [? ?]. by split.
Qed.

(** C4. An extraction whose [check_in] is a non-empty string leaves the
    validator as [clarify], with the past-date reasoning when the string
    parses to a date before today and with the invalid-format reasoning when
    it does not parse, whatever the intent and whether or not the
    completeness checks found anything missing. *)
Theorem past_date_guard_forces_clarify (d : gmap string pyval) (s : string) :
  py_get d "check_in" = PStr s → s ≠ "" →
  ∃ d', validate_intent fromisoformat today d = Returns d'
    ∧ (∀ dt, fromisoformat s = Some dt →
         date_ltb (dt_date dt) today = true →
         py_get d' "intent" = PStr "clarify"
         ∧ py_get d' "reasoning"
           = PStr "Check-in/departure date cannot be in the past")
    ∧ (fromisoformat s = None →
         py_get d' "intent" = PStr "clarify"
         ∧ py_get d' "reasoning"
           = PStr "Invalid date format. Please provide a valid date.").
Proof.
  intros Hs Hne. unfold validate_intent, past_date_guard.
  rewrite completeness_check_check_in, fix_hotel_origin_get, Hs by done.
  assert (truthy (PStr s) = true) as ->.
  { cbn. by rewrite bool_decide_false. }
  destruct (fromisoformat s) as [dt |] eqn:Hp.
  - destruct (date_ltb (dt_date dt) today) eqn:Hlt.
    + eexists. split; [done |]. split; [| done].
      intros dt' [= <-] _. split; [apply clarified_intent |].
      apply clarified_reasoning.
    + eexists. split; [done |]. split; [| done].
      intros dt' [= <-] Hlt'. congruence.
  - eexists. split; [done |]. split; [done |].
    intros _. split; [apply clarified_intent | apply clarified_reasoning].
Qed.

Lemma past_date_guard_silent d :
  guard_silent fromisoformat today d →
  past_date_guard fromisoformat today d = Returns d.
Proof.
  unfold past_date_guard. intros [-> | (s & dt & -> & -> & ->)]; [done |].
  by destruct (truthy (PStr s)).
Qed.

(** C9, as the code has it. For a search extraction in which a row fails (a
    required field absent, or origin equal to destination on a flight
    search) the validator always emits [clarify]. The items of the failing
    rows are collected in the order in which the code tests them, which is
    the list the source builds: for a flight search the item of equal origin
    and destination comes before the item of the date. The reasoning
    emitted is "Missing: " followed by these items, comma-joined, exactly
    when the past-date guard stays silent; when [check_in] is a date before
    today the guard writes its own text over it, and when [check_in] does
    not parse it writes the other one. Equal origin and destination on a
    flight search put the item
    "arrival city/airport (cannot be same as departure)" in the list. *)
Theorem missing_fields_listed_in_order (kind : string) (d : gmap string pyval) :
  kind ∈ search_kinds →
  py_get d "intent" = PStr kind →
  optional_str (py_get d "check_in") →
  (∃ row, row ∈ required_table kind (fix_hotel_origin (PStr kind) d)
          ∧ row.1 = true) →
  let d1 := fix_hotel_origin (PStr kind) d in
  let text := "Missing: " +:+ py_join ", " (missing_items kind d1) in
  (missing_items kind d1
   = if bool_decide (kind = "flight_search") then flight_missing d1
     else if bool_decide (kind = "hotel_search") then hotel_missing d1
     else both_missing d1)
  ∧ (guard_silent fromisoformat today d →
     validate_intent fromisoformat today d = Returns (clarified text d1))
  ∧ (∀ s dt, py_get d "check_in" = PStr s → s ≠ "" →
       fromisoformat s = Some dt → date_ltb (dt_date dt) today = true →
       validate_intent fromisoformat today d
       = Returns (clarified past_reasoning (clarified text d1)))
  ∧ (∀ s, py_get d "check_in" = PStr s → s ≠ "" →
       fromisoformat s = None →
       validate_intent fromisoformat today d
       = Returns (clarified invalid_date_reasoning (clarified text d1)))
  ∧ (∃ d', validate_intent fromisoformat today d = Returns d'
           ∧ py_get d' "intent" = PStr "clarify"
           ∧ (py_get d' "reasoning" = PStr text
              ∨ py_get d' "reasoning" = PStr past_reasoning
              ∨ py_get d' "reasoning" = PStr invalid_date_reasoning)
           ∧ ∀ k, k ≠ "intent" → k ≠ "reasoning" → d' !! k = d1 !! k)
  ∧ (kind = "flight_search" → same_place d1 = true →
     "arrival city/airport (cannot be same as departure)"
       ∈ missing_items kind d1).
Proof.
  intros Hk Hi Ht Hrow d1 text.
  apply missing_items_failing_row in Hrow. fold d1 in Hrow.
  assert (completeness_check (PStr kind) d1 = clarified text d1) as Hc.
  { rewrite completeness_check_kind by done.
    by apply clarify_if_missing_cons. }
  assert (validate_intent fromisoformat today d
          = past_date_guard fromisoformat today (clarified text d1)) as Hv.
  { unfold validate_intent. rewrite Hi. fold d1. by rewrite Hc. }
  assert (py_get (clarified text d1) "check_in" = py_get d "check_in") as Hci.
  { rewrite clarified_get by done. unfold d1.
    by rewrite fix_hotel_origin_get. }
  assert (guard_silent fromisoformat today d →
          validate_intent fromisoformat today d
          = Returns (clarified text d1)) as Hsilent.
  { intros Hs. rewrite Hv. apply past_date_guard_silent.
    destruct Hs as [Hs | (s & dt & Hs & Hp & Hlt)]; [left | right].
    - by rewrite Hci.
    - exists s, dt. by rewrite Hci. }
  assert (∀ s dt, py_get d "check_in" = PStr s → s ≠ "" →
            fromisoformat s = Some dt → date_ltb (dt_date dt) today = true →
            validate_intent fromisoformat today d
            = Returns (clarified past_reasoning (clarified text d1)))
    as Hpast.
  { intros s dt Hs Hne Hp Hlt. rewrite Hv. unfold past_date_guard.
    rewrite Hci, Hs, Hp, Hlt. cbn. by rewrite bool_decide_false. }
  assert (∀ s, py_get d "check_in" = PStr s → s ≠ "" →
            fromisoformat s = None →
            validate_intent fromisoformat today d
            = Returns (clarified invalid_date_reasoning (clarified text d1)))
    as Hinvalid.
  { intros s Hs Hne Hp. rewrite Hv. unfold past_date_guard.
    rewrite Hci, Hs, Hp. cbn. by rewrite bool_decide_false. }
  split.
  { set_unfold in Hk. destruct Hk as [-> | [-> | [-> | []]]].
    - by rewrite bool_decide_true, flight_missing_table.
    - rewrite bool_decide_false, bool_decide_true by done.
      by rewrite hotel_missing_table.
    - rewrite !bool_decide_false by done. by rewrite both_missing_table. }
  split; [exact Hsilent |]. split; [exact Hpast |].
  split; [exact Hinvalid |]. split.
  - assert (∀ d', validate_intent fromisoformat today d
                   = Returns (clarified text d1) → d' = clarified text d1 →
                   py_get d' "intent" = PStr "clarify"
                   ∧ (py_get d' "reasoning" = PStr text
                      ∨ py_get d' "reasoning" = PStr past_reasoning
                      ∨ py_get d' "reasoning" = PStr invalid_date_reasoning)
                   ∧ ∀ k, k ≠ "intent" → k ≠ "reasoning" →
                          d' !! k = d1 !! k) as Hplain.
    { intros d' _ ->. split; [apply clarified_intent |].
      split; [left; apply clarified_reasoning |].
      intros k ? ?. by apply clarified_lookup. }
    destruct (decide (truthy (py_get d "check_in") = false)) as [Hf | Hset].
    { eexists. split; [apply Hsilent; by left |].
      apply Hplain; [apply Hsilent; by left | done]. }
    destruct (py_get d "check_in") as [| s | z] eqn:Hs; [done | | done].
    assert (s ≠ "") as Hne.
    { intros ->. by apply Hset. }
    destruct (fromisoformat s) as [dt |] eqn:Hp.
    + destruct (date_ltb (dt_date dt) today) eqn:Hlt.
      * eexists. split; [by eapply Hpast |].
        split; [apply clarified_intent |].
        split; [right; left; apply clarified_reasoning |].
        intros k ? ?. by rewrite !clarified_lookup.
      * assert (guard_silent fromisoformat today d) as Hs'.
        { right. exists s, dt. by rewrite Hs. }
        eexists. split; [by apply Hsilent |]. by apply Hplain; [apply Hsilent |].
    + eexists. split; [by eapply Hinvalid |].
      split; [apply clarified_intent |].
      split; [right; right; apply clarified_reasoning |].
      intros k ? ?. by rewrite !clarified_lookup.
  - intros -> Hsame. unfold missing_items. rewrite required_table_flight.
    apply list_elem_of_fmap.
    exists (true, "arrival city/airport (cannot be same as departure)").
    split; [done |]. apply list_elem_of_filter. split; [done |].
    rewrite Hsame. in_list.
Qed.

(** C10. The completeness checks followed by the past-date guard change
    the [intent] and [reasoning] entries only: every other key of the
    mapping ([origin], [destination], [check_in], [check_out], [travelers]
    among them) is bound as before, or absent as before. *)
Theorem clarify_rewrites_touch_intent_and_reasoning_only
    (original_intent : pyval) (d : gmap string pyval) :
  optional_str (py_get d "check_in") →
  ∃ d', past_date_guard fromisoformat today
          (completeness_check original_intent d) = Returns d'
    ∧ (∀ k, k ≠ "intent" → k ≠ "reasoning" → d' !! k = d !! k)
    ∧ d' !! "origin" = d !! "origin"
    ∧ d' !! "destination" = d !! "destination"
    ∧ d' !! "check_in" = d !! "check_in"
    ∧ d' !! "check_out" = d !! "check_out"
    ∧ d' !! "travelers" = d !! "travelers".
Proof.
  intros Ht.
  assert (∀ k, k ≠ "intent" → k ≠ "reasoning" →
            completeness_check original_intent d !! k = d !! k) as Hcheck.
  { intros k ? ?.
    destruct (completeness_check_cases original_intent d)
      as [[-> _] | [text ->]]; [done |].
    by apply clarified_lookup. }
  assert (optional_str
            (py_get (completeness_check original_intent d) "check_in")) as Ht'
    by (by rewrite completeness_check_check_in).
  assert (∃ d', past_date_guard fromisoformat today
                  (completeness_check original_intent d) = Returns d'
            ∧ ∀ k, k ≠ "intent" → k ≠ "reasoning" → d' !! k = d !! k)
    as (d' & Hg & Hframe).
  { destruct (past_date_guard_cases fromisoformat today _ Ht')
      as [Hg | [t Hg]]; rewrite Hg; eexists; (split; [done |]).
    - exact Hcheck.
    - intros k ? ?. rewrite clarified_lookup by done. by apply Hcheck. }
  exists d'. split; [exact Hg |]. split; [exact Hframe |].
  repeat split; by apply Hframe.
Qed.

End ValidatorTheorems.

(** ** The validator on concrete extractions *)

Lemma validator_required_fields_set_witness :
  ∃ d', validate_intent iso_calendar_date a_today flight_bom_del = Returns d'
    ∧ py_get d' "intent" = PStr "flight_search"
    ∧ field_set d' "origin" ∧ field_set d' "destination"
    ∧ field_set d' "check_in".
Proof.
  destruct (validator_required_fields_set iso_calendar_date a_today
              flight_bom_del I) as (d' & Hv & Hf & _).
  exists d'. split; [exact Hv |].
  assert (py_get d' "intent" = PStr "flight_search") as Hi.
  { vm_compute in Hv. injection Hv as <-. vm_compute. reflexivity. }
  split; [exact Hi |]. exact (Hf Hi).
Defined.

Lemma past_date_guard_forces_clarify_witness :
  ∃ d', validate_intent iso_calendar_date a_today hotel_past = Returns d'
    ∧ py_get d' "intent" = PStr "clarify"
    ∧ py_get d' "reasoning"
      = PStr "Check-in/departure date cannot be in the past".
Proof.
  assert (py_get hotel_past "check_in" = PStr "2026-11-03") as Hs
    by (vm_compute; reflexivity).
  assert ("2026-11-03" ≠ "") as Hne by discriminate.
  destruct (past_date_guard_forces_clarify iso_calendar_date a_today
              hotel_past "2026-11-03" Hs Hne) as (d' & Hv & Hpast & _).
  exists d'. split; [exact Hv |].
  eapply Hpast; vm_compute; reflexivity.
Defined.

Lemma missing_fields_listed_in_order_witness :
  validate_intent iso_calendar_date a_today flight_bom_bom_undated
  = Returns
      (clarified
         "Missing: arrival city/airport (cannot be same as departure), departure/travel date"
         flight_bom_bom_undated).
Proof.
  assert ("flight_search" ∈ search_kinds) as Hk by (unfold search_kinds; in_list).
  assert (py_get flight_bom_bom_undated "intent" = PStr "flight_search") as Hi
    by (vm_compute; reflexivity).
  assert (∃ row, row ∈ required_table "flight_search"
                   (fix_hotel_origin (PStr "flight_search")
                      flight_bom_bom_undated) ∧ row.1 = true) as Hrow.
  { exists (true, "departure/travel date"). split; [| done].
    rewrite required_table_flight.
    change (absent (fix_hotel_origin (PStr "flight_search")
                      flight_bom_bom_undated) "check_in")
      with true.
    in_list. }
  destruct (missing_fields_listed_in_order iso_calendar_date a_today
              "flight_search" flight_bom_bom_undated Hk Hi I Hrow)
    as (_ & Hsilent & _).
  etrans; [apply Hsilent; by left |]. vm_compute. reflexivity.
Defined.

(** C9 as claimed does not hold of the code, in two ways. With no origin and
    a date before today, the one missing item is the departure city, yet the
    reasoning emitted is the text of the past-date guard, not a list of what
    is missing. With equal origin and destination and no date, the reasoning
    lists the equality violation before the date, where the order of the
    specification's table puts the missing field first and the violation
    last. *)
Lemma missing_fields_reasoning_counterexample :
  (∃ d', validate_intent iso_calendar_date a_today flight_to_del_past
         = Returns d'
         ∧ missing_items "flight_search" flight_to_del_past
           = ["departure city/airport"]
         ∧ py_get d' "intent" = PStr "clarify"
         ∧ py_get d' "reasoning"
           = PStr "Check-in/departure date cannot be in the past"
         ∧ py_get d' "reasoning"
           ≠ PStr (spec_reasoning "flight_search" flight_to_del_past))
  ∧ (∃ d', validate_intent iso_calendar_date a_today flight_bom_bom_undated
           = Returns d'
           ∧ py_get d' "reasoning"
             = PStr "Missing: arrival city/airport (cannot be same as departure), departure/travel date"
           ∧ spec_reasoning "flight_search" flight_bom_bom_undated
             = "Missing: departure/travel date, arrival city/airport (cannot be same as departure)"
           ∧ py_get d' "reasoning"
             ≠ PStr (spec_reasoning "flight_search" flight_bom_bom_undated)).
Proof.
  split.
  - eexists. split; [vm_compute; reflexivity |].
    split; [vm_compute; reflexivity |].
    split; [vm_compute; reflexivity |].
    split; [vm_compute; reflexivity |].
    vm_compute. discriminate.
  - eexists. split; [vm_compute; reflexivity |].
    split; [vm_compute; reflexivity |].
    split; [vm_compute; reflexivity |].
    vm_compute. discriminate.
Qed.

Lemma clarify_rewrites_touch_intent_and_reasoning_only_witness :
  ∃ d', past_date_guard iso_calendar_date a_today
          (completeness_check (PStr "hotel_search") hotel_past) = Returns d'
    ∧ d' !! "destination" = Some (PStr "DEL")
    ∧ d' !! "check_in" = Some (PStr "2026-11-03")
    ∧ d' !! "travelers" = Some (PInt 1).
Proof.
  destruct (clarify_rewrites_touch_intent_and_reasoning_only
              iso_calendar_date a_today (PStr "hotel_search") hotel_past I)
    as (d' & Hv & _ & _ & Hd & Hc & _ & Ht).
  exists d'. split; [exact Hv |].
  rewrite Hd, Hc, Ht. vm_compute. repeat split; reflexivity.
Defined.

(** ** Rules for node computations *)

Section RunSpec.

Context {A B : Type}.
Implicit Types (Q : event → Prop) (E : exn → Prop).

Lemma run_spec_ret Q (R : A → Prop) E a : R a → run_spec Q R E (ret a).
Proof. intros H σ. exists []. by rewrite app_nil_r. Qed.

Lemma run_spec_raise Q (R : A → Prop) E e : E e → run_spec Q R E (raise e).
Proof. intros H σ. exists []. by rewrite app_nil_r. Qed.

Lemma run_spec_lift Q (R : A → Prop) E (o : outcome A) :
  match o with Returns a => R a | Raises e => E e end →
  run_spec Q R E (lift o).
Proof. intros H σ. exists []. by rewrite app_nil_r. Qed.

Lemma run_spec_bind Q (R1 : A → Prop) (R : B → Prop) E (m : M A) (k : A → M B) :
  run_spec Q R1 E m →
  (∀ a, R1 a → run_spec Q R E (k a)) →
  run_spec Q R E (bind m k).
Proof.
  intros Hm Hk σ. unfold bind.
  destruct (Hm σ) as (l1 & Hl1 & HQ1 & H1).
  destruct (m σ) as [[a | e] σ1]; cbn in *.
  - destruct (Hk a H1 σ1) as (l2 & Hl2 & HQ2 & H2).
    exists (l1 ++ l2). rewrite Hl2, Hl1, app_assoc.
    split; [done |]. split; [by apply Forall_app | done].
  - by exists l1.
Qed.

Lemma run_spec_try_except Q (R : A → Prop) E1 E (m : M A) (h : exn → M A) :
  run_spec Q R E1 m →
  (∀ e, E1 e → run_spec Q R E (h e)) →
  run_spec Q R E (try_except m h).
Proof.
  intros Hm Hh σ. unfold try_except.
  destruct (Hm σ) as (l1 & Hl1 & HQ1 & H1).
  destruct (m σ) as [[a | e] σ1]; cbn in *.
  - by exists l1.
  - destruct (Hh e H1 σ1) as (l2 & Hl2 & HQ2 & H2).
    exists (l1 ++ l2). rewrite Hl2, Hl1, app_assoc.
    split; [done |]. split; [by apply Forall_app | done].
Qed.

Lemma run_spec_weaken Q Q' (R R' : A → Prop) E E' (m : M A) :
  run_spec Q R E m →
  (∀ e, Q e → Q' e) → (∀ a, R a → R' a) → (∀ e, E e → E' e) →
  run_spec Q' R' E' m.
Proof.
  intros Hm HQ HR HE σ. destruct (Hm σ) as (l & Hl & HQl & H).
  exists l. split; [done |]. split; [by eapply Forall_impl |].
  destruct (m σ).1; auto.
Qed.

End RunSpec.

Lemma run_spec_emit Q (R : unit → Prop) E e :
  Q e → R tt → run_spec Q R E (emit e).
Proof. intros HQ HR σ. exists [e]. cbn. by repeat constructor. Qed.

Lemma run_spec_get_cache Q (R : gmap string string → Prop) E :
  (∀ c, R c) → run_spec Q R E get_cache.
Proof. intros H σ. exists []. cbn. by rewrite app_nil_r. Qed.

Lemma run_spec_set_cache Q (R : unit → Prop) E k v :
  R tt → run_spec Q R E (set_cache k v).
Proof. intros H σ. exists []. cbn. by rewrite app_nil_r. Qed.

(** One step of a proof by the rules: the shape of the computation picks
    the rule; a [match] or [if] in it is split. *)
Ltac run_spec_step :=
  lazymatch goal with
  | |- run_spec _ _ _ (ret _) => apply run_spec_ret
  | |- run_spec _ _ _ (raise _) => apply run_spec_raise
  | |- run_spec _ _ _ (lift _) => apply run_spec_lift
  | |- run_spec _ _ _ (emit _) => apply run_spec_emit
  | |- run_spec _ _ _ get_cache => apply run_spec_get_cache
  | |- run_spec _ _ _ (set_cache _ _) => apply run_spec_set_cache
  | |- run_spec _ _ _ (bind _ _) =>
      eapply (run_spec_bind _ anything); [| intros ? _]
  | |- run_spec _ _ _ (match ?x with _ => _ end) => destruct x eqn:?
  | |- run_spec _ _ _ (if ?x then _ else _) => destruct x eqn:?
  end.

Lemma not_node_nor_hotel_not_node e : not_node_nor_hotel e → not_node e.
Proof. by destruct e. Qed.

(** Use of a proved specification where a weaker one is asked for. *)
Ltac run_spec_use lem :=
  eapply run_spec_weaken;
  [ apply lem
  | try (intros ? ?; first [assumption | by apply not_node_nor_hotel_not_node])
  | try (intros ? ?; first [assumption | exact I])
  | try (intros ? ?; first [assumption | exact I | done]) ].

(** ** What each node logs, returns and raises *)

Section NodeSpecs.

Variable w : World.

Lemma get_city_name_spec iata_code :
  run_spec not_node_nor_hotel anything never (get_city_name w iata_code).
Proof. unfold get_city_name. repeat run_spec_step; done. Qed.

Lemma city_of_spec code :
  run_spec not_node_nor_hotel anything never (city_of w code).
Proof.
  unfold city_of. destruct code; try (by apply run_spec_ret).
  apply get_city_name_spec.
Qed.

Lemma flight_response_error_spec i e :
  run_spec not_node_nor_hotel (λ u, upd_intent u = None) never
    (flight_response_error w i e).
Proof.
  unfold flight_response_error.
  repeat first [run_spec_step | run_spec_use city_of_spec]; done.
Qed.

Lemma flight_tool_spec state :
  run_spec not_node_nor_hotel (λ u, upd_intent u = None) never
    (flight_tool w state).
Proof.
  unfold flight_tool.
  repeat first [run_spec_step | apply flight_response_error_spec]; done.
Qed.

Lemma offers_loop_spec i hotelIds valid_offers :
  run_spec not_node anything anything (offers_loop w i hotelIds valid_offers).
Proof.
  revert valid_offers. induction hotelIds as [| hotel_id rest IH];
    intros valid_offers; cbn [offers_loop].
  - by apply run_spec_ret.
  - repeat first [run_spec_step | apply IH]; done.
Qed.

Lemma hotel_search_spec i :
  run_spec not_node (λ u, upd_intent u = None) anything (hotel_search w i).
Proof.
  unfold hotel_search.
  repeat first [run_spec_step | run_spec_use offers_loop_spec]; done.
Qed.

Lemma hotel_tool_spec state :
  run_spec not_node (λ u, upd_intent u = None) never (hotel_tool w state).
Proof.
  unfold hotel_tool.
  repeat first
    [ run_spec_step
    | eapply run_spec_try_except; [apply hotel_search_spec | intros ? _] ];
    done.
Qed.

Lemma searxng_loop_spec search_query instances :
  run_spec not_node_nor_hotel anything never
    (searxng_loop w search_query instances).
Proof.
  induction instances as [| url rest IH]; cbn [searxng_loop].
  - by apply run_spec_ret.
  - repeat first [run_spec_step | apply IH]; done.
Qed.

Lemma ddg_search_spec search_query :
  run_spec not_node_nor_hotel anything never (ddg_search w search_query).
Proof. unfold ddg_search. repeat run_spec_step; done. Qed.

Lemma get_fallback_message_spec state :
  run_spec not_node_nor_hotel anything never (get_fallback_message w state).
Proof.
  unfold get_fallback_message.
  repeat first [run_spec_step | run_spec_use city_of_spec]; done.
Qed.

Lemma web_search_fallback_node_spec state :
  run_spec not_node_nor_hotel (λ u, upd_intent u = None) never
    (web_search_fallback_node w state).
Proof.
  unfold web_search_fallback_node.
  repeat first
    [ run_spec_step
    | run_spec_use searxng_loop_spec
    | run_spec_use ddg_search_spec
    | run_spec_use get_fallback_message_spec ];
    done.
Qed.

Lemma city_of_json_spec code :
  run_spec not_node_nor_hotel anything anything (city_of_json w code).
Proof.
  unfold city_of_json.
  destruct code; try (by apply run_spec_ret); try (by apply run_spec_raise).
  run_spec_use get_city_name_spec.
Qed.

Lemma render_flight_spec f :
  run_spec not_node_nor_hotel anything anything (render_flight w f).
Proof.
  unfold render_flight.
  repeat first [run_spec_step | apply city_of_json_spec]; try done.
  all: by case_match.
Qed.

Lemma render_flights_spec fs :
  run_spec not_node_nor_hotel anything anything (render_flights w fs).
Proof.
  induction fs as [| f rest IH]; cbn [render_flights].
  - by apply run_spec_ret.
  - repeat first [run_spec_step | apply render_flight_spec | apply IH]; done.
Qed.

Lemma synthesis_node_spec state :
  run_spec not_node_nor_hotel (λ u, upd_intent u = None) anything
    (synthesis_node w state).
Proof.
  unfold synthesis_node.
  repeat first [run_spec_step | apply render_flights_spec]; try done.
  all: by case_match.
Qed.

Lemma intent_node_spec state :
  run_spec not_node_nor_hotel anything anything (intent_node w state).
Proof.
  unfold intent_node. repeat run_spec_step; try done.
  all: by case_match.
Qed.

End NodeSpecs.

(** ** Routing *)

Lemma run_spec_total {A : Type} Q (R : A → Prop) (m : M A) σ :
  run_spec Q R never m →
  ∃ a σ' l, m σ = (Returns a, σ') ∧ R a ∧ log σ' = log σ ++ l ∧ Forall Q l.
Proof.
  intros Hm. destruct (Hm σ) as (l & Hl & HQ & H).
  destruct (m σ) as [[a | e] σ'] eqn:Hr; cbn in *; [| done].
  by exists a, σ', l.
Qed.

Lemma visited_app l1 l2 : visited (l1 ++ l2) = visited l1 ++ visited l2.
Proof. unfold visited. apply omap_app. Qed.

Lemma visited_not_node l : Forall not_node l → visited l = [].
Proof.
  induction 1 as [| e l He _ IH]; [done |].
  unfold visited in *. cbn. rewrite IH. by destruct e.
Qed.

Lemma visited_cons_node n l : visited (EvNode n :: l) = n :: visited l.
Proof. reflexivity. Qed.

Lemma hotel_calls_cons_node n l : hotel_calls (EvNode n :: l) = hotel_calls l.
Proof. reflexivity. Qed.

Lemma hotel_calls_app l1 l2 :
  hotel_calls (l1 ++ l2) = hotel_calls l1 ++ hotel_calls l2.
Proof. unfold hotel_calls. apply omap_app. Qed.

Lemma hotel_calls_none l : Forall not_node_nor_hotel l → hotel_calls l = [].
Proof.
  induction 1 as [| e l He _ IH]; [done |].
  unfold hotel_calls in *. cbn. rewrite IH. by destruct e.
Qed.

Section Routing.

Variable w : World.

Lemma run_from_eq fuel n state :
  run_from w fuel n state
  = (emit (EvNode n);;
     let* u := run_node w n state in
     let state := apply_update state u in
     let* next := lift (next_node n state) in
     match next with
     | None => ret state
     | Some n' =>
         match fuel with
         | O => raise GraphRecursionError
         | S fuel' => run_from w fuel' n' state
         end
     end).
Proof. by destruct fuel. Qed.

Lemma run_from_returns fuel n state σ u σ1 :
  run_node w n state (logged (EvNode n) σ) = (Returns u, σ1) →
  run_from w fuel n state σ
  = match next_node n (apply_update state u) with
    | Raises e => (Raises e, σ1)
    | Returns None => (Returns (apply_update state u), σ1)
    | Returns (Some n') =>
        match fuel with
        | O => (Raises GraphRecursionError, σ1)
        | S fuel' => run_from w fuel' n' (apply_update state u) σ1
        end
    end.
Proof.
  intros Hr. rewrite run_from_eq. unfold bind at 1. cbn [emit].
  fold (logged (EvNode n) σ). unfold bind at 1. rewrite Hr.
  unfold bind, lift. destruct (next_node n (apply_update state u)) as [[n' |] | e];
    [destruct fuel | |]; reflexivity.
Qed.

Lemma run_from_raises fuel n state σ e σ1 :
  run_node w n state (logged (EvNode n) σ) = (Raises e, σ1) →
  run_from w fuel n state σ = (Raises e, σ1).
Proof.
  intros Hr. rewrite run_from_eq. unfold bind at 1. cbn [emit].
  fold (logged (EvNode n) σ). unfold bind at 1. by rewrite Hr.
Qed.

(** A node with no edge but the one to [END]: it is entered, and nothing
    after it. *)
Lemma run_from_last Q fuel n state σ :
  (∀ s, next_node n s = Returns None) →
  (∀ e, Q e → not_node e) →
  run_spec Q anything anything (run_node w n state) →
  ∃ l, log (run_from w fuel n state σ).2 = log σ ++ EvNode n :: l
       ∧ Forall Q l.
Proof.
  intros Hend HQ Hn.
  destruct (Hn (logged (EvNode n) σ)) as (l & Hl & Hq & _).
  destruct (run_node w n state (logged (EvNode n) σ)) as [[u | e] σ1] eqn:Hr.
  - rewrite (run_from_returns _ _ _ _ _ _ Hr), Hend. cbn in *.
    exists l. by rewrite Hl, <- app_assoc.
  - rewrite (run_from_raises _ _ _ _ _ _ Hr). cbn in *.
    exists l. by rewrite Hl, <- app_assoc.
Qed.

Lemma run_node_spec_last n state :
  n = NSynthesis ∨ n = NWebSearchFallback →
  run_spec not_node_nor_hotel anything anything (run_node w n state).
Proof.
  intros [-> | ->]; cbn.
  - run_spec_use synthesis_node_spec.
  - eapply run_spec_weaken; [apply web_search_fallback_node_spec | ..]; done.
Qed.

End Routing.

(** ** Flight search *)

Section FlightSearch.

Variable w : World.

Lemma get_city_name_best_effort iata_code σ :
  ∃ city σ', get_city_name w iata_code σ = (Returns city, σ')
             ∧ best_effort_city w (cache σ) iata_code city.
Proof.
  unfold get_city_name, best_effort_city, bind, get_cache. cbn.
  destruct (cache σ !! iata_code) as [cached |]; [by eexists _, _ |].
  cbn. destruct (location_city_name w iata_code) as [name |];
    by eexists _, _.
Qed.

Lemma truthy_str s : s ≠ "" → truthy (PStr s) = true.
Proof. intros H. cbn. by rewrite bool_decide_false. Qed.

(** C3, as the code has it. The flight search has raised the provider
    error [e]. When the first entry of its error list has code 141 or status
    500 (exactly), the step returns no flights, no response, the fallback
    flag armed and the query "flights from {origin_city} to {dest_city} on
    {date} price", the cities being the best-effort resolutions of the two
    codes and the date the long form of [check_in] (the raw string when it
    does not parse). For every other provider error the step returns no
    flights and the text "Flight search error: " followed by the error, and
    sets neither the flag nor the query. *)
Theorem flight_provider_error_classified
    (state : AgentState) (i : gmap string pyval)
    (origin destination check_in : string) (travelers : pyval)
    (e : ResponseError) (σ : Sys) :
  intent state = Some i →
  py_get i "origin" = PStr origin → origin ≠ "" →
  py_get i "destination" = PStr destination → destination ≠ "" →
  py_get i "check_in" = PStr check_in → check_in ≠ "" →
  i !! "travelers" = Some travelers →
  search_flights w (PStr origin) (PStr destination) (PStr check_in) travelers
  = Failed e →
  let σ0 :=
    logged (EvSearchFlights (PStr origin) (PStr destination) (PStr check_in)
              travelers) σ in
  (∀ first_error rest,
     re_errors e = Some (first_error :: rest) →
     py_get first_error "code" = PInt 141
     ∨ py_get first_error "status" = PInt 500 →
     ∃ origin_city σ1 dest_city σ2,
       get_city_name w origin σ0 = (Returns origin_city, σ1)
       ∧ best_effort_city w (cache σ0) origin origin_city
       ∧ get_city_name w destination σ1 = (Returns dest_city, σ2)
       ∧ best_effort_city w (cache σ1) destination dest_city
       ∧ flight_tool w state σ
         = (Returns
              {| upd_intent := None; upd_flights := Some [];
                 upd_hotels := None; upd_response := Some None;
                 upd_use_web_search := Some true;
                 upd_search_query :=
                   Some ("flights from " +:+ origin_city +:+ " to "
                         +:+ dest_city +:+ " on "
                         +:+ match datetime_fromisoformat w check_in with
                             | Some date_obj => strftime_long date_obj
                             | None => check_in
                             end
                         +:+ " price") |}, σ2))
  ∧ ((∀ first_error rest,
        re_errors e = Some (first_error :: rest) →
        py_get first_error "code" ≠ PInt 141
        ∧ py_get first_error "status" ≠ PInt 500) →
     flight_tool w state σ
     = (Returns
          {| upd_intent := None; upd_flights := Some [];
             upd_hotels := None;
             upd_response := Some (Some ("Flight search error: " +:+ re_str e));
             upd_use_web_search := None; upd_search_query := None |}, σ0)).
Proof.
  intros Hi Ho Hone Hd Hdne Hc Hcne Ht Hs σ0.
  assert (flight_tool w state σ = flight_response_error w i e σ0) as Hft.
  { unfold flight_tool. rewrite Hi, Ho, Hd, Hc, Ht.
    rewrite !truthy_str by done. cbn [negb].
    unfold bind at 1. cbn [emit]. by rewrite Hs. }
  rewrite Hft. unfold flight_response_error. split.
  - intros first_error rest He Hout. rewrite He.
    assert (is_outage first_error = true) as ->.
    { unfold is_outage. apply orb_true_iff.
      destruct Hout as [-> | ->]; [by left | by right]. }
    rewrite Ho, Hd, Hc, !truthy_str by done. cbn [city_of fallback_date_str].
    destruct (get_city_name_best_effort origin σ0)
      as (origin_city & σ1 & Hg1 & Hb1).
    destruct (get_city_name_best_effort destination σ1)
      as (dest_city & σ2 & Hg2 & Hb2).
    exists origin_city, σ1, dest_city, σ2.
    repeat (split; [done |]).
    unfold bind. by rewrite Hg1, Hg2.
  - intros Hnot. destruct (re_errors e) as [[| first_error rest] |]; try done.
    destruct (Hnot first_error rest eq_refl) as [H1 H2].
    unfold is_outage. apply py_eq_false in H1, H2. by rewrite H1, H2.
Qed.

End FlightSearch.

Lemma flight_provider_error_classified_witness :
  flight_tool world_outage state_bom_del empty_sys
  = (Returns (arm_fallback
                "flights from Mumbai to Delhi on December 01, 2026 price"),
     {| cache := <["DEL" := "Delhi"]> (<["BOM" := "Mumbai"]> ∅);
        log := [EvSearchFlights (PStr "BOM") (PStr "DEL") (PStr "2026-12-01")
                  (PInt 1);
                EvLocationInfo "BOM"; EvLocationInfo "DEL"] |}).
Proof.
  assert ("BOM" ≠ "" ∧ "DEL" ≠ "" ∧ "2026-12-01" ≠ "") as (H1 & H2 & H3)
    by (repeat split; discriminate).
  destruct (flight_provider_error_classified world_outage state_bom_del
              flight_bom_del "BOM" "DEL" "2026-12-01" (PInt 1) error_141
              empty_sys eq_refl eq_refl H1 eq_refl H2 eq_refl H3 eq_refl
              eq_refl) as [Harm _].
  destruct (Harm _ [] eq_refl (or_introl eq_refl))
    as (oc & σ1 & dc & σ2 & Hg1 & _ & Hg2 & _ & Hf).
  vm_compute in Hg1. injection Hg1 as <- <-.
  vm_compute in Hg2. injection Hg2 as <- <-.
  rewrite Hf. vm_compute. reflexivity.
Defined.

(** The claim of C3 as the specification words it, with "a 500-class
    status", fails: on an error whose first entry has status 503 (and a code
    other than 141) the step returns a plain error and leaves the fallback
    flag and the query unset. *)
Lemma flight_status_503_does_not_arm_fallback :
  (∃ first_error rest,
     re_errors error_503 = Some (first_error :: rest)
     ∧ status_500_class (py_get first_error "status"))
  ∧ search_flights world_503 (PStr "BOM") (PStr "DEL") (PStr "2026-12-01")
      (PInt 1) = Failed error_503
  ∧ ∃ u, fst (flight_tool world_503 state_bom_del empty_sys) = Returns u
         ∧ upd_flights u = Some []
         ∧ upd_response u = Some (Some "Flight search error: [503]")
         ∧ upd_use_web_search u = None
         ∧ upd_search_query u = None.
Proof.
  split; [| split].
  - eexists _, _. split; [reflexivity |]. exists 503.
    split; [vm_compute; reflexivity | lia].
  - reflexivity.
  - eexists. split; [vm_compute; reflexivity |]. by repeat split.
Qed.

(** ** A hard flight error through the whole graph *)

(** Whatever response the state carries, synthesis answers the literal
    no-results text when the state has neither flights nor hotels. *)
Lemma synthesis_node_no_results (w : World) (state : AgentState) (σ : Sys) :
  no_flights state = true →
  hotels state = None ∨ hotels state = Some [] →
  synthesis_node w state σ = (Returns (response_update no_results), σ).
Proof.
  intros Hf Hh. unfold synthesis_node, no_flights in *.
  destruct (flights state) as [[| f fs] |]; try done;
    destruct Hh as [-> | ->]; reflexivity.
Qed.

(** C2 on the code. The extraction is a complete flight search BOM to DEL
    and the provider raises an error with code 477 and status 400. The
    flight step answers "Flight search error: [400]"; the run then enters
    synthesis, and the response the graph returns is the no-results text. *)
Theorem hard_flight_error_is_replaced_by_no_results :
  fst (flight_tool world_400 state_bom_del empty_sys)
  = Returns (flight_failure "Flight search error: [400]")
  ∧ ∃ final σ,
      agent_invoke world_400
        (initial_state "Book a flight from BOM to DEL on 2026-12-01" [])
        empty_sys = (Returns final, σ)
      ∧ visited (log σ) = [NIntent; NFlightTool; NSynthesis]
      ∧ response final = Some "No results available for your search."
      ∧ response final ≠ Some "Flight search error: [400]".
Proof.
  split; [vm_compute; reflexivity |].
  eexists _, _. split; [vm_compute; reflexivity |].
  split; [vm_compute; reflexivity |]. split; [reflexivity | discriminate].
Qed.

(** ** Hotel search *)

Lemma omap_take_prefix {A B : Type} (f : A → option B) (l : list A) n m :
  (n ≤ m)%nat → omap f (take n l) `prefix_of` take m (omap f l).
Proof.
  revert n m. induction l as [| x l IH]; intros n m Hnm.
  - rewrite !take_nil. cbn. by rewrite take_nil.
  - destruct n as [| n]; [apply prefix_nil |].
    destruct m as [| m]; [lia |]. cbn.
    destruct (f x) as [y |]; cbn.
    + apply prefix_cons. apply IH. lia.
    + apply IH. lia.
Qed.

Lemma offer_requests_app l1 l2 :
  offer_requests (l1 ++ l2) = offer_requests l1 ++ offer_requests l2.
Proof. unfold offer_requests. apply omap_app. Qed.

Section HotelSearch.

Variable w : World.

Lemma offer_requests_iterations i travelers requested :
  offer_requests (flat_map (iteration_events w i travelers) requested)
  = requested.
Proof.
  induction requested as [| h rest IH]; [done |].
  cbn [flat_map]. rewrite offer_requests_app, IH.
  unfold iteration_events.
  destruct (offers_answer w i travelers h) as [| e |]; try done.
  by destruct (rate_limited e).
Qed.

Lemma gathered_snoc i travelers l h :
  gathered w i travelers (l ++ [h])
  = gathered w i travelers l ++ offers_added w i travelers h.
Proof.
  unfold gathered. rewrite map_app, concat_app. cbn. by rewrite app_nil_r.
Qed.

(** The loop of [hotel_tool], when no call raises anything but a provider
    error: it requests a prefix of the identifiers, each one while fewer than
    five offers are held, and stops short of the end only with five or
    more. *)
Lemma offers_loop_requests i travelers hotelIds valid_offers σ :
  i !! "travelers" = Some travelers →
  (length valid_offers < 5)%nat →
  (∀ h msg, h ∈ hotelIds → offers_answer w i travelers h ≠ Crashed msg) →
  ∃ requested rest,
    hotelIds = requested ++ rest
    ∧ offers_loop w i hotelIds valid_offers σ
      = (Returns (valid_offers ++ gathered w i travelers requested),
         {| cache := cache σ;
            log := log σ ++ flat_map (iteration_events w i travelers) requested |})
    ∧ (∀ n, (n < length requested)%nat →
         (length (valid_offers
                  ++ gathered w i travelers (take n requested)) < 5)%nat)
    ∧ (rest = []
       ∨ (5 ≤ length (valid_offers ++ gathered w i travelers requested))%nat).
Proof.
  intros Ht. revert valid_offers σ.
  induction hotelIds as [| h ids IH]; intros valid_offers σ Hlen Hok.
  - exists [], []. cbn. rewrite !app_nil_r. destruct σ.
    repeat split; [intros n Hn; cbn in Hn; lia | by left].
  - cbn [offers_loop]. rewrite Ht. unfold bind at 1. cbn [emit].
    assert (∀ h' msg, h' ∈ ids → offers_answer w i travelers h' ≠ Crashed msg)
      as Hok' by (intros h' msg Hin; apply Hok; by right).
    assert (∀ acc σ1,
              (length acc < 5)%nat →
              acc = valid_offers ++ offers_added w i travelers h →
              log σ1 = log σ ++ iteration_events w i travelers h →
              cache σ1 = cache σ →
              ∃ requested rest,
                h :: ids = requested ++ rest
                ∧ offers_loop w i ids acc σ1
                  = (Returns (valid_offers
                              ++ gathered w i travelers requested),
                     {| cache := cache σ;
                        log := log σ ++ flat_map (iteration_events w i travelers)
                                          requested |})
                ∧ (∀ n, (n < length requested)%nat →
                     (length (valid_offers
                              ++ gathered w i travelers (take n requested))
                      < 5)%nat)
                ∧ (rest = []
                   ∨ (5 ≤ length (valid_offers
                                  ++ gathered w i travelers requested))%nat))
      as Hnext.
    { intros acc σ1 Hacc Heq Hlog Hcache.
      destruct (IH acc σ1 Hacc Hok') as (requested & rest & -> & Hrun & Hlt & Hend).
      exists (h :: requested), rest. split; [done |].
      assert (gathered w i travelers (h :: requested)
              = offers_added w i travelers h
                ++ gathered w i travelers requested) as Hg by done.
      rewrite Hrun, Hg, Heq, Hlog, Hcache. cbn [flat_map].
      rewrite Heq, <- app_assoc in Hend.
      rewrite <- !app_assoc. split; [done |]. split; [| done].
      intros [| n] Hn.
      - cbn. by rewrite app_nil_r.
      - cbn [take]. cbn in Hn.
        assert (gathered w i travelers (h :: take n requested)
                = offers_added w i travelers h
                  ++ gathered w i travelers (take n requested)) as -> by done.
        rewrite app_assoc, <- Heq. apply Hlt. lia. }
    unfold offers_added, iteration_events, offers_answer in *.
    destruct (search_hotel_offers w h travelers (py_get i "check_in")
                (py_get i "check_out")) as [offer_data | e | msg] eqn:Hans.
    + destruct offer_data as [| o os].
      * apply Hnext; cbn; rewrite ?app_nil_r; done.
      * destruct (5 <=? length (valid_offers ++ o :: os))%nat eqn:Hfive.
        -- apply Nat.leb_le in Hfive.
           exists [h], ids. split; [done |].
           unfold gathered. cbn [map concat flat_map iteration_events].
           unfold offers_added, iteration_events, offers_answer.
           rewrite Hans, !app_nil_r.
           split; [done |]. split; [| by right].
           intros [| n] Hn; cbn in *; [by rewrite app_nil_r | lia].
        -- apply Nat.leb_gt in Hfive.
           apply Hnext; cbn; done.
    + change (py_contains "429" (re_str e)) with (rate_limited e).
      destruct (rate_limited e).
      * unfold bind at 1. cbn [emit].
        apply Hnext; cbn; rewrite ?app_nil_r, <- ?app_assoc; done.
      * unfold bind at 1. cbn [ret].
        apply Hnext; cbn; rewrite ?app_nil_r; done.
    + exfalso. eapply (Hok h msg); [by left | done].
Qed.

End HotelSearch.

Section HotelSearchTheorem.

Variable w : World.

Lemma hotel_ids_prefix hotels_data :
  hotel_ids hotels_data `prefix_of` take 30 (all_hotel_ids hotels_data).
Proof. unfold hotel_ids, all_hotel_ids. by apply omap_take_prefix. Qed.

(** C6. A hotel search that reaches the provider, and whose per-hotel calls
    raise nothing but provider errors, returns; the identifiers it requests
    offers for are a prefix of the first 30 identifiers of the phase-1 list;
    each request is issued while fewer than 5 offers have been gathered; the
    loop ends before the last identifier only with 5 or more offers gathered,
    so a provider error on one hotel does not end it; and the log of each
    iteration is the request, followed by the 500 ms sleep exactly when the
    answer is a provider error whose text contains "429". *)
Theorem hotel_offer_requests_bounded
    (state : AgentState) (i : gmap string pyval) (travelers : pyval)
    (hotels_data : list (gmap string json)) (σ : Sys) :
  intent state = Some i →
  truthy (py_get i "destination") = true →
  truthy (py_get i "check_in") = true →
  truthy (py_get i "check_out") = true →
  i !! "travelers" = Some travelers →
  search_hotels_by_city w (py_get i "destination") = Ok hotels_data →
  (∀ h msg, h ∈ hotel_ids hotels_data →
            offers_answer w i travelers h ≠ Crashed msg) →
  ∃ requested rest u σ',
    hotel_tool w state σ = (Returns u, σ')
    ∧ hotel_ids hotels_data = requested ++ rest
    ∧ requested `prefix_of` take 30 (all_hotel_ids hotels_data)
    ∧ (length requested ≤ 30)%nat
    ∧ log σ'
      = log σ ++ EvHotelsByCity (py_get i "destination")
                 :: flat_map (iteration_events w i travelers) requested
    ∧ offer_requests (log σ') = offer_requests (log σ) ++ requested
    ∧ (∀ n, (n < length requested)%nat →
         (length (gathered w i travelers (take n requested)) < 5)%nat)
    ∧ (rest = [] ∨ (5 ≤ length (gathered w i travelers requested))%nat).
Proof.
  intros Hi Hd Hci Hco Ht Hs Hok.
  assert (∃ requested rest u σ',
            hotel_tool w state σ = (Returns u, σ')
            ∧ hotel_ids hotels_data = requested ++ rest
            ∧ log σ'
              = log σ ++ EvHotelsByCity (py_get i "destination")
                         :: flat_map (iteration_events w i travelers) requested
            ∧ (∀ n, (n < length requested)%nat →
                 (length (gathered w i travelers (take n requested)) < 5)%nat)
            ∧ (rest = []
               ∨ (5 ≤ length (gathered w i travelers requested))%nat))
    as (requested & rest & u & σ' & Hrun & Hsplit & Hlog & Hlt & Hend).
  { unfold hotel_tool. rewrite Hi, Hd, Hci, Hco. cbn [negb orb].
    unfold try_except, hotel_search. unfold bind at 1. cbn [emit]. rewrite Hs.
    destruct hotels_data as [| h0 hs].
    { exists [], []. eexists _, _. cbn.
      repeat split; [intros n Hn; lia | by left]. }
    destruct (hotel_ids (h0 :: hs)) as [| id ids] eqn:Hids.
    { exists [], []. eexists _, _. cbn.
      repeat split; [intros n Hn; lia | by left]. }
    destruct (offers_loop_requests w i travelers (id :: ids) []
                {| cache := cache σ;
                   log := log σ ++ [EvHotelsByCity (py_get i "destination")] |}
                Ht) as (requested & rest & Hsplit & Hrun & Hlt & Hend);
      [cbn; lia | exact Hok |].
    exists requested, rest. unfold bind. rewrite Hrun. cbn [app] in *.
    destruct (gathered w i travelers requested) as [| o os];
      [destruct (map basic_hotel (take 5 (h0 :: hs))) |];
      eexists _, _; (split; [reflexivity |]); cbn [log cache];
      rewrite <- app_assoc; done. }
  exists requested, rest, u, σ'.
  assert (requested `prefix_of` take 30 (all_hotel_ids hotels_data)) as Hpre.
  { etrans; [| apply hotel_ids_prefix]. rewrite Hsplit. by exists rest. }
  repeat (split; [done |]).
  split.
  { apply prefix_length in Hpre. rewrite length_take in Hpre. lia. }
  split; [done |]. split; [| done].
  rewrite Hlog, offer_requests_app.
  change (EvHotelsByCity ?c :: ?l) with ([EvHotelsByCity c] ++ l).
  by rewrite offer_requests_app, offer_requests_iterations.
Qed.

End HotelSearchTheorem.

(** ** Web-search fallback *)

Lemma string_app_cons a (s t : string) :
  String a s +:+ t = String a (s +:+ t).
Proof. reflexivity. Qed.

Lemma string_app_assoc (s1 s2 s3 : string) :
  (s1 +:+ s2) +:+ s3 = s1 +:+ s2 +:+ s3.
Proof.
  induction s1 as [| a s1 IH]; [done |].
  by rewrite !string_app_cons, IH.
Qed.

Lemma string_app_nil_r (s : string) : s +:+ "" = s.
Proof.
  induction s as [| a s IH]; [done |]. by rewrite string_app_cons, IH.
Qed.

Lemma py_len_take n s : (py_len (py_take n s) ≤ n)%nat.
Proof.
  revert n. induction s as [| a s IH]; intros n; cbn; [lia |].
  destruct (is_continuation a) eqn:Hc; cbn; rewrite ?Hc.
  - apply IH.
  - destruct n as [| n]; cbn; [lia |]. rewrite Hc. specialize (IH n). lia.
Qed.

Lemma shown_snippet_short info : (py_len (shown_snippet info) ≤ 200)%nat.
Proof.
  unfold shown_snippet. destruct (hit_snippet info) as [| s |];
    [vm_compute; lia | | vm_compute; lia].
  case_bool_decide; [vm_compute; lia | apply py_len_take].
Qed.

Lemma snippet_of_well_formed result :
  well_formed_result result →
  snippet_of (hit_of_result result)
  = Returns (shown_snippet (hit_of_result result)).
Proof.
  unfold well_formed_result, snippet_of, shown_snippet, hit_of_result. cbn.
  destruct (py_get_or result "content" (PStr "")) as [| s | z]; [done | |].
  - intros _. cbn. by case_bool_decide.
  - by intros ->.
Qed.

Lemma snippet_of_returns result text :
  snippet_of (hit_of_result result) = Returns text →
  well_formed_result result.
Proof.
  unfold well_formed_result, snippet_of, hit_of_result. cbn.
  destruct (py_get_or result "content" (PStr "")) as [| s | z]; [done | done |].
  cbn. by case_bool_decide.
Qed.

Lemma render_hits_returns idx results response_text text :
  render_hits idx (map hit_of_result results) response_text = Returns text →
  Forall well_formed_result results.
Proof.
  revert idx response_text.
  induction results as [| r rs IH]; intros idx response_text;
    cbn [render_hits map]; [by constructor |].
  destruct (snippet_of (hit_of_result r)) as [snippet |] eqn:Hs; [| done].
  intros Hr. constructor; [by eapply snippet_of_returns | by eapply IH].
Qed.

Lemma render_hits_well_formed idx results response_text :
  Forall well_formed_result results →
  render_hits idx (map hit_of_result results) response_text
  = Returns (response_text +:+ entries_text idx (map hit_of_result results)).
Proof.
  intros Hwf. revert idx response_text.
  induction Hwf as [| r rs Hr _ IH]; intros idx response_text;
    cbn [render_hits map entries_text].
  - by rewrite string_app_nil_r.
  - rewrite (snippet_of_well_formed _ Hr), IH. by rewrite string_app_assoc.
Qed.

Lemma render_fallback_well_formed search_query results :
  Forall well_formed_result results →
  render_fallback search_query (map hit_of_result results)
  = Returns (fallback_header search_query
             +:+ entries_text 1 (map hit_of_result results)
             +:+ fallback_footer).
Proof.
  intros Hwf. unfold render_fallback.
  rewrite (render_hits_well_formed _ _ _ Hwf). by rewrite string_app_assoc.
Qed.

Lemma render_fallback_returns search_query results text :
  render_fallback search_query (map hit_of_result results) = Returns text →
  Forall well_formed_result results.
Proof.
  unfold render_fallback.
  destruct (render_hits 1 (map hit_of_result results)
              (fallback_header search_query)) eqn:Hr; [| done].
  intros _. by eapply render_hits_returns.
Qed.

Lemma backends_tried_app l1 l2 :
  backends_tried (l1 ++ l2) = backends_tried l1 ++ backends_tried l2.
Proof. unfold backends_tried. apply omap_app. Qed.

Lemma backends_tried_gets urls : backends_tried (map EvGet urls) = urls.
Proof. induction urls as [| u us IH]; [done |]. cbn. by rewrite <- IH at 2. Qed.

Section WebSearchFallback.

Variable w : World.

(** A backend that fails is passed over: the loop goes on with the next
    instance, having logged the request. *)
Lemma searxng_loop_failed search_query url rest σ :
  backend_fails w search_query url →
  searxng_loop w search_query (url :: rest) σ
  = searxng_loop w search_query rest (logged (EvGet url) σ).
Proof.
  intros Hfail. cbn [searxng_loop]. unfold bind at 1. cbn [emit].
  fold (logged (EvGet url) σ).
  destruct (searxng_get w url search_query) as [| status_code body] eqn:Hget;
    [done |].
  destruct (status_code =? 200) eqn:Hst; [| done].
  apply Z.eqb_eq in Hst. subst status_code.
  destruct body as [[| r results] |]; [done | | done].
  destruct (render_fallback search_query
              (map hit_of_result (take 5 (r :: results)))) as [text |] eqn:Hr;
    [| done].
  exfalso. apply (Hfail (r :: results)). split; [done |]. split; [done |].
  by eapply render_fallback_returns.
Qed.

Lemma searxng_loop_skips search_query failed rest σ :
  (∀ url, url ∈ failed → backend_fails w search_query url) →
  searxng_loop w search_query (failed ++ rest) σ
  = searxng_loop w search_query rest
      {| cache := cache σ; log := log σ ++ map EvGet failed |}.
Proof.
  revert σ. induction failed as [| url failed IH]; intros σ Hfail.
  - cbn. rewrite app_nil_r. by destruct σ.
  - cbn [app]. rewrite searxng_loop_failed by (apply Hfail; by left).
    rewrite IH by (intros u Hu; apply Hfail; by right).
    cbn. by rewrite <- app_assoc.
Qed.

Lemma searxng_loop_answers search_query url rest results σ :
  backend_answers w search_query url results →
  searxng_loop w search_query (url :: rest) σ
  = (Returns (Some (fallback_header search_query
                    +:+ entries_text 1 (map hit_of_result (take 5 results))
                    +:+ fallback_footer)),
     logged (EvGet url) σ).
Proof.
  intros (Hget & Hne & Hwf). cbn [searxng_loop]. unfold bind at 1. cbn [emit].
  rewrite Hget. cbn. destruct results as [| r results]; [done |].
  by rewrite (render_fallback_well_formed _ _ Hwf).
Qed.

(** C7. The cascade runs with the fallback armed, no flights and a
    non-empty query. When the instances before [url] in the list fail and
    [url] answers 200 with the non-empty list [results], the requests made
    are those to the failed instances and then to [url], in list order, and
    no other; the response is the header, one entry for each of the first
    five of [results] (and of no other backend's results), and the footer;
    and every snippet shown has at most 200 characters. *)
Theorem fallback_uses_first_answering_backend
    (state : AgentState) (q url : string)
    (failed rest : list string) (results : list (gmap string pyval))
    (σ : Sys) :
  no_flights state = true →
  use_web_search state = true →
  search_query state = Some q →
  q ≠ "" →
  searxng_instances = failed ++ url :: rest →
  (∀ u, u ∈ failed → backend_fails w q u) →
  backend_answers w q url results →
  let shown := map hit_of_result (take 5 results) in
  let σ' := {| cache := cache σ; log := log σ ++ map EvGet (failed ++ [url]) |} in
  web_search_fallback_node w state σ
  = (Returns (response_update
                (fallback_header q +:+ entries_text 1 shown
                 +:+ fallback_footer)), σ')
  ∧ backends_tried (log σ') = backends_tried (log σ) ++ failed ++ [url]
  ∧ (length shown ≤ 5)%nat
  ∧ Forall (λ info, (py_len (shown_snippet info) ≤ 200)%nat) shown.
Proof.
  intros Hnf Harmed Hq Hne Hinst Hfail Hans shown σ'.
  split; [| split; [| split]].
  - unfold web_search_fallback_node. rewrite Hnf, Harmed, Hq. cbn [andb default].
    rewrite bool_decide_false by done. rewrite Hinst.
    unfold bind. rewrite (searxng_loop_skips _ _ _ _ Hfail).
    rewrite (searxng_loop_answers _ _ _ _ _ Hans).
    unfold ret, logged, σ'. cbn [cache log].
    by rewrite map_app, <- app_assoc.
  - unfold σ'. cbn [log]. by rewrite backends_tried_app, backends_tried_gets.
  - unfold shown. rewrite length_map, length_take. lia.
  - apply Forall_forall. intros info _. apply shown_snippet_short.
Qed.

End WebSearchFallback.

(** ** Currency conversion in synthesis *)

Lemma convert_price_table currency amount :
  convert_price currency amount = converted (hotel_rate currency) amount.
Proof.
  unfold convert_price, hotel_rate, converted, j_is_str.
  destruct currency as [| b | z | f | c | l | o]; try reflexivity.
  destruct (decide (c = "EUR")) as [-> | H1]; [reflexivity |].
  destruct (decide (c = "GBP")) as [-> | H2]; [reflexivity |].
  destruct (decide (c = "USD")) as [-> | H3]; [reflexivity |].
  rewrite !bool_decide_false by done.
  unfold rate_table. cbn [list_to_map foldr uncurry fst snd].
  by rewrite !lookup_insert_ne, lookup_empty by done.
Qed.

(** C8. In synthesis the price and the base of a hotel offer are converted
    at the rate the table gives for the offer's currency field (EUR 107.19,
    GBP 125, USD 83) and left unconverted for a currency outside the table;
    the price of a flight is converted at the EUR rate whatever its currency
    field says. A hotel offer [{total: 100, currency: "USD"}] is shown as
    8300 rupees (83 per dollar, where the EUR rate would give 10719), and a
    flight [{total: "100.00", currency: "USD"}] as 10719 rupees. *)
Theorem prices_converted_by_currency (w : World) :
  (∀ (offer price_info : gmap string json) (total base : float),
     offer !! "price" = Some (JObj price_info) →
     j_float w (obj_get price_info "total" (JInt 0)) = Returns total →
     j_float w (obj_get price_info "base" (JInt 0)) = Returns base →
     let currency := obj_get price_info "currency" (JStr "EUR") in
     render_price w (JObj offer)
     = let? price_inr := converted (hotel_rate currency) total in
       let? base_inr := converted (hotel_rate currency) base in
       Returns (price_line price_inr base_inr (j_str w currency)))
  ∧ hotel_rate (JStr "EUR") = Some EUR_TO_INR
  ∧ hotel_rate (JStr "GBP") = Some 125%float
  ∧ hotel_rate (JStr "USD") = Some 83%float
  ∧ (∀ c, c ≠ "EUR" → c ≠ "GBP" → c ≠ "USD" → hotel_rate (JStr c) = None)
  ∧ (∀ (f price : gmap string json) (total : json) (price_eur : float),
       f !! "price" = Some (JObj price) →
       price !! "total" = Some total →
       j_float w total = Returns price_eur →
       flight_price_inr w f = py_int (price_eur * EUR_TO_INR)%float)
  ∧ converted (hotel_rate (JStr "USD")) 100%float = Returns 8300
  ∧ converted (Some EUR_TO_INR) 100%float = Returns 10719
  ∧ fst (synthesis_node world_hotels state_with_results empty_sys)
    = Returns (response_update
        (py_join nl
           ["✈️ **FLIGHTS:**";
            "  AI 101 | Mumbai (BOM) → Delhi (DEL) | 01 Dec 2026, 10:30 AM | ₹10719";
            "";
            "🏨 **HOTELS:**";
            "";
            "1. **Gamma** (ID: H2)";
            "   💰 Price: ₹8300 total (Base: ₹0) | Currency: USD";
            "   🛏️  Room: Standard Room | N/A bed(s) - N/A";
            "   📅 N/A to N/A";
            "   🏷️  Payment: N/A | Cancellation: N/A";
            "   ℹ️  No cancellation info";
            ""])).
Proof.
  split; [| split; [| split; [| split; [| split; [| split; [| split; [| split]]]]]]].
  - intros offer price_info total base Hp Ht Hb currency.
    unfold render_price. cbn [j_get obind].
    replace (obj_get offer "price" (JObj ∅)) with (JObj price_info)
      by (unfold obj_get; by rewrite Hp).
    cbn [j_get obind]. rewrite Ht. cbn [obind]. rewrite Hb. cbn [obind].
    fold currency. by rewrite !convert_price_table.
  - reflexivity.
  - reflexivity.
  - reflexivity.
  - intros c H1 H2 H3. unfold hotel_rate, rate_table.
    cbn [list_to_map foldr uncurry fst snd].
    by rewrite !lookup_insert_ne, lookup_empty by done.
  - intros f price total price_eur Hp Ht Hf.
    unfold flight_price_inr, obj_item. rewrite Hp. cbn [obind j_item].
    unfold obj_item. rewrite Ht. cbn [obind]. by rewrite Hf.
  - vm_compute. reflexivity.
  - vm_compute. reflexivity.
  - vm_compute. reflexivity.
Qed.

(** ** Hotel search and web-search fallback on concrete worlds *)

Lemma hotel_offer_requests_bounded_witness :
  ∃ u σ',
    hotel_tool world_hotels state_hotel_del empty_sys = (Returns u, σ')
    ∧ log σ' = [EvHotelsByCity (PStr "DEL"); EvHotelOffers (JStr "H1");
                EvSleep 500; EvHotelOffers (JStr "H2")]
    ∧ all_hotel_ids hotels_in_del = [JStr "H1"; JStr "H2"; JStr "H3"]
    ∧ upd_hotels u = Some (replicate 5 offer_usd_100).
Proof.
  assert (∀ h msg, h ∈ hotel_ids hotels_in_del →
            offers_answer world_hotels hotel_del (PInt 1) h ≠ Crashed msg)
    as Hok.
  { intros h msg _. unfold offers_answer. cbn. unfold offers_in_del.
    repeat case_match; discriminate. }
  destruct (hotel_offer_requests_bounded world_hotels state_hotel_del
              hotel_del (PInt 1) hotels_in_del empty_sys eq_refl eq_refl
              eq_refl eq_refl eq_refl eq_refl Hok)
    as (requested & rest & u & σ' & Hrun & _).
  exists u, σ'. split; [exact Hrun |].
  vm_compute in Hrun. injection Hrun as <- <-.
  repeat split; vm_compute; reflexivity.
Defined.

Lemma fallback_uses_first_answering_backend_witness :
  ∃ text,
    web_search_fallback_node world_search state_fallback empty_sys
    = (Returns (response_update text),
       {| cache := ∅;
          log := [EvGet "https://searx.be/search";
                  EvGet "https://search.bus-hit.me/search"] |})
    ∧ text
      = fallback_header "flights from Mumbai to Delhi on December 01, 2026 price"
        +:+ fallback_entry 1 (hit_of_result a_search_result)
              "Mumbai to Delhi from 4,500"
        +:+ fallback_footer.
Proof.
  assert (no_flights state_fallback = true) as H1 by reflexivity.
  assert ("flights from Mumbai to Delhi on December 01, 2026 price" ≠ "")
    as H2 by discriminate.
  assert (searxng_instances
          = ["https://searx.be/search"]
            ++ "https://search.bus-hit.me/search"
               :: ["https://searx.tiekoetter.com/search";
                   "https://paulgo.io/search"]) as H3 by reflexivity.
  assert (∀ u, u ∈ ["https://searx.be/search"] →
            backend_fails world_search
              "flights from Mumbai to Delhi on December 01, 2026 price" u)
    as H4.
  { intros u Hu%list_elem_of_singleton. subst u.
    intros results (Hget & _). vm_compute in Hget. discriminate. }
  assert (backend_answers world_search
            "flights from Mumbai to Delhi on December 01, 2026 price"
            "https://search.bus-hit.me/search" [a_search_result]) as H5.
  { split; [reflexivity |]. split; [discriminate |].
    repeat constructor. }
  destruct (fallback_uses_first_answering_backend world_search state_fallback
              _ _ _ _ _ empty_sys H1 eq_refl eq_refl H2 H3 H4 H5)
    as (Hrun & _).
  eexists. split; [exact Hrun |].
  cbn [take map entries_text]. unfold shown_snippet.
  vm_compute. reflexivity.
Defined.

(** ** More on the validator *)

Section ValidatorMore.

Variable fromisoformat : string -> option datetime.
Variable today : date.

(** Outside [intent] and [reasoning], what the validator emits is the
    mapping after the hotel fix. *)
Lemma validate_intent_frame d :
  optional_str (py_get d "check_in") →
  ∃ d', validate_intent fromisoformat today d = Returns d'
    ∧ ∀ k, k ≠ "intent" → k ≠ "reasoning" →
        d' !! k = fix_hotel_origin (py_get d "intent") d !! k.
Proof.
  intros Ht.
  destruct (validate_intent_cases fromisoformat today d Ht)
    as [[Hv _] | (d' & Hv & _ & Hframe)]; eauto.
Qed.

(** A hotel search whose city was put in [origin]: the validator emits the
    city as [destination] and [None] as [origin]; in every other case the
    two entries are emitted as they came. *)
Theorem hotel_city_moved_from_origin (d : gmap string pyval) :
  optional_str (py_get d "check_in") →
  ∃ d', validate_intent fromisoformat today d = Returns d'
    ∧ (py_get d "intent" = PStr "hotel_search" →
       truthy (py_get d "origin") = true →
       truthy (py_get d "destination") = false →
       py_get d' "destination" = py_get d "origin"
       ∧ d' !! "origin" = Some PNone)
    ∧ (py_get d "intent" ≠ PStr "hotel_search"
       ∨ truthy (py_get d "origin") = false
       ∨ truthy (py_get d "destination") = true →
       d' !! "origin" = d !! "origin"
       ∧ d' !! "destination" = d !! "destination").
Proof.
  intros Ht. destruct (validate_intent_frame d Ht) as (d' & Hv & Hframe).
  exists d'. split; [exact Hv |]. split.
  - intros Hk Ho Hd. unfold py_get at 1.
    rewrite !Hframe by done. unfold fix_hotel_origin.
    rewrite Hk, Ho, Hd. cbn [negb andb].
    change (py_eq (PStr "hotel_search") (PStr "hotel_search")) with true.
    cbn iota. rewrite lookup_insert_ne, !lookup_insert_eq by done. done.
  - intros Hcase. rewrite !Hframe by done. unfold fix_hotel_origin.
    destruct Hcase as [Hk | [Ho | Hd]].
    + apply py_eq_false in Hk. by rewrite Hk.
    + rewrite Ho. cbn [andb]. by destruct (py_eq _ _).
    + rewrite Hd. cbn [negb]. rewrite andb_false_r. by destruct (py_eq _ _).
Qed.

(** An extraction in which no row of its kind's table fails and on which
    the past-date guard stays silent leaves the validator as it came (up to
    the hotel fix): a complete search is not rewritten; and an extraction of
    any other intent ([clarify], [follow_up], or one that is not a string) has
    no table at all, so only the date guard can rewrite it. *)
Theorem complete_extraction_passes_unchanged (d : gmap string pyval) :
  guard_silent fromisoformat today d →
  (∀ kind, py_get d "intent" = PStr kind → kind ∈ search_kinds →
     missing_items kind (fix_hotel_origin (PStr kind) d) = []) →
  validate_intent fromisoformat today d
  = Returns (fix_hotel_origin (py_get d "intent") d)
  ∧ (py_get d "intent" ≠ PStr "hotel_search" →
     validate_intent fromisoformat today d = Returns d).
Proof.
  intros Hs Hm.
  assert (validate_intent fromisoformat today d
          = Returns (fix_hotel_origin (py_get d "intent") d)) as Hv.
  { unfold validate_intent.
    set (o := py_get d "intent"). set (d1 := fix_hotel_origin o d).
    assert (completeness_check o d1 = d1) as ->.
    { destruct (decide (o ∈ (PStr <$> search_kinds))) as [Hin | Hout].
      - apply list_elem_of_fmap in Hin as (kind & Hk & Hin).
        rewrite Hk. rewrite completeness_check_kind by done.
        unfold d1. rewrite Hk. rewrite (Hm kind); [done | | done].
        by rewrite <- Hk.
      - apply completeness_check_other; intros Ho; apply Hout; rewrite Ho;
          unfold search_kinds; cbn; in_list. }
    apply past_date_guard_silent. unfold d1.
    destruct Hs as [Hs | (s & dt & Hs & Hp & Hlt)]; [left | right].
    - by rewrite fix_hotel_origin_get.
    - exists s, dt. by rewrite fix_hotel_origin_get. }
  split; [exact Hv |].
  intros Hk. rewrite Hv. by rewrite fix_hotel_origin_not_hotel.
Qed.

End ValidatorMore.

Lemma hotel_city_moved_from_origin_witness :
  ∃ d', validate_intent iso_calendar_date a_today
          (an_intent "hotel_search" (PStr "DEL") PNone (PStr "2026-12-01")
             (PStr "2026-12-03")) = Returns d'
    ∧ py_get d' "intent" = PStr "hotel_search"
    ∧ py_get d' "destination" = PStr "DEL"
    ∧ d' !! "origin" = Some PNone.
Proof.
  destruct (hotel_city_moved_from_origin iso_calendar_date a_today
              (an_intent "hotel_search" (PStr "DEL") PNone (PStr "2026-12-01")
                 (PStr "2026-12-03")) I) as (d' & Hv & Hfix & _).
  exists d'. split; [exact Hv |].
  destruct (Hfix eq_refl eq_refl eq_refl) as [Hd Ho].
  split; [| split; [exact Hd | exact Ho]].
  vm_compute in Hv. injection Hv as <-. vm_compute. reflexivity.
Defined.

Lemma complete_extraction_passes_unchanged_witness :
  validate_intent iso_calendar_date a_today flight_bom_del
  = Returns flight_bom_del.
Proof.
  assert (guard_silent iso_calendar_date a_today flight_bom_del) as Hs.
  { right. eexists "2026-12-01", _. split; [reflexivity |].
    split; [vm_compute; reflexivity | vm_compute; reflexivity]. }
  assert (∀ kind, py_get flight_bom_del "intent" = PStr kind →
            kind ∈ search_kinds →
            missing_items kind (fix_hotel_origin (PStr kind) flight_bom_del)
            = []) as Hm.
  { intros kind Hk _. vm_compute in Hk. injection Hk as <-.
    vm_compute. reflexivity. }
  destruct (complete_extraction_passes_unchanged iso_calendar_date a_today
              flight_bom_del Hs Hm) as [_ Hsame].
  apply Hsame. discriminate.
Defined.

(** ** The airport cache *)

Section AirportCache.

Variable w : World.

(** [get_city_name] always answers; the cache only grows; a name that was
    cached or that the provider gave is answered again by the next call
    without asking the provider; a failed look-up answers the code itself, is
    not cached, and the next call asks the provider again. *)
Theorem get_city_name_memoizes (iata_code : string) (σ : Sys) :
  ∃ city σ1,
    get_city_name w iata_code σ = (Returns city, σ1)
    ∧ cache σ ⊆ cache σ1
    ∧ (is_Some (cache σ !! iata_code)
       ∨ is_Some (location_city_name w iata_code) →
       cache σ1 !! iata_code = Some city
       ∧ get_city_name w iata_code σ1 = (Returns city, σ1))
    ∧ (cache σ !! iata_code = None →
       location_city_name w iata_code = None →
       city = iata_code
       ∧ σ1 = logged (EvLocationInfo iata_code) σ
       ∧ get_city_name w iata_code σ1
         = (Returns iata_code, logged (EvLocationInfo iata_code) σ1)).
Proof.
  unfold get_city_name, bind, get_cache, emit, set_cache, ret. cbn.
  destruct (cache σ !! iata_code) as [cached |] eqn:Hc.
  - exists cached, σ. split; [done |]. split; [done |].
    split; [| done]. intros _. by rewrite Hc.
  - cbn. destruct (location_city_name w iata_code) as [name |] eqn:Hl.
    + eexists name, _. split; [done |]. cbn.
      split; [by apply insert_subseteq |].
      split; [| done]. intros _. by rewrite lookup_insert_eq.
    + eexists iata_code, _. split; [done |]. cbn. split; [done |].
      split; [intros [[? ?] | [? ?]]; done |].
      intros _ _. by rewrite Hc.
Qed.

End AirportCache.

(** ** The flight step *)

Lemma flight_searches_app l1 l2 :
  flight_searches (l1 ++ l2) = flight_searches l1 ++ flight_searches l2.
Proof. unfold flight_searches. apply omap_app. Qed.

Section FlightStep.

Variable w : World.

Lemma get_city_name_no_search iata_code σ :
  ∃ city σ' l, get_city_name w iata_code σ = (Returns city, σ')
               ∧ log σ' = log σ ++ l ∧ flight_searches l = [].
Proof.
  unfold get_city_name, bind, get_cache, emit, set_cache, ret. cbn.
  destruct (cache σ !! iata_code) as [cached |].
  - exists cached, σ, []. by rewrite app_nil_r.
  - cbn. destruct (location_city_name w iata_code) as [name |];
      eexists _, _, [EvLocationInfo iata_code]; done.
Qed.

Lemma city_of_no_search code σ :
  ∃ city σ' l, city_of w code σ = (Returns city, σ')
               ∧ log σ' = log σ ++ l ∧ flight_searches l = [].
Proof.
  destruct code as [| s | z]; try (eexists _, σ, []; by rewrite app_nil_r).
  apply get_city_name_no_search.
Qed.

Lemma flight_response_error_shape i e σ :
  ∃ u σ' l,
    flight_response_error w i e σ = (Returns u, σ')
    ∧ log σ' = log σ ++ l ∧ flight_searches l = []
    ∧ upd_intent u = None ∧ upd_hotels u = None
    ∧ upd_flights u = Some []
    ∧ ((upd_use_web_search u = None ∧ upd_search_query u = None
        ∧ upd_response u = Some (Some ("Flight search error: " +:+ re_str e)))
       ∨ (upd_use_web_search u = Some true ∧ upd_response u = Some None
          ∧ ∃ q, upd_search_query u = Some ("flights from " +:+ q))).
Proof.
  unfold flight_response_error.
  assert (∃ u σ' l,
            ret (flight_failure ("Flight search error: " +:+ re_str e)) σ
            = (Returns u, σ')
            ∧ log σ' = log σ ++ l ∧ flight_searches l = []
            ∧ upd_intent u = None ∧ upd_hotels u = None
            ∧ upd_flights u = Some []
            ∧ ((upd_use_web_search u = None ∧ upd_search_query u = None
                ∧ upd_response u
                  = Some (Some ("Flight search error: " +:+ re_str e)))
               ∨ (upd_use_web_search u = Some true
                  ∧ upd_response u = Some None
                  ∧ ∃ q, upd_search_query u = Some ("flights from " +:+ q))))
    as Hplain.
  { eexists _, σ, []. rewrite app_nil_r. repeat (split; [done |]). by left. }
  destruct (re_errors e) as [[| first_error rest] |]; try exact Hplain.
  destruct (is_outage first_error); [| exact Hplain].
  set (o := py_get i "origin"). set (d := py_get i "destination").
  assert (∃ city σ' l,
            (if truthy o then city_of w o else ret (py_str o)) σ
            = (Returns city, σ')
            ∧ log σ' = log σ ++ l ∧ flight_searches l = [])
    as (oc & σ1 & l1 & Ho & Hl1 & Hs1).
  { destruct (truthy o); [apply city_of_no_search |].
    eexists _, σ, []. by rewrite app_nil_r. }
  assert (∃ city σ' l,
            (if truthy d then city_of w d else ret (py_str d)) σ1
            = (Returns city, σ')
            ∧ log σ' = log σ1 ++ l ∧ flight_searches l = [])
    as (dc & σ2 & l2 & Hd & Hl2 & Hs2).
  { destruct (truthy d); [apply city_of_no_search |].
    eexists _, σ1, []. by rewrite app_nil_r. }
  unfold bind. rewrite Ho, Hd.
  eexists _, σ2, (l1 ++ l2). split; [reflexivity |].
  split; [by rewrite Hl2, Hl1, app_assoc |].
  split; [by rewrite flight_searches_app, Hs1, Hs2 |].
  repeat (split; [done |]). right. repeat (split; [done |]).
  eexists. cbn. reflexivity.
Qed.

(** The flight step always returns. It calls the provider at most once, and
    only when the intent has origin, destination, check_in and travelers;
    without them it changes nothing and answers a message with no flights. It
    never sets the intent or the hotels; when it arms the fallback it returns
    no flights, clears the response and sets a query that begins with
    "flights from "; it never sets the flag to false. *)
Theorem flight_tool_behaviour (state : AgentState) (σ : Sys) :
  ∃ u σ' l,
    flight_tool w state σ = (Returns u, σ')
    ∧ log σ' = log σ ++ l
    ∧ (length (flight_searches l) ≤ 1)%nat
    ∧ (¬ flight_ready state →
       σ' = σ ∧ upd_use_web_search u = None
       ∧ ∃ text, upd_response u = Some (Some text))
    ∧ upd_intent u = None ∧ upd_hotels u = None
    ∧ (upd_use_web_search u = None
       ∨ (upd_use_web_search u = Some true
          ∧ upd_flights u = Some [] ∧ upd_response u = Some None
          ∧ ∃ q, upd_search_query u = Some ("flights from " +:+ q))).
Proof.
  unfold flight_tool.
  assert (∀ u, upd_intent u = None → upd_hotels u = None →
            upd_use_web_search u = None →
            (∃ text, upd_response u = Some (Some text)) →
            ∃ u' σ' l,
              ret u σ = (Returns u', σ')
              ∧ log σ' = log σ ++ l
              ∧ (length (flight_searches l) ≤ 1)%nat
              ∧ (¬ flight_ready state →
                 σ' = σ ∧ upd_use_web_search u' = None
                 ∧ ∃ text, upd_response u' = Some (Some text))
              ∧ upd_intent u' = None ∧ upd_hotels u' = None
              ∧ (upd_use_web_search u' = None
                 ∨ (upd_use_web_search u' = Some true
                    ∧ upd_flights u' = Some [] ∧ upd_response u' = Some None
                    ∧ ∃ q, upd_search_query u' = Some ("flights from " +:+ q))))
    as Hquiet.
  { intros u H1 H2 H3 H4. exists u, σ, []. rewrite app_nil_r.
    split; [done |]. split; [done |]. split; [cbn; lia |].
    split; [done |]. split; [done |]. split; [done |]. by left. }
  destruct (intent state) as [i |] eqn:Hi;
    [| apply Hquiet; try done; by eexists].
  destruct (truthy (py_get i "origin")) eqn:Ho;
    [| apply Hquiet; try done; by eexists].
  destruct (truthy (py_get i "destination")) eqn:Hd;
    [| apply Hquiet; try done; by eexists].
  destruct (truthy (py_get i "check_in")) eqn:Hc;
    [| apply Hquiet; try done; by eexists].
  cbn [negb].
  destruct (i !! "travelers") as [travelers |] eqn:Ht;
    [| apply Hquiet; try done; by eexists].
  assert (flight_ready state) as Hready.
  { exists i. by rewrite Ht. }
  unfold bind at 1. cbn [emit].
  set (ev := EvSearchFlights _ _ _ _).
  set (σ0 := {| cache := cache σ; log := log σ ++ [ev] |}).
  destruct (search_flights w (py_get i "origin") (py_get i "destination")
              (py_get i "check_in") travelers) as [res_data | e | msg].
  - eexists _, σ0, [ev]. cbn. split; [done |]. split; [done |].
    split; [lia |]. split; [done |]. split; [done |]. split; [done |].
    by left.
  - destruct (flight_response_error_shape i e σ0)
      as (u & σ' & l & Hr & Hl & Hs & H1 & H2 & H3 & Hcase).
    exists u, σ', (ev :: l). split; [exact Hr |].
    split; [rewrite Hl; cbn; by rewrite <- app_assoc |].
    split.
    { change (ev :: l) with ([ev] ++ l).
      rewrite flight_searches_app, Hs. cbn. lia. }
    split; [done |]. split; [done |]. split; [done |].
    destruct Hcase as [(Ha & _) | (Ha & Hb & Hq)]; [by left | by right].
  - eexists _, σ0, [ev]. cbn. split; [done |]. split; [done |].
    split; [lia |]. split; [done |]. split; [done |]. split; [done |].
    by left.
Qed.

End FlightStep.

(** ** Runs of the graph *)

Section GraphRuns.

Variable w : World.

Lemma next_node_depth n state n' :
  next_node n state = Returns (Some n') → (depth n' < depth n)%nat.
Proof.
  destruct n; cbn; try done.
  - unfold router, intent_kind.
    destruct (intent state) as [i |]; cbn; [| intros [= <-]; cbn; lia].
    destruct (i !! "intent") as [k |]; cbn; [| done].
    repeat case_match; intros [= <-]; cbn; lia.
  - unfold flight_tool_router, intent_kind.
    destruct (use_web_search state); cbn; [intros [= <-]; cbn; lia |].
    destruct (intent state) as [i |]; cbn; [| intros [= <-]; cbn; lia].
    destruct (i !! "intent") as [k |]; cbn; [| done].
    repeat case_match; intros [= <-]; cbn; lia.
  - intros [= <-]. cbn. lia.
Qed.

(** A run never reaches the bound on its length: with room for three
    further nodes after the first, more room changes nothing. *)
Lemma run_from_enough k :
  ∀ n fuel state σ,
    (depth n ≤ k)%nat → (k ≤ fuel)%nat →
    run_from w fuel n state σ = run_from w k n state σ.
Proof.
  induction k as [| k IH]; intros n fuel state σ Hd Hf.
  - rewrite !(run_from_eq _ fuel), !(run_from_eq _ 0). unfold bind, lift.
    destruct (emit (EvNode n) σ) as [[[] | e] σ0]; [| done].
    destruct (run_node w n state σ0) as [[u | e] σ1]; [| done].
    destruct (next_node n (apply_update state u)) as [[n' |] | e] eqn:Hn;
      [| done | done].
    apply next_node_depth in Hn. lia.
  - destruct fuel as [| fuel]; [lia |].
    rewrite (run_from_eq _ (S fuel)), (run_from_eq _ (S k)). unfold bind, lift.
    destruct (emit (EvNode n) σ) as [[[] | e] σ0]; [| done].
    destruct (run_node w n state σ0) as [[u | e] σ1]; [| done].
    destruct (next_node n (apply_update state u)) as [[n' |] | e] eqn:Hn;
      [| done | done].
    apply next_node_depth in Hn. apply IH; lia.
Qed.

Lemma run_from_terminal_eq fuel n state σ :
  depth n = 0%nat →
  run_from w fuel n state σ
  = match run_node w n state (logged (EvNode n) σ) with
    | (Returns u, σ1) => (Returns (apply_update state u), σ1)
    | (Raises e, σ1) => (Raises e, σ1)
    end.
Proof.
  intros Hd.
  destruct (run_node w n state (logged (EvNode n) σ)) as [[u | e] σ1] eqn:Hr.
  - rewrite (run_from_returns _ _ _ _ _ _ _ Hr).
    by destruct n.
  - by rewrite (run_from_raises _ _ _ _ _ _ _ Hr).
Qed.

Lemma run_node_quiet n state :
  run_spec not_node anything anything (run_node w n state).
Proof.
  destruct n; cbn.
  - run_spec_use intent_node_spec.
  - run_spec_use flight_tool_spec.
  - run_spec_use hotel_tool_spec.
  - by apply run_spec_ret.
  - run_spec_use synthesis_node_spec.
  - run_spec_use web_search_fallback_node_spec.
Qed.

(** What a run from a node without successor logs. *)
Lemma run_from_terminal_path fuel n state σ :
  depth n = 0%nat →
  ∃ l, log (run_from w fuel n state σ).2 = log σ ++ l ∧ visited l = [n].
Proof.
  intros Hd. rewrite run_from_terminal_eq by done.
  destruct (run_node_quiet n state (logged (EvNode n) σ)) as (l & Hl & HQ & _).
  exists (EvNode n :: l).
  split.
  - destruct (run_node w n state (logged (EvNode n) σ)) as [[u | e] σ1];
      cbn in *; by rewrite Hl, <- app_assoc.
  - rewrite visited_cons_node. by rewrite visited_not_node.
Qed.

Lemma run_from_hotel_path fuel state σ :
  ∃ l, log (run_from w (S fuel) NHotelTool state σ).2 = log σ ++ l
       ∧ visited l = [NHotelTool; NSynthesis].
Proof.
  destruct (run_spec_total _ _ _ (logged (EvNode NHotelTool) σ)
              (hotel_tool_spec w state)) as (u & σ1 & l1 & Hh & _ & Hl1 & HQ1).
  rewrite (run_from_returns _ _ _ _ _ u σ1) by exact Hh. cbn [next_node].
  destruct (run_from_terminal_path fuel NSynthesis (apply_update state u) σ1
              eq_refl) as (l2 & Hl2 & Hv2).
  exists (EvNode NHotelTool :: l1 ++ l2). split.
  - rewrite Hl2, Hl1. cbn. by rewrite <- !app_assoc.
  - rewrite visited_cons_node, visited_app, Hv2.
    by rewrite (visited_not_node l1).
Qed.

Lemma run_from_flight_path fuel state σ i kind :
  intent state = Some i → i !! "intent" = Some kind →
  ∃ l, log (run_from w (S (S fuel)) NFlightTool state σ).2 = log σ ++ l
       ∧ (visited l = [NFlightTool; NWebSearchFallback]
          ∨ (kind = PStr "both"
             ∧ visited l = [NFlightTool; NHotelTool; NSynthesis])
          ∨ (kind ≠ PStr "both" ∧ visited l = [NFlightTool; NSynthesis])).
Proof.
  intros Hi Hk.
  destruct (run_spec_total _ _ _ (logged (EvNode NFlightTool) σ)
              (flight_tool_spec w state)) as (u & σ1 & l1 & Hf & Hu & Hl1 & HQ1).
  rewrite (run_from_returns _ _ _ _ _ u σ1) by exact Hf. cbn [next_node].
  assert (visited l1 = []) as Hv1.
  { apply visited_not_node. eapply Forall_impl; [exact HQ1 |].
    apply not_node_nor_hotel_not_node. }
  unfold flight_tool_router.
  assert (intent (apply_update state u) = Some i) as ->
    by (cbn; by rewrite Hu).
  unfold intent_kind. rewrite Hk.
  destruct (use_web_search (apply_update state u)); cbn [obind].
  - destruct (run_from_terminal_path (S fuel) NWebSearchFallback
                (apply_update state u) σ1 eq_refl) as (l2 & Hl2 & Hv2).
    exists (EvNode NFlightTool :: l1 ++ l2). split.
    + rewrite Hl2, Hl1. cbn. by rewrite <- !app_assoc.
    + left. by rewrite visited_cons_node, visited_app, Hv1, Hv2.
  - destruct (py_eq kind (PStr "both")) eqn:Hb; cbn [obind].
    + apply py_eq_true in Hb.
      destruct (run_from_hotel_path fuel (apply_update state u) σ1)
        as (l2 & Hl2 & Hv2).
      exists (EvNode NFlightTool :: l1 ++ l2). split.
      * rewrite Hl2, Hl1. cbn. by rewrite <- !app_assoc.
      * right; left. split; [done |].
        by rewrite visited_cons_node, visited_app, Hv1, Hv2.
    + apply py_eq_false in Hb.
      destruct (run_from_terminal_path (S fuel) NSynthesis
                  (apply_update state u) σ1 eq_refl) as (l2 & Hl2 & Hv2).
      exists (EvNode NFlightTool :: l1 ++ l2). split.
      * rewrite Hl2, Hl1. cbn. by rewrite <- !app_assoc.
      * right; right. split; [done |].
        by rewrite visited_cons_node, visited_app, Hv1, Hv2.
Qed.

End GraphRuns.

(** ** Every run that returns carries a response *)

Lemma starts_with_app c a b : starts_with c a → starts_with c (a +:+ b).
Proof. intros [rest ->]. exists (rest +:+ b). apply string_app_cons. Qed.

Lemma starts_with_nonempty c text : starts_with c text → text ≠ "".
Proof. by intros [rest ->]. Qed.

Lemma starts_with_join c sep x l :
  starts_with c x → starts_with c (py_join sep (x :: l)).
Proof.
  intros Hx. unfold py_join. cbn [String.concat].
  destruct l; [done |]. by apply starts_with_app.
Qed.

Lemma starts_with_foldl c (l : list string) acc :
  starts_with c acc →
  starts_with c (foldl (λ acc item, acc +:+ item +:+ nl) acc l).
Proof.
  revert acc. induction l as [| x l IH]; intros acc Hacc; [done |].
  cbn [foldl]. apply IH. by apply starts_with_app.
Qed.

Lemma response_update_has_response state text :
  text ≠ "" → has_response (apply_update state (response_update text)).
Proof. intros H. by exists text. Qed.

Lemma clarify_node_starts state :
  ∃ text, clarify_node state = response_update text ∧ starts_with "I" text.
Proof.
  unfold clarify_node. eexists. split; [reflexivity |].
  cbv zeta.
  repeat first
    [ apply starts_with_app
    | apply starts_with_foldl
    | match goal with
      | |- starts_with _ (if ?b then _ else _) => destruct b
      | |- starts_with _ (match ?l with [] => _ | _ :: _ => _ end) =>
          destruct l
      end ].
  all: by eexists.
Qed.

Section ResponseAlwaysSet.

Variable w : World.

Lemma render_hits_extends idx flight_info response_text text :
  render_hits idx flight_info response_text = Returns text →
  ∃ rest, text = response_text +:+ rest.
Proof.
  revert idx response_text.
  induction flight_info as [| info l IH]; intros idx response_text;
    cbn [render_hits].
  - intros [= <-]. exists "". by rewrite string_app_nil_r.
  - destruct (snippet_of info) as [snippet |]; [| done].
    intros (rest & ->)%IH. eexists. by rewrite string_app_assoc.
Qed.

Lemma fallback_header_starts q : starts_with "010" (fallback_header q).
Proof. unfold fallback_header. by eexists. Qed.

Lemma render_fallback_starts q flight_info text :
  render_fallback q flight_info = Returns text → starts_with "010" text.
Proof.
  unfold render_fallback.
  destruct (render_hits 1 flight_info (fallback_header q)) as [t |] eqn:Hr;
    [| done].
  intros [= <-]. apply render_hits_extends in Hr as (rest & ->).
  do 2 apply starts_with_app. apply fallback_header_starts.
Qed.

Lemma searxng_loop_starts q instances σ text σ' :
  searxng_loop w q instances σ = (Returns (Some text), σ') →
  starts_with "010" text.
Proof.
  revert σ. induction instances as [| url rest IH]; intros σ;
    cbn [searxng_loop]; [done |].
  unfold bind at 1. cbn [emit].
  destruct (searxng_get w url q) as [| status_code body]; [apply IH |].
  destruct (status_code =? 200); [| apply IH].
  destruct body as [[| r results] |]; [apply IH | | apply IH].
  destruct (render_fallback q (map hit_of_result (take 5 (r :: results))))
    as [t |] eqn:Hr; [| apply IH].
  intros [= <- _]. by eapply render_fallback_starts.
Qed.

Lemma ddg_search_starts q σ text σ' :
  ddg_search w q σ = (Returns (Some text), σ') → starts_with "010" text.
Proof.
  unfold ddg_search, bind. cbn [emit].
  destruct (ddg_post w q) as [| status_code [blocks |]]; try done.
  destruct (status_code =? 200); [| done].
  destruct (ddg_hits (take 5 blocks)) as [| info l]; [done |].
  destruct (render_fallback q (info :: l)) as [t |] eqn:Hr; [| done].
  intros [= <- _]. by eapply render_fallback_starts.
Qed.

Lemma get_fallback_message_starts state σ :
  ∃ text σ', get_fallback_message w state σ = (Returns text, σ')
             ∧ starts_with "010" text.
Proof.
  unfold get_fallback_message.
  set (i := default ∅ (intent state)).
  set (m1 := if truthy (py_get i "origin") then _ else _).
  set (m2 := if truthy (py_get i "destination") then _ else _).
  assert (∀ σ, ∃ c σ', m1 σ = (Returns c, σ')) as H1.
  { intros σ0. unfold m1. destruct (truthy (py_get i "origin"));
      [| by eexists _, _].
    destruct (run_spec_total _ _ _ σ0 (city_of_spec w
                (py_get_or i "origin" (PStr "")))) as (c & σ' & _ & Hc & _).
    by eexists _, _. }
  assert (∀ σ, ∃ c σ', m2 σ = (Returns c, σ')) as H2.
  { intros σ0. unfold m2. destruct (truthy (py_get i "destination"));
      [| by eexists _, _].
    destruct (run_spec_total _ _ _ σ0 (city_of_spec w
                (py_get_or i "destination" (PStr "")))) as (c & σ' & _ & Hc & _).
    by eexists _, _. }
  destruct (H1 σ) as (c1 & σ1 & Hc1). destruct (H2 σ1) as (c2 & σ2 & Hc2).
  unfold bind. rewrite Hc1, Hc2. eexists _, _. split; [reflexivity |].
  by eexists.
Qed.

(** The fallback node sets a response whenever it runs with the flag armed
    and no flights. *)
Lemma web_search_fallback_node_responds state σ :
  no_flights state = true → use_web_search state = true →
  ∃ text σ', web_search_fallback_node w state σ
             = (Returns (response_update text), σ')
             ∧ text ≠ "".
Proof.
  intros Hnf Ha. unfold web_search_fallback_node. rewrite Hnf, Ha. cbn [andb].
  case_bool_decide; [by eexists _, _ |].
  unfold bind.
  destruct (run_spec_total _ _ _ σ (searxng_loop_spec w
              (default "" (search_query state)) searxng_instances))
    as (found & σ1 & _ & Hs & _).
  rewrite Hs. destruct found as [text |].
  - eexists _, _. split; [reflexivity |].
    eapply starts_with_nonempty, searxng_loop_starts, Hs.
  - destruct (run_spec_total _ _ _ σ1 (ddg_search_spec w
                (default "" (search_query state)))) as (found & σ2 & _ & Hd & _).
    rewrite Hd. destruct found as [text |].
    + eexists _, _. split; [reflexivity |].
      eapply starts_with_nonempty, ddg_search_starts, Hd.
    + destruct (get_fallback_message_starts state σ2) as (text & σ3 & Hm & Hst).
      rewrite Hm. eexists _, _. split; [reflexivity |].
      by eapply starts_with_nonempty.
Qed.

(** Synthesis, when it returns, sets a response that is not empty. *)
Lemma synthesis_node_responds state σ u σ' :
  synthesis_node w state σ = (Returns u, σ') →
  ∃ text, u = response_update text ∧ text ≠ "".
Proof.
  unfold synthesis_node, bind.
  set (mf := match flights state with Some (f :: fs) => _ | _ => ret [] end).
  destruct (mf σ) as [[flight_lines | e] σ1] eqn:Hf; [| done].
  set (mh := match hotels state with Some (h :: hs) => _ | _ => ret [] end).
  destruct (mh σ1) as [[hotel_lines | e] σ2] eqn:Hh; [| done].
  assert (flight_lines = []
          ∨ ∃ rest, flight_lines = "✈️ **FLIGHTS:**" :: rest) as Hfl.
  { unfold mf in Hf. destruct (flights state) as [[| f fs] |];
      try (injection Hf as <- _; by left).
    unfold bind in Hf.
    destruct (render_flights w (take 5 (f :: fs)) σ) as [[r | e] σ0];
      [| done].
    injection Hf as <- _. right. by eexists. }
  assert (hotel_lines = []
          ∨ ∃ rest, hotel_lines = "🏨 **HOTELS:**" :: rest) as Hhl.
  { unfold mh in Hh. destruct (hotels state) as [[| h hs] |];
      try (injection Hh as <- _; by left).
    unfold bind, lift in Hh.
    destruct (render_hotels w 1 (take 5 (h :: hs))) as [r | e]; [| done].
    injection Hh as <- _. right. by eexists. }
  destruct Hfl as [-> | [rest ->]].
  - destruct Hhl as [-> | [rest ->]]; cbn.
    + intros [= <- _]. by eexists.
    + intros [= <- _]. eexists. split; [reflexivity |].
      eapply starts_with_nonempty, starts_with_join. by eexists.
  - cbn. intros [= <- _]. eexists. split; [reflexivity |].
    eapply starts_with_nonempty, starts_with_join. by eexists.
Qed.

End ResponseAlwaysSet.

Section AgentRuns.

Variable w : World.

Lemma intent_node_returns state σ u σ' :
  intent_node w state σ = (Returns u, σ') → ∃ i, u = intent_update i.
Proof.
  unfold intent_node, bind, lift. cbn [emit].
  destruct (structured_invoke w _ _) as [raw |]; [| done].
  destruct (validate_intent _ _ raw) as [i |]; [| done].
  intros [= <- _]. by eexists.
Qed.

(** What the flight step returns either leaves the fallback flag alone or
    arms it together with an empty flight list. *)
Lemma flight_tool_armed state σ u σ' :
  flight_tool w state σ = (Returns u, σ') →
  upd_intent u = None
  ∧ (upd_use_web_search u = None
     ∨ (upd_use_web_search u = Some true ∧ upd_flights u = Some [])).
Proof.
  unfold flight_tool.
  destruct (intent state) as [i |]; [| by intros [= <- _]; split; [| left]].
  repeat (case_match; [by intros [= <- _]; split; [| left] |]).
  destruct (i !! "travelers") as [travelers |];
    [| by intros [= <- _]; split; [| left]].
  unfold bind at 1. cbn [emit].
  destruct (search_flights w _ _ _ travelers) as [res_data | e | msg];
    try (by intros [= <- _]; split; [| left]).
  intros Hr.
  destruct (flight_response_error_shape w i e
              {| cache := cache σ;
                 log := log σ ++ [EvSearchFlights (py_get i "origin")
                                    (py_get i "destination")
                                    (py_get i "check_in") travelers] |})
    as (u' & σ1 & l & Hr' & _ & _ & Hu1 & _ & Hfl & Hcase).
  rewrite Hr' in Hr. injection Hr as <- _. split; [done |].
  destruct Hcase as [(Ha & _) | (Ha & _)]; [by left | by right].
Qed.

(** The paths of the graph. A run from the entry point never reaches the
    bound on its length (room for three nodes after the first is enough, and
    more changes nothing). If the intent node raises, so does the run.
    Otherwise the validated intent is in the state and the nodes entered are
    the intent node followed by one of the paths of its kind: flight step and
    synthesis, or flight step and fallback, for [flight_search]; hotel step
    and synthesis for [hotel_search]; flight step, hotel step and synthesis,
    or flight step and fallback, for [both]; synthesis for [follow_up];
    clarification for anything else. *)
Theorem agent_invoke_paths (state : AgentState) (σ : Sys) :
  (∀ fuel, (3 ≤ fuel)%nat →
     run_from w fuel NIntent state σ = agent_invoke w state σ)
  ∧ match intent_node w state (logged (EvNode NIntent) σ) with
    | (Raises e, σ1) => agent_invoke w state σ = (Raises e, σ1)
    | (Returns u, σ1) =>
        ∃ i l path,
          u = intent_update i
          ∧ log (agent_invoke w state σ).2 = log σ ++ l
          ∧ visited l = NIntent :: path
          ∧ path ∈ paths_after_intent (i !! "intent")
          ∧ (length (visited l) ≤ 4)%nat
    end.
Proof.
  split.
  { intros fuel Hf. unfold agent_invoke, recursion_limit.
    rewrite (run_from_enough w 3 NIntent fuel) by (cbn; lia).
    by rewrite (run_from_enough w 3 NIntent 25) by (cbn; lia). }
  unfold agent_invoke, recursion_limit.
  destruct (intent_node_spec w state (logged (EvNode NIntent) σ))
    as (l0 & Hl0 & HQ0 & _).
  assert (visited l0 = []) as Hv0.
  { apply visited_not_node. eapply Forall_impl; [exact HQ0 |].
    apply not_node_nor_hotel_not_node. }
  destruct (intent_node w state (logged (EvNode NIntent) σ))
    as [[u | e] σ1] eqn:Hin; [| by apply run_from_raises].
  destruct (intent_node_returns _ _ _ _ Hin) as (i & ->).
  cbn [snd logged log] in Hl0.
  assert (run_node w NIntent state (logged (EvNode NIntent) σ)
          = (Returns (intent_update i), σ1)) as Hrun by exact Hin.
  rewrite (run_from_returns _ _ _ _ _ _ _ Hrun). cbn [next_node].
  set (state1 := apply_update state (intent_update i)).
  assert (intent state1 = Some i) as Hi by reflexivity.
  exists i. unfold router, intent_kind. rewrite Hi.
  assert (∀ l2 path,
            visited l2 = path → path ∈ paths_after_intent (i !! "intent") →
            (length path ≤ 3)%nat →
            ∀ final : Sys, log final = log σ1 ++ l2 →
            ∃ l path,
              intent_update i = intent_update i
              ∧ log final = log σ ++ l
              ∧ visited l = NIntent :: path
              ∧ path ∈ paths_after_intent (i !! "intent")
              ∧ (length (visited l) ≤ 4)%nat) as Hfinish.
  { intros l2 path Hv Hp Hlen final Hfinal.
    exists (EvNode NIntent :: l0 ++ l2), path. split; [done |].
    split; [rewrite Hfinal, Hl0; cbn; by rewrite <- !app_assoc |].
    assert (visited (EvNode NIntent :: l0 ++ l2) = NIntent :: path) as Hvis
      by (by rewrite visited_cons_node, visited_app, Hv0, Hv).
    rewrite Hvis. split; [done |]. split; [done |]. cbn. lia. }
  destruct (i !! "intent") as [kind |] eqn:Hk; cbn [obind].
  2:{ eapply (Hfinish [] []); [done | cbn; in_list | cbn; lia |].
      cbn. by rewrite app_nil_r. }
  unfold paths_after_intent in *.
  destruct (py_eq kind (PStr "flight_search")) eqn:H1; cbn [obind].
  { apply py_eq_true in H1.
    destruct (run_from_flight_path w 22 state1 σ1 i kind Hi Hk)
      as (l2 & Hl2 & [Hv | [[Hb _] | [_ Hv]]]).
    - eapply (Hfinish l2); [exact Hv | in_list | cbn; lia | exact Hl2].
    - congruence.
    - eapply (Hfinish l2); [exact Hv | in_list | cbn; lia | exact Hl2]. }
  destruct (py_eq kind (PStr "hotel_search")) eqn:H2; cbn [obind].
  { destruct (run_from_hotel_path w 23 state1 σ1) as (l2 & Hl2 & Hv).
    eapply (Hfinish l2); [exact Hv | in_list | cbn; lia | exact Hl2]. }
  destruct (py_eq kind (PStr "both")) eqn:H3; cbn [obind].
  { apply py_eq_true in H3.
    destruct (run_from_flight_path w 22 state1 σ1 i kind Hi Hk)
      as (l2 & Hl2 & [Hv | [[_ Hv] | [Hb _]]]).
    - eapply (Hfinish l2); [exact Hv | in_list | cbn; lia | exact Hl2].
    - eapply (Hfinish l2); [exact Hv | in_list | cbn; lia | exact Hl2].
    - congruence. }
  destruct (py_eq kind (PStr "follow_up")) eqn:H4; cbn [obind].
  { destruct (run_from_terminal_path w 24 NSynthesis state1 σ1 eq_refl)
      as (l2 & Hl2 & Hv).
    eapply (Hfinish l2); [exact Hv | in_list | cbn; lia | exact Hl2]. }
  destruct (run_from_terminal_path w 24 NClarify state1 σ1 eq_refl)
    as (l2 & Hl2 & Hv).
  eapply (Hfinish l2); [exact Hv | in_list | cbn; lia | exact Hl2].
Qed.

End AgentRuns.

Section RoutingAfterFlight.

Variable w : World.

(** C5. The flight step returns a mapping that either leaves the fallback
    flag alone or sets it. When the step sets it, the graph writes it into
    the state, the router after the flight step answers the fallback
    cascade whatever the intent, the run enters the flight step and the
    cascade and nothing else, and the hotel provider is not called. When
    the step leaves the flag alone, the flag was off and the intent is
    [both], the first router answers the flight step, the router after it
    answers the hotel step, and the nodes entered are the flight step, the
    hotel step and synthesis, in that order. *)
Theorem routing_after_flight_step (fuel : nat) (state : AgentState) (σ : Sys) :
  ∃ u σ1,
    flight_tool w state (logged (EvNode NFlightTool) σ) = (Returns u, σ1)
    ∧ (upd_use_web_search u = None ∨ upd_use_web_search u = Some true)
    ∧ let final := snd (run_from w (S (S fuel)) NFlightTool state σ) in
      (upd_use_web_search u = Some true →
         (use_web_search (apply_update state u) = true)
         ∧ (flight_tool_router (apply_update state u)
            = Returns NWebSearchFallback)
         ∧ (visited (log final)
            = visited (log σ) ++ [NFlightTool; NWebSearchFallback])
         ∧ (hotel_calls (log final) = hotel_calls (log σ)))
      ∧ (upd_use_web_search u = None →
         use_web_search state = false →
         ∀ i, intent state = Some i → i !! "intent" = Some (PStr "both") →
           (router state = Returns NFlightTool)
           ∧ (flight_tool_router (apply_update state u) = Returns NHotelTool)
           ∧ (visited (log final)
              = visited (log σ) ++ [NFlightTool; NHotelTool; NSynthesis])).
Proof.
  destruct (run_spec_total _ _ _ (logged (EvNode NFlightTool) σ)
              (flight_tool_spec w state)) as (u & σ1 & l & Hf & Hu & Hl & HQ).
  exists u, σ1. split; [exact Hf |].
  split.
  { destruct (flight_tool_armed w _ _ _ _ Hf) as [_ [Hnone | [Harm _]]];
      [by left | by right]. }
  cbn zeta.
  assert (run_node w NFlightTool state (logged (EvNode NFlightTool) σ)
          = (Returns u, σ1)) as Hrun by exact Hf.
  rewrite (run_from_returns _ _ _ _ _ _ _ Hrun). cbn [next_node].
  assert (intent (apply_update state u) = intent state) as Hi
    by (cbn; by rewrite Hu).
  cbn [logged log] in Hl.
  split.
  - intros Hset.
    assert (use_web_search (apply_update state u) = true) as Harmed
      by (cbn; by rewrite Hset).
    split; [exact Harmed |].
    unfold flight_tool_router. rewrite Harmed. split; [done |].
    cbn [obind].
    destruct (run_from_last w not_node_nor_hotel (S fuel) NWebSearchFallback
                (apply_update state u) σ1) as (l2 & Hl2 & HQ2);
      [done | apply not_node_nor_hotel_not_node
      | apply run_node_spec_last; by right |].
    rewrite Hl2, Hl. split.
    + rewrite !visited_app, !visited_cons_node.
      rewrite (visited_not_node l), (visited_not_node l2);
        [| eapply Forall_impl; [exact HQ2 | apply not_node_nor_hotel_not_node]
         | eapply Forall_impl; [exact HQ | apply not_node_nor_hotel_not_node]].
      cbn. by rewrite <- !app_assoc.
    + rewrite !hotel_calls_app, !hotel_calls_cons_node.
      rewrite (hotel_calls_none l), (hotel_calls_none l2) by done.
      cbn. by rewrite !app_nil_r.
  - intros Hnone Hoff i Hint Hboth.
    assert (use_web_search (apply_update state u) = false) as Hclear
      by (cbn; by rewrite Hnone).
    split.
    { unfold router, intent_kind. by rewrite Hint, Hboth. }
    unfold flight_tool_router.
    rewrite Hclear, Hi, Hint. unfold intent_kind. rewrite Hboth.
    change (py_eq (PStr "both") (PStr "both")) with true.
    split; [done |]. cbn [obind].
    destruct (run_spec_total _ _ _ (logged (EvNode NHotelTool) σ1)
                (hotel_tool_spec w (apply_update state u)))
      as (u2 & σ2 & l2 & Hh & _ & Hl2 & HQ2).
    assert (run_node w NHotelTool (apply_update state u)
              (logged (EvNode NHotelTool) σ1) = (Returns u2, σ2)) as Hrun2
      by exact Hh.
    rewrite (run_from_returns _ _ _ _ _ _ _ Hrun2). cbn [next_node].
    destruct (run_from_last w not_node_nor_hotel fuel NSynthesis
                (apply_update (apply_update state u) u2) σ2)
      as (l3 & Hl3 & HQ3);
      [done | apply not_node_nor_hotel_not_node
      | apply run_node_spec_last; by left |].
    rewrite Hl3, Hl2. cbn [logged log]. rewrite Hl.
    rewrite !visited_app, !visited_cons_node.
    rewrite (visited_not_node l), (visited_not_node l2),
      (visited_not_node l3);
      [ cbn; by rewrite <- !app_assoc
      | eapply Forall_impl; [exact HQ3 | apply not_node_nor_hotel_not_node]
      | done
      | eapply Forall_impl; [exact HQ | apply not_node_nor_hotel_not_node] ].
Qed.

End RoutingAfterFlight.

(** A combined search in two worlds: in the first the flight provider is
    down and the flight step arms the fallback, so the hotel step is not
    entered; in the second the flight step finds nothing and leaves the
    flag alone, so the hotel step and synthesis follow. *)
Lemma routing_after_flight_step_witness :
  (visited (log (run_from world_outage 2 NFlightTool state_both empty_sys).2)
   = [NFlightTool; NWebSearchFallback]
   ∧ hotel_calls
       (log (run_from world_outage 2 NFlightTool state_both empty_sys).2)
     = [])
  ∧ visited (log (run_from world_hotels 2 NFlightTool state_both empty_sys).2)
    = [NFlightTool; NHotelTool; NSynthesis].
Proof.
  split.
  - destruct (routing_after_flight_step world_outage 0 state_both empty_sys)
      as (u & σ1 & Hf & _ & Harmed & _).
    vm_compute in Hf. injection Hf as <- <-.
    destruct (Harmed eq_refl) as (_ & _ & Hv & Hh). by split.
  - destruct (routing_after_flight_step world_hotels 0 state_both empty_sys)
      as (u & σ1 & Hf & _ & _ & Hplain).
    vm_compute in Hf. injection Hf as <- <-.
    destruct (Hplain eq_refl eq_refl both_bom_del eq_refl eq_refl)
      as (_ & _ & Hv). exact Hv.
Defined.


Section ResponseOfRuns.

Variable w : World.

Lemma run_clarify_response fuel state σ final σ' :
  run_from w fuel NClarify state σ = (Returns final, σ') →
  has_response final.
Proof.
  rewrite run_from_terminal_eq by done. cbn [run_node ret].
  intros [= <- _].
  destruct (clarify_node_starts state) as (text & -> & Hst).
  apply response_update_has_response. by eapply starts_with_nonempty.
Qed.

Lemma run_synthesis_response fuel state σ final σ' :
  run_from w fuel NSynthesis state σ = (Returns final, σ') →
  has_response final.
Proof.
  rewrite run_from_terminal_eq by done. cbn [run_node].
  destruct (synthesis_node w state (logged (EvNode NSynthesis) σ))
    as [[u | e] σ1] eqn:Hs; [| done].
  intros [= <- _].
  destruct (synthesis_node_responds _ _ _ _ _ Hs) as (text & -> & Hne).
  by apply response_update_has_response.
Qed.

Lemma run_fallback_response fuel state σ final σ' :
  no_flights state = true → use_web_search state = true →
  run_from w fuel NWebSearchFallback state σ = (Returns final, σ') →
  has_response final.
Proof.
  intros Hnf Ha. rewrite run_from_terminal_eq by done. cbn [run_node].
  destruct (web_search_fallback_node_responds w state
              (logged (EvNode NWebSearchFallback) σ) Hnf Ha)
    as (text & σ1 & -> & Hne).
  intros [= <- _]. by apply response_update_has_response.
Qed.

Lemma run_hotel_response fuel state σ final σ' :
  run_from w (S fuel) NHotelTool state σ = (Returns final, σ') →
  has_response final.
Proof.
  destruct (run_spec_total _ _ _ (logged (EvNode NHotelTool) σ)
              (hotel_tool_spec w state)) as (u & σ1 & _ & Hh & _).
  rewrite (run_from_returns _ _ _ _ _ u σ1) by exact Hh. cbn [next_node].
  apply run_synthesis_response.
Qed.

Lemma run_flight_response fuel state σ final σ' :
  use_web_search state = false →
  run_from w (S (S fuel)) NFlightTool state σ = (Returns final, σ') →
  has_response final.
Proof.
  intros Hoff.
  destruct (run_spec_total _ _ _ (logged (EvNode NFlightTool) σ)
              (flight_tool_spec w state)) as (u & σ1 & _ & Hf & _).
  rewrite (run_from_returns _ _ _ _ _ u σ1) by exact Hf. cbn [next_node].
  destruct (flight_tool_armed w _ _ _ _ Hf) as [_ [Hnone | [Harm Hfl]]].
  - unfold flight_tool_router.
    assert (use_web_search (apply_update state u) = false) as ->
      by (cbn; by rewrite Hnone).
    destruct (intent (apply_update state u)) as [i |]; cbn [obind];
      [| apply run_synthesis_response].
    destruct (intent_kind i) as [kind |]; cbn [obind]; [| done].
    destruct (py_eq kind (PStr "both")); cbn [obind];
      [apply run_hotel_response | apply run_synthesis_response].
  - unfold flight_tool_router.
    assert (use_web_search (apply_update state u) = true) as Ha
      by (cbn; by rewrite Harm).
    rewrite Ha. cbn [obind]. apply run_fallback_response; [| done].
    unfold no_flights. cbn. by rewrite Hfl.
Qed.

(** A run of the graph that starts with the fallback flag off and returns
    has set a response, and the response is not the empty text: whichever
    path it took, the last node wrote one. *)
Theorem returned_run_has_response
    (state : AgentState) (σ : Sys) (final : AgentState) (σ' : Sys) :
  use_web_search state = false →
  agent_invoke w state σ = (Returns final, σ') →
  has_response final.
Proof.
  intros Hoff. unfold agent_invoke, recursion_limit.
  destruct (intent_node w state (logged (EvNode NIntent) σ))
    as [[u | e] σ1] eqn:Hin.
  2:{ rewrite (run_from_raises _ _ _ _ _ e σ1) by exact Hin. done. }
  rewrite (run_from_returns _ _ _ _ _ u σ1) by exact Hin. cbn [next_node].
  destruct (intent_node_returns _ _ _ _ _ Hin) as (i & ->).
  destruct (router (apply_update state (intent_update i))) as [n |] eqn:Hr;
    cbn [obind]; [| done].
  destruct n.
  - unfold router in Hr. cbn in Hr. destruct (intent_kind i); [| done].
    cbn in Hr. repeat case_match; done.
  - by apply run_flight_response.
  - apply run_hotel_response.
  - apply run_clarify_response.
  - apply run_synthesis_response.
  - unfold router in Hr. cbn in Hr. destruct (intent_kind i); [| done].
    cbn in Hr. repeat case_match; done.
Qed.

End ResponseOfRuns.

Lemma returned_run_has_response_witness :
  ∃ final σ',
    agent_invoke world_outage
      (initial_state "Book a flight from BOM to DEL on 2026-12-01" [])
      empty_sys = (Returns final, σ')
    ∧ visited (log σ') = [NIntent; NFlightTool; NWebSearchFallback]
    ∧ has_response final.
Proof.
  eexists _, _. split; [vm_compute; reflexivity |].
  split; [vm_compute; reflexivity |].
  eapply (returned_run_has_response world_outage
            (initial_state "Book a flight from BOM to DEL on 2026-12-01" [])
            empty_sys); [reflexivity |].
  vm_compute. reflexivity.
Defined.

(** ** The hotel step: no offers, and a call that fails outright *)

Section HotelStep.

Variable w : World.

Lemma gathered_cons i travelers h l :
  gathered w i travelers (h :: l)
  = offers_added w i travelers h ++ gathered w i travelers l.
Proof. reflexivity. Qed.

Lemma gathered_nil i travelers l :
  (∀ h, h ∈ l → offers_added w i travelers h = []) →
  gathered w i travelers l = [].
Proof.
  induction l as [| h l IH]; intros Hl; [done |].
  rewrite gathered_cons, Hl by left. cbn. apply IH.
  intros h' Hh'. apply Hl. by right.
Qed.

(** The loop over a first part of the identifiers whose calls raise nothing
    but provider errors and gather fewer than five offers: it goes on with
    the rest. *)
Lemma offers_loop_prefix i travelers before more valid_offers σ :
  i !! "travelers" = Some travelers →
  (∀ h msg, h ∈ before → offers_answer w i travelers h ≠ Crashed msg) →
  (length (valid_offers ++ gathered w i travelers before) < 5)%nat →
  offers_loop w i (before ++ more) valid_offers σ
  = offers_loop w i more (valid_offers ++ gathered w i travelers before)
      {| cache := cache σ;
         log := log σ ++ flat_map (iteration_events w i travelers) before |}.
Proof.
  intros Ht. revert valid_offers σ.
  induction before as [| h before IH]; intros valid_offers σ Hok Hlen.
  - cbn. rewrite !app_nil_r. by destruct σ.
  - cbn [app offers_loop]. rewrite Ht. unfold bind at 1. cbn [emit].
    rewrite gathered_cons in Hlen. rewrite gathered_cons. cbn [flat_map].
    assert (∀ h' msg, h' ∈ before →
              offers_answer w i travelers h' ≠ Crashed msg) as Hok'
      by (intros h' msg Hin; apply Hok; by right).
    pose proof (Hok h) as Hh.
    unfold offers_added, iteration_events, offers_answer in *.
    destruct (search_hotel_offers w h travelers (py_get i "check_in")
                (py_get i "check_out")) as [offer_data | e | msg].
    + destruct offer_data as [| o os].
      * rewrite IH; [| done | exact Hlen].
        cbn [app log cache]. by rewrite <- app_assoc.
      * rewrite app_assoc in Hlen.
        assert ((5 <=? length (valid_offers ++ o :: os))%nat = false) as ->.
        { apply Nat.leb_gt. rewrite length_app in Hlen. lia. }
        rewrite IH by done. cbn. by rewrite <- !app_assoc.
    + change (py_contains "429" (re_str e)) with (rate_limited e).
      rewrite app_nil_l in Hlen.
      destruct (rate_limited e); unfold bind at 1; cbn [emit ret];
        (rewrite IH by done); cbn; by rewrite <- !app_assoc.
    + exfalso. by eapply (Hh msg); [left |].
Qed.

(** When no hotel of the first thirty has an offer (an empty answer or a
    provider error for each identifier), every identifier is asked for, and
    the step returns the first five hotels of the city as entries without
    offers, with a response that says how many. *)
Theorem hotel_without_offers_lists_first_five
    (state : AgentState) (i : gmap string pyval) (travelers : pyval)
    (hotels_data : list (gmap string json)) (σ : Sys) :
  intent state = Some i →
  truthy (py_get i "destination") = true →
  truthy (py_get i "check_in") = true →
  truthy (py_get i "check_out") = true →
  i !! "travelers" = Some travelers →
  search_hotels_by_city w (py_get i "destination") = Ok hotels_data →
  hotel_ids hotels_data ≠ [] →
  (∀ h, h ∈ hotel_ids hotels_data →
        offers_added w i travelers h = []
        ∧ ∀ msg, offers_answer w i travelers h ≠ Crashed msg) →
  ∃ σ',
    hotel_tool w state σ
    = (Returns
         {| upd_intent := None; upd_flights := None;
            upd_hotels := Some (map basic_hotel (take 5 hotels_data));
            upd_response :=
              Some (Some ("Found " +:+ pretty (length (take 5 hotels_data))
                          +:+ " hotels in " +:+ py_str (py_get i "destination")
                          +:+ ", but no pricing/availability for your dates. Here are the hotels:"));
            upd_use_web_search := None; upd_search_query := None |}, σ')
    ∧ offer_requests (log σ') = offer_requests (log σ) ++ hotel_ids hotels_data
    ∧ (length (map basic_hotel (take 5 hotels_data)) ≤ 5)%nat.
Proof.
  intros Hi Hd Hci Hco Ht Hs Hids Hnone.
  unfold hotel_tool. rewrite Hi, Hd, Hci, Hco. cbn [negb orb].
  unfold try_except, hotel_search. unfold bind at 1. cbn [emit]. rewrite Hs.
  destruct hotels_data as [| h0 hs]; [done |].
  destruct (hotel_ids (h0 :: hs)) as [| id ids] eqn:Hl; [done |].
  pose proof (offers_loop_prefix i travelers (id :: ids) [] []
                {| cache := cache σ;
                   log := log σ ++ [EvHotelsByCity (py_get i "destination")] |}
                Ht) as Hloop.
  rewrite app_nil_r in Hloop. unfold bind.
  rewrite Hloop;
    [| intros h msg Hin; by apply Hnone
     | rewrite (gathered_nil i travelers (id :: ids))
         by (intros h Hin; by apply Hnone); cbn; lia ].
  rewrite (gathered_nil i travelers (id :: ids))
    by (intros h Hin; by apply Hnone).
  cbn [app offers_loop ret].
  assert (length (map basic_hotel (take 5 (h0 :: hs)))
          = length (take 5 (h0 :: hs))) as Hlb by apply length_map.
  rewrite <- Hlb.
  remember (map basic_hotel (take 5 (h0 :: hs))) as basic eqn:Hb.
  destruct basic as [| b bs]; [by cbn in Hlb |].
  eexists. split; [reflexivity |]. cbn [log]. split.
  - rewrite <- app_assoc, !offer_requests_app, offer_requests_iterations.
    done.
  - rewrite Hlb, length_take. lia.
Qed.

(** A per-hotel call that raises something other than a provider error ends
    the whole search: the step answers "Unexpected hotel error: " and the
    text of the exception with no hotels, and the offers gathered from the
    hotels before it (fewer than five) are not returned. *)
Theorem hotel_call_crash_discards_offers
    (state : AgentState) (i : gmap string pyval) (travelers : pyval)
    (hotels_data : list (gmap string json)) (before after : list json)
    (h : json) (msg : string) (σ : Sys) :
  intent state = Some i →
  truthy (py_get i "destination") = true →
  truthy (py_get i "check_in") = true →
  truthy (py_get i "check_out") = true →
  i !! "travelers" = Some travelers →
  search_hotels_by_city w (py_get i "destination") = Ok hotels_data →
  hotel_ids hotels_data = before ++ h :: after →
  (∀ h' msg', h' ∈ before → offers_answer w i travelers h' ≠ Crashed msg') →
  (length (gathered w i travelers before) < 5)%nat →
  offers_answer w i travelers h = Crashed msg →
  ∃ σ',
    hotel_tool w state σ
    = (Returns
         {| upd_intent := None; upd_flights := None; upd_hotels := Some [];
            upd_response := Some (Some ("Unexpected hotel error: " +:+ msg));
            upd_use_web_search := None; upd_search_query := None |}, σ')
    ∧ offer_requests (log σ') = offer_requests (log σ) ++ before ++ [h].
Proof.
  intros Hi Hd Hci Hco Ht Hs Hids Hok Hlen Hcrash.
  unfold hotel_tool. rewrite Hi, Hd, Hci, Hco. cbn [negb orb].
  unfold try_except, hotel_search. unfold bind at 1. cbn [emit]. rewrite Hs.
  destruct hotels_data as [| h0 hs].
  { by destruct before. }
  rewrite Hids. destruct (before ++ h :: after) as [| id ids] eqn:Hl.
  { by destruct before. }
  rewrite <- Hl. unfold bind.
  rewrite (offers_loop_prefix i travelers before (h :: after) [] _ Ht Hok)
    by exact Hlen.
  cbn [offers_loop]. rewrite Ht. unfold bind. cbn [emit].
  unfold offers_answer in Hcrash. rewrite Hcrash. cbn.
  eexists. split; [reflexivity |]. cbn [log].
  rewrite <- !app_assoc, !offer_requests_app, offer_requests_iterations.
  done.
Qed.

End HotelStep.

Lemma hotel_without_offers_lists_first_five_witness :
  ∃ u σ',
    hotel_tool world_no_offers state_hotel_del empty_sys = (Returns u, σ')
    ∧ upd_hotels u = Some (map basic_hotel hotels_in_del)
    ∧ upd_response u
      = Some (Some "Found 4 hotels in DEL, but no pricing/availability for your dates. Here are the hotels:")
    ∧ offer_requests (log σ') = [JStr "H1"; JStr "H2"; JStr "H3"].
Proof.
  assert (hotel_ids hotels_in_del ≠ []) as Hids by (vm_compute; discriminate).
  assert (∀ h, h ∈ hotel_ids hotels_in_del →
            offers_added world_no_offers hotel_del (PInt 1) h = []
            ∧ ∀ msg, offers_answer world_no_offers hotel_del (PInt 1) h
                     ≠ Crashed msg) as Hnone.
  { intros h _. unfold offers_added, offers_answer. cbn.
    unfold no_offers_in_del. by destruct (j_is_str h "H1"). }
  destruct (hotel_without_offers_lists_first_five world_no_offers
              state_hotel_del hotel_del (PInt 1) hotels_in_del empty_sys
              eq_refl eq_refl eq_refl eq_refl eq_refl eq_refl Hids Hnone)
    as (σ' & Hrun & Hreq & _).
  eexists _, σ'. split; [exact Hrun |].
  split; [reflexivity |]. split; [vm_compute; reflexivity |].
  rewrite Hreq. vm_compute. reflexivity.
Defined.

Lemma hotel_call_crash_discards_offers_witness :
  ∃ σ',
    hotel_tool world_hotel_crash state_hotel_del empty_sys
    = (Returns (hotel_failure
                  "Unexpected hotel error: Connection reset by peer"), σ')
    ∧ gathered world_hotel_crash hotel_del (PInt 1) [JStr "H1"]
      = [offer_usd_100]
    ∧ offer_requests (log σ') = [JStr "H1"; JStr "H2"].
Proof.
  assert (∀ h' msg', h' ∈ [JStr "H1"] →
            offers_answer world_hotel_crash hotel_del (PInt 1) h'
            ≠ Crashed msg') as Hok.
  { intros h' msg' Hin%list_elem_of_singleton. by subst h'. }
  assert (length (gathered world_hotel_crash hotel_del (PInt 1) [JStr "H1"])
          < 5)%nat as Hlen by (vm_compute; lia).
  destruct (hotel_call_crash_discards_offers world_hotel_crash
              state_hotel_del hotel_del (PInt 1) hotels_in_del
              [JStr "H1"] [JStr "H3"] (JStr "H2") "Connection reset by peer"
              empty_sys eq_refl eq_refl eq_refl eq_refl eq_refl eq_refl
              eq_refl Hok Hlen eq_refl) as (σ' & Hrun & Hreq).
  exists σ'. split; [exact Hrun |]. split; [reflexivity |]. exact Hreq.
Defined.

(** ** The last resorts of the fallback cascade *)

Lemma omap_length_le {A B : Type} (f : A → option B) (l : list A) :
  (length (omap f l) ≤ length l)%nat.
Proof.
  induction l as [| x l IH]; [done |]. cbn.
  destruct (f x); cbn; lia.
Qed.

Lemma ddg_hits_text blocks :
  Forall (λ info, ∃ s, hit_snippet info = PStr s) (ddg_hits blocks).
Proof.
  induction blocks as [| b blocks IH]; [constructor |].
  unfold ddg_hits in *. cbn.
  destruct (title_elem b) as [[title href] |]; cbn; [| exact IH].
  constructor; [by eexists | exact IH].
Qed.

Lemma render_hits_text idx hits response_text :
  Forall (λ info, ∃ s, hit_snippet info = PStr s) hits →
  render_hits idx hits response_text
  = Returns (response_text +:+ entries_text idx hits).
Proof.
  intros Hwf. revert idx response_text.
  induction Hwf as [| info l [s Hs] _ IH]; intros idx response_text;
    cbn [render_hits entries_text].
  - by rewrite string_app_nil_r.
  - assert (snippet_of info = Returns (shown_snippet info)) as ->.
    { unfold snippet_of, shown_snippet. rewrite Hs. cbn.
      by case_bool_decide. }
    rewrite IH. by rewrite string_app_assoc.
Qed.

Section LastResorts.

Variable w : World.

(** When every JSON instance fails, the HTML backend is asked next, after
    the four of them and in that order. If it answers, the response is built
    from its hits alone (at most five), with the same header, entries and
    footer; if it fails too, the response is the fixed message of
    [get_fallback_message], computed after those five requests. *)
Theorem fallback_after_all_instances_fail
    (state : AgentState) (q : string) (σ : Sys) :
  no_flights state = true →
  use_web_search state = true →
  search_query state = Some q →
  q ≠ "" →
  (∀ u, u ∈ searxng_instances → backend_fails w q u) →
  let σ1 :=
    {| cache := cache σ;
       log := log σ ++ map EvGet searxng_instances ++ [EvPost ddg_url] |} in
  backends_tried (log σ1)
  = backends_tried (log σ) ++ searxng_instances ++ [ddg_url]
  ∧ (∀ hits, ddg_answers w q hits →
       web_search_fallback_node w state σ
       = (Returns (response_update
                     (fallback_header q +:+ entries_text 1 hits
                      +:+ fallback_footer)), σ1)
       ∧ (length hits ≤ 5)%nat)
  ∧ (ddg_fails w q →
     ∃ text σ',
       get_fallback_message w state σ1 = (Returns text, σ')
       ∧ web_search_fallback_node w state σ
         = (Returns (response_update text), σ')).
Proof.
  intros Hnf Ha Hq Hne Hfail σ1.
  assert (searxng_loop w q searxng_instances σ
          = (Returns None,
             {| cache := cache σ;
                log := log σ ++ map EvGet searxng_instances |})) as Hloop.
  { rewrite <- (app_nil_r searxng_instances) at 1.
    by rewrite (searxng_loop_skips w q _ [] σ Hfail). }
  assert (web_search_fallback_node w state σ
            = (let* found := ddg_search w q in
               match found with
               | Some response_text => ret (response_update response_text)
               | None =>
                   let* text := get_fallback_message w state in
                   ret (response_update text)
               end)
                {| cache := cache σ;
                   log := log σ ++ map EvGet searxng_instances |}) as Hnode.
  { unfold web_search_fallback_node. rewrite Hnf, Ha, Hq.
    cbn [andb default]. rewrite bool_decide_false by done.
    cbv beta iota zeta. change (id q) with q.
    unfold bind at 1. by rewrite Hloop. }
  split; [| split].
  - unfold σ1. cbn [log].
    rewrite app_assoc, !backends_tried_app, backends_tried_gets.
    by rewrite <- app_assoc.
  - intros hits (blocks & Hpost & Hhits & Hnonempty).
    split.
    2:{ rewrite <- Hhits. unfold ddg_hits.
        etrans; [apply omap_length_le |]. rewrite length_take. lia. }
    rewrite Hnode. unfold bind, ddg_search, bind. cbn [emit].
    rewrite Hpost. cbn. rewrite Hhits.
    destruct hits as [| info hits]; [done |].
    unfold render_fallback.
    rewrite render_hits_text by (rewrite <- Hhits; apply ddg_hits_text).
    unfold ret, σ1. cbn. by rewrite string_app_assoc, <- app_assoc.
  - intros Hddg.
    assert (ddg_search w q
              {| cache := cache σ;
                 log := log σ ++ map EvGet searxng_instances |}
            = (Returns None, σ1)) as Hd.
    { unfold ddg_search, bind. cbn [emit log cache]. unfold σ1.
      rewrite <- app_assoc.
      destruct (ddg_post w q) as [| status_code [blocks |]] eqn:Hpost;
        try reflexivity.
      destruct (status_code =? 200) eqn:Hst; [| reflexivity].
      apply Z.eqb_eq in Hst. subst status_code.
      destruct (ddg_hits (take 5 blocks)) as [| info l] eqn:Hh;
        [reflexivity |].
      exfalso. apply (Hddg (info :: l)). by exists blocks. }
    destruct (get_fallback_message_starts w state σ1) as (text & σ' & Hm & _).
    exists text, σ'. split; [exact Hm |].
    rewrite Hnode. unfold bind at 1. rewrite Hd. unfold bind. by rewrite Hm.
Qed.

End LastResorts.

Lemma fallback_after_all_instances_fail_witness :
  backends_tried
    (log empty_sys ++ map EvGet searxng_instances ++ [EvPost ddg_url])
  = searxng_instances ++ [ddg_url]
  ∧ ∃ text σ',
      web_search_fallback_node world_outage state_fallback empty_sys
      = (Returns (response_update text), σ').
Proof.
  assert ("flights from Mumbai to Delhi on December 01, 2026 price" ≠ "")
    as H2 by discriminate.
  assert (∀ u, u ∈ searxng_instances →
            backend_fails world_outage
              "flights from Mumbai to Delhi on December 01, 2026 price" u)
    as H4.
  { intros u _ results (Hget & _). vm_compute in Hget. discriminate. }
  assert (ddg_fails world_outage
            "flights from Mumbai to Delhi on December 01, 2026 price") as H5.
  { intros hits (blocks & Hpost & _). vm_compute in Hpost. discriminate. }
  destruct (fallback_after_all_instances_fail world_outage state_fallback
              _ empty_sys eq_refl eq_refl eq_refl H2 H4)
    as (Hlog & _ & Hstatic).
  split; [exact Hlog |].
  destruct (Hstatic H5) as (text & σ' & _ & Hrun).
  by exists text, σ'.
Defined.

(** ** What becomes of the texts the search steps write *)

Section EmptySearch.

Variable w : World.

Lemma web_search_fallback_node_frame state :
  run_spec not_node_nor_hotel
    (λ u, upd_intent u = None ∧ upd_use_web_search u = None) never
    (web_search_fallback_node w state).
Proof.
  unfold web_search_fallback_node.
  repeat first
    [ run_spec_step
    | run_spec_use searxng_loop_spec
    | run_spec_use ddg_search_spec
    | run_spec_use get_fallback_message_spec ];
    done.
Qed.

Lemma run_clarify_intent fuel state σ final σ' :
  run_from w fuel NClarify state σ = (Returns final, σ') →
  intent final = intent state.
Proof.
  rewrite run_from_terminal_eq by done. cbn [run_node ret].
  intros [= <- _].
  by destruct (clarify_node_starts state) as (text & -> & _).
Qed.

Lemma run_synthesis_empty fuel state σ final σ' :
  run_from w fuel NSynthesis state σ = (Returns final, σ') →
  intent final = intent state
  ∧ (no_flights final = true →
     hotels final = None ∨ hotels final = Some [] →
     response final = Some no_results).
Proof.
  rewrite run_from_terminal_eq by done. cbn [run_node].
  destruct (synthesis_node w state (logged (EvNode NSynthesis) σ))
    as [[u | e] σ1] eqn:Hs; [| done].
  intros [= <- _].
  destruct (synthesis_node_responds _ _ _ _ _ Hs) as (text & -> & _).
  split; [done |]. intros Hf Hh.
  rewrite (synthesis_node_no_results w state _ Hf Hh) in Hs.
  by injection Hs as <- _.
Qed.

Lemma run_hotel_empty fuel state σ final σ' :
  run_from w (S fuel) NHotelTool state σ = (Returns final, σ') →
  intent final = intent state
  ∧ (no_flights final = true →
     hotels final = None ∨ hotels final = Some [] →
     response final = Some no_results).
Proof.
  destruct (run_spec_total _ _ _ (logged (EvNode NHotelTool) σ)
              (hotel_tool_spec w state)) as (u & σ1 & _ & Hh & Hu & _).
  rewrite (run_from_returns _ _ _ _ _ u σ1) by exact Hh. cbn [next_node].
  intros [Hi He]%run_synthesis_empty. split; [| exact He].
  rewrite Hi. cbn. by rewrite Hu.
Qed.

Lemma run_flight_empty fuel state σ final σ' :
  run_from w (S (S fuel)) NFlightTool state σ = (Returns final, σ') →
  intent final = intent state
  ∧ (use_web_search final = false →
     no_flights final = true →
     hotels final = None ∨ hotels final = Some [] →
     response final = Some no_results).
Proof.
  destruct (run_spec_total _ _ _ (logged (EvNode NFlightTool) σ)
              (flight_tool_spec w state)) as (u & σ1 & _ & Hf & Hu & _).
  rewrite (run_from_returns _ _ _ _ _ u σ1) by exact Hf. cbn [next_node].
  assert (intent (apply_update state u) = intent state) as Hsame
    by (cbn; by rewrite Hu).
  unfold flight_tool_router.
  destruct (use_web_search (apply_update state u)) eqn:Ha; cbn [obind].
  - rewrite run_from_terminal_eq by done. cbn [run_node].
    destruct (run_spec_total _ _ _ (logged (EvNode NWebSearchFallback) σ1)
                (web_search_fallback_node_frame (apply_update state u)))
      as (v & σ2 & _ & Hv & [Hvi Hva] & _).
    rewrite Hv. intros [= <- _]. split.
    + rewrite <- Hsame. cbn. by rewrite Hvi.
    + intros Hoff. exfalso. cbn in Hoff. rewrite Hva in Hoff. cbn in Hoff.
      cbn in Ha. congruence.
  - destruct (intent (apply_update state u)) as [i |] eqn:Hi; cbn [obind].
    + destruct (intent_kind i) as [kind |]; cbn [obind]; [| done].
      destruct (py_eq kind (PStr "both")); cbn [obind].
      * intros [Hi' He]%run_hotel_empty. split; [congruence | by intros _].
      * intros [Hi' He]%run_synthesis_empty.
        split; [congruence | by intros _].
    + intros [Hi' He]%run_synthesis_empty.
      split; [congruence | by intros _].
Qed.

(** A run whose validated intent is one of the searches or a follow-up, and
    which ends without flights, without hotels and with the fallback flag
    off, answers the fixed no-results text: whatever the flight step or the
    hotel step wrote as the response (a missing field, a provider error, an
    unexpected error, no hotels in the city) is replaced by it. *)
Theorem empty_search_answers_no_results
    (state : AgentState) (σ : Sys) (final : AgentState) (σ' : Sys)
    (i : gmap string pyval) (kind : string) :
  agent_invoke w state σ = (Returns final, σ') →
  intent final = Some i →
  i !! "intent" = Some (PStr kind) →
  kind ∈ ["flight_search"; "hotel_search"; "both"; "follow_up"] →
  use_web_search final = false →
  no_flights final = true →
  hotels final = None ∨ hotels final = Some [] →
  response final = Some no_results.
Proof.
  intros Hrun Hi Hk Hkind Hoff Hnf Hnh. revert Hrun.
  unfold agent_invoke, recursion_limit.
  destruct (intent_node w state (logged (EvNode NIntent) σ))
    as [[u | e] σ1] eqn:Hin.
  2:{ by rewrite (run_from_raises _ _ _ _ _ e σ1) by exact Hin. }
  rewrite (run_from_returns _ _ _ _ _ u σ1) by exact Hin. cbn [next_node].
  destruct (intent_node_returns _ _ _ _ _ Hin) as (i0 & ->).
  set (st1 := apply_update state (intent_update i0)).
  assert (intent st1 = Some i0) as Hi0 by reflexivity.
  destruct (router st1) as [n |] eqn:Hr; cbn [obind]; [| done].
  assert (intent final = intent st1 → n ≠ NClarify ∧ n ≠ NIntent
                                      ∧ n ≠ NWebSearchFallback) as Hn.
  { rewrite Hi, Hi0. intros [= <-]. revert Hr. unfold router.
    rewrite Hi0. unfold intent_kind. rewrite Hk.
    apply elem_of_cons in Hkind as [-> | Hkind];
      [by intros [= <-] |].
    apply elem_of_cons in Hkind as [-> | Hkind];
      [by intros [= <-] |].
    apply elem_of_cons in Hkind as [-> | Hkind];
      [by intros [= <-] |].
    apply list_elem_of_singleton in Hkind as ->. by intros [= <-]. }
  destruct n.
  - unfold router in Hr. rewrite Hi0 in Hr.
    destruct (intent_kind i0); [| done]. repeat case_match; done.
  - intros [Hi' He]%run_flight_empty. by apply He.
  - intros [Hi' He]%run_hotel_empty. by apply He.
  - intros Hi'%run_clarify_intent. by destruct (Hn Hi') as (? & _).
  - intros [Hi' He]%run_synthesis_empty. by apply He.
  - unfold router in Hr. rewrite Hi0 in Hr.
    destruct (intent_kind i0); [| done]. repeat case_match; done.
Qed.

End EmptySearch.

Lemma empty_search_answers_no_results_witness :
  fst (hotel_tool world_hotel_down state_hotel_del empty_sys)
  = Returns (hotel_failure "Hotel search error: [503]")
  ∧ ∃ final σ',
      agent_invoke world_hotel_down
        (initial_state "Find a hotel in Delhi from 1 to 3 December" [])
        empty_sys = (Returns final, σ')
      ∧ visited (log σ') = [NIntent; NHotelTool; NSynthesis]
      ∧ response final = Some no_results.
Proof.
  split; [vm_compute; reflexivity |].
  eexists _, _. split; [vm_compute; reflexivity |].
  split; [vm_compute; reflexivity |].
  eapply (empty_search_answers_no_results world_hotel_down
            (initial_state "Find a hotel in Delhi from 1 to 3 December" [])
            empty_sys _ _ hotel_del "hotel_search").
  - vm_compute. reflexivity.
  - reflexivity.
  - reflexivity.
  - in_list.
  - reflexivity.
  - reflexivity.
  - by right.
Defined.

(** ** Sessions and the HTTP handlers *)

Lemma given_true (s : option string) :
  given s = true → ∃ text, s = Some text ∧ text ≠ "".
Proof.
  destruct s as [text |]; [| done]. cbn. case_bool_decide; [done |].
  by exists text.
Qed.

Lemma get_or_create_session_cases (env : Env) (session_id : option string)
    (sessions : gmap string Session.t) :
  ∃ session sessions1,
    SessionService.get_or_create_session (uuid4 env) (now_isoformat env)
      session_id sessions = (session, sessions1)
    ∧ Session.conversation_history session = prior_history session_id sessions
    ∧ sessions1 !! served_id env session_id = Some session
    ∧ (∀ k, k ≠ served_id env session_id → sessions1 !! k = sessions !! k)
    ∧ (keyed_by_id sessions →
       Session.session_id session = served_id env session_id).
Proof.
  unfold SessionService.get_or_create_session, prior_history, served_id.
  destruct (given session_id) eqn:Hg.
  - destruct (sessions !! default "" session_id) as [session |] eqn:Hs.
    + exists session, sessions. repeat split; try done.
      intros Hk. by apply Hk.
    + eexists _, _. split; [reflexivity |]. split; [done |].
      split; [by rewrite lookup_insert_eq |].
      split; [| done]. intros k Hk. by rewrite lookup_insert_ne.
  - eexists _, _. split; [reflexivity |]. split; [done |].
    split; [by rewrite lookup_insert_eq |].
    split; [| done]. intros k Hk. by rewrite lookup_insert_ne.
Qed.

Lemma accepted_passes (env : Env) (req : QueryRequest.t) (q : string) :
  accepted env req q →
  given (QueryRequest.session_id req)
  && negb (validate_session_id env
             (default "" (QueryRequest.session_id req))) = false.
Proof.
  intros [_ Hid]. destruct (given (QueryRequest.session_id req)) eqn:Hg;
    [| done].
  unfold validate_session_id. rewrite (Hid eq_refl).
  by case_bool_decide.
Qed.

Section Requests.

Variable env : Env.
Variable w : World.

(** A run from the entry point with the flag off and room for three further
    nodes, when it returns, has set a response. *)
Lemma run_intent_response fuel state σ final σ' :
  use_web_search state = false →
  run_from w (S (S (S fuel))) NIntent state σ = (Returns final, σ') →
  has_response final.
Proof.
  intros Hoff.
  destruct (intent_node w state (logged (EvNode NIntent) σ))
    as [[u | e] σ1] eqn:Hin.
  2:{ by rewrite (run_from_raises _ _ _ _ _ e σ1) by exact Hin. }
  rewrite (run_from_returns _ _ _ _ _ u σ1) by exact Hin. cbn [next_node].
  destruct (intent_node_returns _ _ _ _ _ Hin) as (i & ->).
  destruct (router (apply_update state (intent_update i))) as [n |] eqn:Hr;
    cbn [obind]; [| done].
  destruct n.
  - unfold router in Hr. cbn in Hr. destruct (intent_kind i); [| done].
    cbn in Hr. repeat case_match; done.
  - by apply run_flight_response.
  - apply run_hotel_response.
  - apply run_clarify_response.
  - apply run_synthesis_response.
  - unfold router in Hr. cbn in Hr. destruct (intent_kind i); [| done].
    cbn in Hr. repeat case_match; done.
Qed.

(** [query_agent] never answers 400. Whatever its body raises leaves the
    handler as an [HTTPException] with status 500: a query the validator
    rejects and a malformed session identifier, which the body raises with
    status 400, are answered with status 500 and the text of that exception
    after "Error: ". In both cases nothing is stored and no session is
    created. *)
Theorem query_agent_raises_only_500 (req : QueryRequest.t) (srv : Server) :
  (∀ e srv', query_agent env w req srv = (inr e, srv') →
             HTTPException.status_code e = 500)
  ∧ (∀ text, sanitize_query env (QueryRequest.query req) = inr text →
       query_agent env w req srv = (inr (rewrapped env 400 text), srv))
  ∧ (∀ q, sanitize_query env (QueryRequest.query req) = inl q →
       given (QueryRequest.session_id req) = true →
       is_uuid env (default "" (QueryRequest.session_id req)) = false →
       query_agent env w req srv
       = (inr (rewrapped env 400 "Invalid session ID format"), srv)).
Proof.
  split; [| split].
  - intros e srv'. unfold query_agent.
    destruct (query_agent_try env w req srv) as [[r | e'] srv1]; [done |].
    by intros [= <- _].
  - intros text Hs. unfold query_agent, query_agent_try. by rewrite Hs.
  - intros q Hs Hg Hid. unfold query_agent, query_agent_try.
    rewrite Hs, Hg. unfold validate_session_id. rewrite Hid.
    destruct (given_true _ Hg) as (sid & -> & Hne). cbn [from_option id].
    by rewrite bool_decide_false by done.
Qed.

(** An accepted request whose run of the agent returns is answered, never
    with "Agent execution failed": the run has set a non-empty response. The
    answer is that response; the request is served under the identifier it
    gave, or the fresh one; the conversation returned is the one stored
    under that identifier before, followed by the user's query and the
    answer; the session read back under that identifier holds exactly this
    conversation and the intent, flights and hotels of the run; the other
    sessions are untouched. *)
Theorem query_agent_records_turn
    (req : QueryRequest.t) (srv : Server) (q : string)
    (final : AgentState) (σ' : Sys) :
  accepted env req q →
  keyed_by_id (sessions srv) →
  agent_invoke w
    (initial_state q
       (prior_history (QueryRequest.session_id req) (sessions srv)
        ++ [Message "user" q]))
    (sys srv) = (Returns final, σ') →
  ∃ answer r srv' session,
    query_agent env w req srv = (inl r, srv')
    ∧ response final = Some answer ∧ answer ≠ ""
    ∧ r = {| QueryResponse.answer := answer;
             QueryResponse.session_id :=
               served_id env (QueryRequest.session_id req);
             QueryResponse.intent := intent final;
             QueryResponse.used_flight_api := any_results (flights final);
             QueryResponse.used_hotel_api := any_results (hotels final);
             QueryResponse.conversation_history :=
               prior_history (QueryRequest.session_id req) (sessions srv)
               ++ [Message "user" q; Message "assistant" answer] |}
    ∧ get_session (QueryResponse.session_id r) srv' = inl session
    ∧ Session.session_id session = QueryResponse.session_id r
    ∧ Session.conversation_history session
      = QueryResponse.conversation_history r
    ∧ Session.last_intent session = intent final
    ∧ Session.last_flights session = flights final
    ∧ Session.last_hotels session = hotels final
    ∧ (∀ k, k ≠ QueryResponse.session_id r →
            sessions srv' !! k = sessions srv !! k)
    ∧ sys srv' = σ'.
Proof.
  intros Hacc Hkeyed Hrun.
  destruct (run_intent_response 22 (initial_state q _) _ _ _ eq_refl Hrun)
    as (answer & Hresp & Hne).
  destruct (get_or_create_session_cases env (QueryRequest.session_id req)
              (sessions srv))
    as (session & sessions1 & Hg & Hhist & Hstored & Hothers & Hid).
  specialize (Hid Hkeyed).
  unfold query_agent, query_agent_try.
  rewrite (proj1 Hacc), (accepted_passes _ _ _ Hacc), Hg, Hhist, Hrun, Hresp.
  destruct answer as [| c text]; [done |].
  eexists _, _, _, _. split; [reflexivity |].
  split; [reflexivity |]. split; [done |].
  split; [by rewrite Hid, <- app_assoc |].
  cbn [QueryResponse.session_id sessions sys].
  unfold get_session, SessionService.get_session,
    SessionService.update_session. cbn [sessions Session.session_id].
  rewrite lookup_insert_eq.
  split; [reflexivity |]. split; [reflexivity |].
  split; [cbn; by rewrite <- app_assoc |].
  split; [reflexivity |]. split; [reflexivity |]. split; [reflexivity |].
  split; [| reflexivity].
  intros k Hk. rewrite lookup_insert_ne by done.
  apply Hothers. by rewrite <- Hid.
Qed.


(** What a request that was answered has stored. *)
Lemma query_agent_answered (req : QueryRequest.t) (srv : Server)
    (r : QueryResponse.t) (srv' : Server) :
  query_agent env w req srv = (inl r, srv') →
  ∃ session,
    sessions srv' !! Session.session_id session = Some session
    ∧ Session.session_id session = QueryResponse.session_id r
    ∧ Session.conversation_history session
      = QueryResponse.conversation_history r.
Proof.
  unfold query_agent, query_agent_try.
  destruct (sanitize_query env _) as [q | text]; [| done].
  destruct (_ && _); [done |].
  destruct (SessionService.get_or_create_session _ _ _ _)
    as [session sessions1].
  destruct (agent_invoke w _ (sys srv)) as [[result | e] σ]; [| done].
  destruct (response result) as [[| c text] |]; try done.
  intros [= <- <-]. eexists. cbn [sessions].
  unfold SessionService.update_session. rewrite lookup_insert_eq.
  split; [reflexivity |]. by split.
Qed.

(** The sessions stay stored under their own identifiers. *)
Lemma query_agent_keyed (req : QueryRequest.t) (srv : Server) :
  keyed_by_id (sessions srv) →
  keyed_by_id (sessions (query_agent env w req srv).2).
Proof.
  intros Hkeyed. unfold query_agent, query_agent_try.
  destruct (sanitize_query env _) as [q | text]; [| done].
  destruct (_ && _); [done |].
  destruct (get_or_create_session_cases env (QueryRequest.session_id req)
              (sessions srv))
    as (session & sessions1 & Hg & _ & Hstored & Hothers & Hid).
  rewrite Hg. specialize (Hid Hkeyed).
  assert (keyed_by_id sessions1) as Hkeyed1.
  { intros k s Hk.
    destruct (decide (k = served_id env (QueryRequest.session_id req)))
      as [-> | Hne].
    - rewrite Hstored in Hk. by injection Hk as <-.
    - rewrite Hothers in Hk by done. by apply Hkeyed. }
  destruct (agent_invoke w _ (sys srv)) as [[result | e] σ]; [| done].
  destruct (response result) as [[| c text] |]; try done.
  cbn [snd sessions]. unfold SessionService.update_session.
  cbn [Session.session_id].
  intros k s Hk.
  destruct (decide (k = Session.session_id session)) as [-> | Hne].
  - rewrite lookup_insert_eq in Hk. by injection Hk as <-.
  - rewrite lookup_insert_ne in Hk by done. by apply Hkeyed1.
Qed.

(** A request that gives the identifier of an answered one continues its
    conversation: the agent is run on the conversation the first answer
    returned, followed by the new query, and the second answer returns that
    conversation with the new turn at its end, under the same identifier. *)
Theorem second_request_continues_conversation
    (env2 : Env) (req1 req2 : QueryRequest.t) (srv srv1 : Server)
    (r1 : QueryResponse.t) (q2 : string) :
  query_agent env w req1 srv = (inl r1, srv1) →
  QueryRequest.session_id req2 = Some (QueryResponse.session_id r1) →
  QueryResponse.session_id r1 ≠ "" →
  accepted env2 req2 q2 →
  prior_history (QueryRequest.session_id req2) (sessions srv1)
  = QueryResponse.conversation_history r1
  ∧ ∀ final σ2,
      agent_invoke w
        (initial_state q2
           (QueryResponse.conversation_history r1 ++ [Message "user" q2]))
        (sys srv1) = (Returns final, σ2) →
      ∃ answer r2 srv2,
        query_agent env2 w req2 srv1 = (inl r2, srv2)
        ∧ response final = Some answer
        ∧ QueryResponse.answer r2 = answer
        ∧ QueryResponse.session_id r2 = QueryResponse.session_id r1
        ∧ QueryResponse.conversation_history r2
          = QueryResponse.conversation_history r1
            ++ [Message "user" q2; Message "assistant" answer].
Proof.
  intros H1 Hsame Hne Hacc.
  destruct (query_agent_answered _ _ _ _ H1) as (session & Hs & Hid & Hhist).
  rewrite Hid in Hs.
  assert (given (QueryRequest.session_id req2) = true) as Hgiven.
  { rewrite Hsame. cbn. by rewrite bool_decide_false. }
  split.
  { unfold prior_history. rewrite Hgiven, Hsame. cbn [from_option id].
    by rewrite Hs. }
  intros final σ2 Hrun.
  destruct (run_intent_response 22 (initial_state q2 _) _ _ _ eq_refl Hrun)
    as (answer & Hresp & Hanswer).
  assert (SessionService.get_or_create_session (uuid4 env2)
            (now_isoformat env2) (QueryRequest.session_id req2)
            (sessions srv1) = (session, sessions srv1)) as Hg.
  { unfold SessionService.get_or_create_session.
    rewrite Hgiven, Hsame. cbn [from_option id]. by rewrite Hs. }
  destruct answer as [| c text]; [done |].
  exists (String c text). eexists _, _.
  split.
  { unfold query_agent, query_agent_try.
    rewrite (proj1 Hacc), (accepted_passes _ _ _ Hacc), Hg, Hhist, Hrun,
      Hresp. reflexivity. }
  split; [done |]. split; [reflexivity |]. split; [exact Hid |].
  cbn. by rewrite <- app_assoc.
Qed.


End Requests.

(** Every session stays stored under its own identifier: this holds of the
    empty store and is kept by every request to [query_agent], whatever its
    outcome, and by [clear_session]; and the identifier an answer returns is
    one under which a session is stored. *)
Theorem sessions_stay_keyed_by_id (env : Env) (w : World) (srv : Server) :
  keyed_by_id ∅
  ∧ (keyed_by_id (sessions srv) →
     (∀ req, keyed_by_id (sessions (query_agent env w req srv).2))
     ∧ (∀ session_id,
          keyed_by_id (sessions (clear_session session_id srv).2)))
  ∧ (∀ req r srv',
       query_agent env w req srv = (inl r, srv') →
       is_Some (sessions srv' !! QueryResponse.session_id r)).
Proof.
  split; [by intros k s Hk |]. split.
  - intros Hkeyed. split; [intros req; by apply query_agent_keyed |].
    intros session_id. unfold clear_session, SessionService.delete_session.
    destruct (sessions srv !! session_id); [| done].
    cbn [snd sessions]. intros k s Hk.
    destruct (decide (k = session_id)) as [-> | Hne].
    + by rewrite lookup_delete_eq in Hk.
    + rewrite lookup_delete_ne in Hk by done. by apply Hkeyed.
  - intros req r srv' Hq.
    destruct (query_agent_answered _ _ _ _ _ _ Hq) as (s & Hs & Hid & _).
    rewrite <- Hid. by eexists.
Qed.

(** [clear_session] answers "Session cleared" exactly when a session is
    stored under the identifier, and 404 otherwise; afterwards the session
    cannot be read back, the other sessions and the airport cache are as
    before, and an accepted request that gives the identifier starts a new
    conversation under it: the agent is run on the new query alone. *)
Theorem cleared_session_starts_afresh
    (env : Env) (w : World) (session_id : string) (srv : Server)
    (req : QueryRequest.t) (q : string) :
  QueryRequest.session_id req = Some session_id →
  session_id ≠ "" →
  accepted env req q →
  ∃ result srv1,
    clear_session session_id srv = (result, srv1)
    ∧ (is_Some (sessions srv !! session_id) → result = inl "Session cleared")
    ∧ (sessions srv !! session_id = None →
       result = inr {| HTTPException.status_code := 404;
                       HTTPException.detail := "Session not found" |})
    ∧ get_session session_id srv1
      = inr {| HTTPException.status_code := 404;
               HTTPException.detail := "Session not found" |}
    ∧ (∀ k, k ≠ session_id → sessions srv1 !! k = sessions srv !! k)
    ∧ sys srv1 = sys srv
    ∧ ∀ final σ',
        agent_invoke w (initial_state q [Message "user" q]) (sys srv)
        = (Returns final, σ') →
        ∃ answer r srv2,
          query_agent env w req srv1 = (inl r, srv2)
          ∧ QueryResponse.session_id r = session_id
          ∧ QueryResponse.conversation_history r
            = [Message "user" q; Message "assistant" answer].
Proof.
  intros Hsid Hne Hacc.
  assert (given (QueryRequest.session_id req) = true) as Hgiven.
  { rewrite Hsid. cbn. by rewrite bool_decide_false. }
  assert (∃ result srv1,
            clear_session session_id srv = (result, srv1)
            ∧ (is_Some (sessions srv !! session_id) →
               result = inl "Session cleared")
            ∧ (sessions srv !! session_id = None →
               result = inr {| HTTPException.status_code := 404;
                               HTTPException.detail := "Session not found" |})
            ∧ sessions srv1 !! session_id = None
            ∧ (∀ k, k ≠ session_id → sessions srv1 !! k = sessions srv !! k)
            ∧ sys srv1 = sys srv)
    as (result & srv1 & Hclear & Hok & Hmissing & Hgone & Hothers & Hsys).
  { unfold clear_session, SessionService.delete_session.
    destruct (sessions srv !! session_id) as [s |] eqn:Hs.
    - eexists _, _. split; [reflexivity |]. cbn [sessions sys].
      split; [done |]. split; [done |].
      split; [by rewrite lookup_delete_eq |]. split; [| done].
      intros k Hk. by rewrite lookup_delete_ne.
    - eexists _, _. split; [reflexivity |]. cbn [sessions sys].
      split; [by intros [? ?] |]. by repeat split. }
  exists result, srv1. split; [exact Hclear |].
  split; [exact Hok |]. split; [exact Hmissing |].
  split; [unfold get_session, SessionService.get_session; by rewrite Hgone |].
  split; [exact Hothers |]. split; [exact Hsys |].
  intros final σ' Hrun.
  destruct (run_intent_response w 22 (initial_state q _) _ _ _ eq_refl Hrun)
    as (answer & Hresp & Hanswer).
  destruct answer as [| c text]; [done |].
  exists (String c text). eexists _, _.
  split.
  { unfold query_agent, query_agent_try.
    rewrite (proj1 Hacc), (accepted_passes _ _ _ Hacc).
    unfold SessionService.get_or_create_session.
    rewrite Hgiven, Hsid. cbn [from_option id]. rewrite Hgone.
    cbn [SessionService.new_session Session.conversation_history app].
    rewrite Hsys, Hrun, Hresp. reflexivity. }
  by split.
Qed.

Lemma query_agent_records_turn_witness :
  ∃ r srv',
    query_agent an_env world_400
      (a_request "Book a flight from BOM to DEL on 2026-12-01" None)
      empty_server = (inl r, srv')
    ∧ QueryResponse.answer r = no_results
    ∧ QueryResponse.session_id r = "123e4567-e89b-12d3-a456-426614174000"
    ∧ QueryResponse.conversation_history r
      = [Message "user" "Book a flight from BOM to DEL on 2026-12-01";
         Message "assistant" no_results].
Proof.
  edestruct (query_agent_records_turn an_env world_400
               (a_request "Book a flight from BOM to DEL on 2026-12-01" None)
               empty_server "Book a flight from BOM to DEL on 2026-12-01")
    as (answer & r & srv' & session & Hq & Hresp & _ & Hr & _).
  - split; [reflexivity | discriminate].
  - by intros k s Hk.
  - vm_compute. reflexivity.
  - exists r, srv'. split; [exact Hq |].
    vm_compute in Hresp. injection Hresp as <-. rewrite Hr.
    by repeat split.
Defined.

Lemma second_request_continues_conversation_witness :
  ∃ r1 srv1 r2 srv2,
    query_agent an_env world_400
      (a_request "Book a flight from BOM to DEL on 2026-12-01" None)
      empty_server = (inl r1, srv1)
    ∧ query_agent an_env world_400
        (a_request "Any other day?" (Some (QueryResponse.session_id r1)))
        srv1 = (inl r2, srv2)
    ∧ QueryResponse.session_id r2 = QueryResponse.session_id r1
    ∧ QueryResponse.conversation_history r2
      = [Message "user" "Book a flight from BOM to DEL on 2026-12-01";
         Message "assistant" no_results;
         Message "user" "Any other day?";
         Message "assistant" no_results].
Proof.
  evar (r1 : QueryResponse.t). evar (srv1 : Server).
  assert (query_agent an_env world_400
            (a_request "Book a flight from BOM to DEL on 2026-12-01" None)
            empty_server = (inl r1, srv1)) as H1
    by (unfold r1, srv1; vm_compute; reflexivity).
  exists r1, srv1.
  edestruct (second_request_continues_conversation an_env world_400 an_env
               _ (a_request "Any other day?"
                    (Some (QueryResponse.session_id r1)))
               _ _ _ "Any other day?" H1) as [_ Hcont].
  - reflexivity.
  - discriminate.
  - split; [reflexivity | intros _; reflexivity].
  - edestruct Hcont as (answer & r2 & srv2 & Hq & Hresp & _ & Hid & Hhist).
    + vm_compute. reflexivity.
    + exists r2, srv2. split; [exact H1 |]. split; [exact Hq |].
      split; [exact Hid |]. rewrite Hhist.
      vm_compute in Hresp. injection Hresp as <-. reflexivity.
Defined.


Lemma cleared_session_starts_afresh_witness :
  ∃ srv1 r srv2,
    clear_session "123e4567-e89b-12d3-a456-426614174000" server_with_session
    = (inl "Session cleared", srv1)
    ∧ query_agent an_env world_400
        (a_request "Book a flight from BOM to DEL on 2026-12-01"
           (Some "123e4567-e89b-12d3-a456-426614174000"))
        srv1 = (inl r, srv2)
    ∧ QueryResponse.session_id r = "123e4567-e89b-12d3-a456-426614174000"
    ∧ length (QueryResponse.conversation_history r) = 2%nat.
Proof.
  edestruct (cleared_session_starts_afresh an_env world_400
               "123e4567-e89b-12d3-a456-426614174000" server_with_session
               (a_request "Book a flight from BOM to DEL on 2026-12-01"
                  (Some "123e4567-e89b-12d3-a456-426614174000"))
               "Book a flight from BOM to DEL on 2026-12-01")
    as (result & srv1 & Hclear & Hok & _ & _ & _ & _ & Hfresh).
  - reflexivity.
  - discriminate.
  - split; [reflexivity | intros _; reflexivity].
  - edestruct Hfresh as (answer & r & srv2 & Hq & Hid & Hhist).
    + vm_compute. reflexivity.
    + exists srv1, r, srv2. split.
      * rewrite Hclear. f_equal. apply Hok. by eexists.
      * split; [exact Hq |]. split; [exact Hid |]. by rewrite Hhist.
Defined.
